(** * Data Explorer: a shallow embedding of [dataexplorerapp.py]

    The program loads an uploaded table, coerces text columns that look
    like dates, builds one filter control per column, applies the
    submitted filters and offers the result for download.

    Conventions of the embedding:
    - a date is its proleptic ordinal, an integer ([Z]); a timestamp is a
      date and a time of day;
    - a float is a rational ([Q]) or NaN; comparisons follow IEEE: every
      comparison with NaN is false;
    - a Python [dict] is an association list in insertion order, assignment
      to a present key replaces the value in place;
    - an exception is a value of [exn]; a call that may raise returns a
      [result];
    - the Streamlit calls that report something to the user or offer a
      download are logged as [event]s, widgets that return user input read
      it from a record of the submitted values. *)

From Stdlib Require Import String Ascii List Bool Arith ZArith QArith Lia.
From Stdlib Require Import DecimalString Permutation.
Import ListNotations.
Close Scope Q_scope.
Close Scope Z_scope.
Open Scope string_scope.
Open Scope list_scope.
Open Scope nat_scope.

Set Implicit Arguments.

(** ** Strings *)

Module Str.

(** [str.lower()] on the ASCII range; other code points are left as they
    are. *)
Definition lower_ascii (c : ascii) : ascii :=
  let n := nat_of_ascii c in
  if (65 <=? n) && (n <=? 90) then ascii_of_nat (n + 32) else c.

Fixpoint lower (s : string) : string :=
  match s with
  | EmptyString => EmptyString
  | String c s' => String (lower_ascii c) (lower s')
  end.

(** [s.startswith(p)] *)
Definition startswith (p s : string) : bool := String.prefix p s.

(** [s.endswith(suf)] *)
Definition endswith (suf s : string) : bool :=
  let n := String.length s in
  let m := String.length suf in
  if m <=? n then String.eqb (String.substring (n - m) m s) suf else false.

(** [s.replace(old, new)] for a non-empty [old]: the leftmost occurrences,
    not overlapping.  [skip] counts the characters of a matched occurrence
    that are still to be dropped. *)
Fixpoint replace_from (old new : string) (skip : nat) (s : string) : string :=
  match s with
  | EmptyString => EmptyString
  | String c s' =>
      match skip with
      | S k => replace_from old new k s'
      | O =>
          if String.prefix old s
          then (new ++ replace_from old new (String.length old - 1) s')%string
          else String c (replace_from old new 0 s')
      end
  end.

Definition replace (old new s : string) : string := replace_from old new 0 s.

(** [p in s] *)
Fixpoint contains (p s : string) : bool :=
  match s with
  | EmptyString => String.prefix p EmptyString
  | String _ s' => String.prefix p s || contains p s'
  end.

(** The characters the [re] module gives a meaning of their own. *)
Definition regex_special (c : ascii) : bool :=
  existsb (Ascii.eqb c)
    ["."; "^"; "$"; "*"; "+"; "?"; "{"; "}"; "["; "]"; "\"; "|"; "("; ")"]%char.

Fixpoint regex_plain (p : string) : bool :=
  match p with
  | EmptyString => true
  | String c p' => negb (regex_special c) && regex_plain p'
  end.

(** [s[-1]], when there is one. *)
Fixpoint last_char (s : string) : option ascii :=
  match s with
  | EmptyString => None
  | String c EmptyString => Some c
  | String _ s' => last_char s'
  end.

(** [str(n)] for a natural number. *)
Definition of_nat (n : nat) : string := NilZero.string_of_uint (Nat.to_uint n).

(** [f'{n:,}']: the digits in groups of three from the right, a comma
    between the groups.  [group3] reads the digits from the last one, [k]
    counting those of the group at hand. *)
Fixpoint group3 (rev_digits : list ascii) (k : nat) : list ascii :=
  match rev_digits with
  | [] => []
  | c :: rest =>
      match k with
      | 3 => ","%char :: c :: group3 rest 1
      | _ => c :: group3 rest (S k)
      end
  end.

Definition with_commas (n : nat) : string :=
  string_of_list_ascii (rev (group3 (rev (list_ascii_of_string (of_nat n))) 0)).

End Str.

(** ** Exceptions and results *)

Inductive exn : Type :=
| ValueError (msg : string)
| KeyError (key : string)
| AttributeError (msg : string)
| TypeError (msg : string)
| OtherError (msg : string).

(** [str(e)] of an exception, as the f-strings of [main] print it. *)
Definition exn_str (e : exn) : string :=
  match e with
  | ValueError m | AttributeError m | TypeError m | OtherError m => m
  | KeyError k => ("'" ++ k ++ "'")%string
  end.

Inductive result (A : Type) : Type :=
| Ok (a : A)
| Raise (e : exn).

Arguments Ok {A} a.
Arguments Raise {A} e.

Definition rbind {A B : Type} (r : result A) (k : A -> result B) : result B :=
  match r with
  | Ok a => k a
  | Raise e => Raise e
  end.

Declare Scope result_scope.
Delimit Scope result_scope with result.
Notation "x <- r ;; k" := (rbind r (fun x => k))
  (at level 61, r at next level, right associativity) : result_scope.
Notation "' pat <- r ;; k" := (rbind r (fun x => match x with pat => k end))
  (at level 61, pat pattern, r at next level, right associativity) : result_scope.

(** ** Tables

    A [DataFrame] is kept row by row: the column labels with their dtypes,
    and the rows, each holding one cell per column.  Row labels are not
    kept: every mask the program uses is computed from the very table it
    selects from, and the export drops the index.  A cell holds a scalar:
    a number, a timestamp, a string or a missing value; tables with lists
    or dictionaries in their cells are not among the tables described. *)

Definition date := Z.

Inductive cell : Type :=
| CNum (q : Q)                  (* an int, a float or a bool *)
| CTs (day : date) (tod : Z)    (* a timestamp: date and time of day *)
| CStr (s : string)
| CNaN                          (* float('nan') *)
| CNone                         (* None *)
| CNaT.                         (* pd.NaT *)

Arguments CNum q%_Q.
Arguments CTs day%_Z tod%_Z.

(** [pd.isna] *)
Definition isna (c : cell) : bool :=
  match c with
  | CNaN | CNone | CNaT => true
  | _ => false
  end.

(** Equality of cells as [isin] and [unique] see it: missing values of one
    kind are equal to each other. *)
Definition cell_eqb (a b : cell) : bool :=
  match a, b with
  | CNum x, CNum y => Qeq_bool x y
  | CTs d t, CTs d' t' => Z.eqb d d' && Z.eqb t t'
  | CStr s, CStr s' => String.eqb s s'
  | CNaN, CNaN | CNone, CNone | CNaT, CNaT => true
  | _, _ => false
  end.

(** The dtypes the program tells apart: [is_numeric_dtype],
    [is_datetime64_any_dtype], [dtype == object], and the rest (categorical,
    extension strings, timedeltas, ...). *)
Inductive dtype : Type := Numeric | Datetime | Object | Other.

Definition dtype_eqb (a b : dtype) : bool :=
  match a, b with
  | Numeric, Numeric | Datetime, Datetime | Object, Object | Other, Other => true
  | _, _ => false
  end.

Definition is_numeric_dtype (t : dtype) : bool := dtype_eqb t Numeric.
Definition is_datetime64_any_dtype (t : dtype) : bool := dtype_eqb t Datetime.

Record Series : Type := mkSeries { s_dtype : dtype; values : list cell }.

Record DataFrame : Type := mkDataFrame {
  columns : list (string * dtype);
  rows : list (list cell)
}.

(** [list(df.columns)] *)
Definition column_names (df : DataFrame) : list string := map fst (columns df).

(** [len(df)] *)
Definition len (df : DataFrame) : nat := length (rows df).

Fixpoint index_of (c : string) (names : list string) : option nat :=
  match names with
  | [] => None
  | n :: names' =>
      if String.eqb c n then Some 0
      else match index_of c names' with
           | Some i => Some (S i)
           | None => None
           end
  end.

(** The cell of a row at a position; a row of a well-formed table has a
    cell at every position of a column. *)
Definition cell_at (i : nat) (r : list cell) : cell := nth i r CNaN.

(** [df[col]]: the first column of that label, [KeyError] without one. *)
Definition getitem (df : DataFrame) (col : string) : result Series :=
  match index_of col (column_names df) with
  | Some i =>
      Ok (mkSeries (nth i (map snd (columns df)) Other)
                   (map (cell_at i) (rows df)))
  | None => Raise (KeyError col)
  end.

(** [df[mask]] for a boolean mask over the rows of [df]. *)
Fixpoint select {A : Type} (mask : list bool) (l : list A) : list A :=
  match mask, l with
  | b :: mask', x :: l' => if b then x :: select mask' l' else select mask' l'
  | _, _ => []
  end.

Definition getitem_mask (df : DataFrame) (mask : list bool) : DataFrame :=
  mkDataFrame (columns df) (select mask (rows df)).

(** [m1 & m2] *)
Fixpoint mask_and (m1 m2 : list bool) : list bool :=
  match m1, m2 with
  | a :: m1', b :: m2' => (a && b) :: mask_and m1' m2'
  | _, _ => []
  end.

(** [df[cols]] for a list of labels: the columns in the order of the list,
    [KeyError] when one is not a column. *)
Fixpoint positions (names : list string) (cols : list string) : result (list nat) :=
  match cols with
  | [] => Ok []
  | c :: cols' =>
      match index_of c names with
      | Some i =>
          match positions names cols' with
          | Ok l => Ok (i :: l)
          | Raise e => Raise e
          end
      | None => Raise (KeyError c)
      end
  end.

Definition getitem_cols (df : DataFrame) (cols : list string) : result DataFrame :=
  match positions (column_names df) cols with
  | Ok ps =>
      Ok (mkDataFrame (map (fun i => nth i (columns df) (EmptyString, Other)) ps)
                      (map (fun r => map (fun i => cell_at i r) ps) (rows df)))
  | Raise e => Raise e
  end.

(** [df.iloc[start:stop]] *)
Definition iloc (df : DataFrame) (start stop : nat) : DataFrame :=
  mkDataFrame (columns df) (firstn (stop - start) (skipn start (rows df))).

(** ** Series operations *)

(** A Python float: a rational or NaN. *)
Inductive float : Type := FNaN | F (q : Q).

Arguments F q%_Q.

(** [a == b] on floats: NaN equals nothing. *)
Definition float_eqb (a b : float) : bool :=
  match a, b with
  | F x, F y => Qeq_bool x y
  | _, _ => false
  end.

(** [a <= b] on floats. *)
Definition float_leb (a b : float) : bool :=
  match a, b with
  | F x, F y => Qle_bool x y
  | _, _ => false
  end.

(** [(a, b) != (c, d)] on pairs of floats that are distinct objects. *)
Definition pair_ne (p q : float * float) : bool :=
  negb (float_eqb (fst p) (fst q) && float_eqb (snd p) (snd q)).

Definition cell_float (c : cell) : float :=
  match c with
  | CNum q => F q
  | _ => FNaN
  end.

Definition Qmin_b (a b : Q) : Q := if Qle_bool a b then a else b.
Definition Qmax_b (a b : Q) : Q := if Qle_bool a b then b else a.

(** The fold behind [min()] and [max()]: missing values are skipped, and a
    column with nothing observed gives NaN. *)
Fixpoint reduce_floats (op : Q -> Q -> Q) (l : list cell) : float :=
  match l with
  | [] => FNaN
  | c :: l' =>
      match cell_float c, reduce_floats op l' with
      | F x, F m => F (op x m)
      | F x, FNaN => F x
      | FNaN, r => r
      end
  end.

(** [float(s.min())] and [float(s.max())]: for a numeric column. *)
Definition float_min (s : Series) : result float :=
  if is_numeric_dtype (s_dtype s) then Ok (reduce_floats Qmin_b (values s))
  else Raise (TypeError "float() argument must be a string or a real number").

Definition float_max (s : Series) : result float :=
  if is_numeric_dtype (s_dtype s) then Ok (reduce_floats Qmax_b (values s))
  else Raise (TypeError "float() argument must be a string or a real number").

(** [s.between(low, high)]: inclusive on both sides, false on a missing
    value; for a numeric column. *)
Definition between_cell (low high : float) (c : cell) : bool :=
  float_leb low (cell_float c) && float_leb (cell_float c) high.

Definition between (s : Series) (low high : float) : result (list bool) :=
  if is_numeric_dtype (s_dtype s) then Ok (map (between_cell low high) (values s))
  else Raise (TypeError "'>=' not supported between these instances").

(** [s.dt.date]: the date of each timestamp, missing for NaT; only a
    datetime column has the accessor. *)
Definition date_of (c : cell) : option date :=
  match c with
  | CTs d _ => Some d
  | _ => None
  end.

Definition dt_date (s : Series) : result (list (option date)) :=
  if is_datetime64_any_dtype (s_dtype s) then Ok (map date_of (values s))
  else Raise (AttributeError "Can only use .dt accessor with datetimelike values").

(** [dates >= d] and [dates <= d], element by element; a missing date
    compares false. *)
Definition date_ge (d : date) (x : option date) : bool :=
  match x with
  | Some v => (d <=? v)%Z
  | None => false
  end.

Definition date_le (d : date) (x : option date) : bool :=
  match x with
  | Some v => (v <=? d)%Z
  | None => false
  end.

(** [dates.min()] and [dates.max()], missing dates skipped; [None] when no
    date is observed. *)
Fixpoint reduce_dates (op : Z -> Z -> Z) (l : list (option date)) : option date :=
  match l with
  | [] => None
  | x :: l' =>
      match x, reduce_dates op l' with
      | Some v, Some m => Some (op v m)
      | Some v, None => Some v
      | None, r => r
      end
  end.

Definition dates_min : list (option date) -> option date := reduce_dates Z.min.
Definition dates_max : list (option date) -> option date := reduce_dates Z.max.

(** [d == x] for a date [d] and the result of [min()] or [max()]. *)
Definition date_is (d : date) (x : option date) : bool :=
  match x with
  | Some v => Z.eqb d v
  | None => false
  end.

(** [s.isin(sel)] *)
Definition isin (s : Series) (sel : list cell) : list bool :=
  map (fun c => existsb (cell_eqb c) sel) (values s).

(** [str(c)] for the values of a text column, as [astype(str)] renders
    an object column (the dtype line 148 tests for): a string is itself,
    and a missing value is rendered by its name.  The text of numbers and
    timestamps is not modelled. *)
Definition cell_str (c : cell) : option string :=
  match c with
  | CStr s => Some s
  | CNaN => Some "nan"
  | CNone => Some "None"
  | CNaT => Some "NaT"
  | CNum _ | CTs _ _ => None
  end.

(** [s.astype(str)] *)
Fixpoint astype_str (l : list cell) : result (list string) :=
  match l with
  | [] => Ok []
  | c :: l' =>
      match cell_str c, astype_str l' with
      | Some s, Ok r => Ok (s :: r)
      | None, _ => Raise (OtherError "str() of a number or a timestamp is not modelled")
      | _, Raise e => Raise e
      end
  end.

(** [strs.str.contains(text, case=False, na=False)].  The pattern is a
    regular expression; one without special characters matches where it
    occurs as a substring, letter case ignored.  Other patterns are not
    modelled.  The strings come out of [astype(str)], so none is missing
    and [na] decides nothing. *)
Definition contains_ci (text s : string) : bool :=
  Str.contains (Str.lower text) (Str.lower s).

Definition str_contains (strs : list string) (text : string) : result (list bool) :=
  if Str.regex_plain text then Ok (map (contains_ci text) strs)
  else Raise (OtherError "a pattern with special characters is not modelled").

(** [len(s.dropna().unique())] *)
Fixpoint unique (l : list cell) : list cell :=
  match l with
  | [] => []
  | c :: l' => c :: filter (fun x => negb (cell_eqb c x)) (unique l')
  end.

Definition dropna (l : list cell) : list cell := filter (fun c => negb (isna c)) l.

(** [a < b] is defined in Python between two numbers, two timestamps and
    two strings; between values of two of these kinds it raises
    [TypeError]. *)
Definition comparable (a b : cell) : bool :=
  match a, b with
  | CNum _, CNum _ | CTs _ _, CTs _ _ | CStr _, CStr _ => true
  | _, _ => false
  end.

(** [a <= b] where it is defined: numbers by value, timestamps by date and
    time of day, strings by their characters. *)
Definition cell_leb (a b : cell) : bool :=
  match a, b with
  | CNum x, CNum y => Qle_bool x y
  | CTs d t, CTs d' t' => (d <? d')%Z || ((d =? d')%Z && (t <=? t')%Z)
  | CStr s, CStr s' => String.leb s s'
  | _, _ => false
  end.

Fixpoint insert_sorted (c : cell) (l : list cell) : list cell :=
  match l with
  | [] => [c]
  | x :: l' => if cell_leb c x then c :: l else x :: insert_sorted c l'
  end.

Fixpoint sort_cells (l : list cell) : list cell :=
  match l with
  | [] => []
  | c :: l' => insert_sorted c (sort_cells l')
  end.

(** [sorted(l)] for the values of a column without the missing ones, which
    line 60 drops first: the values in ascending order when they are of
    one kind.  A sort of values of two kinds comes to compare two of
    them, and that comparison raises; the message names the two types,
    which the cells do not record. *)
Definition sorted (l : list cell) : result (list cell) :=
  match l with
  | [] => Ok []
  | c :: l' =>
      if forallb (comparable c) l' then Ok (sort_cells l)
      else Raise (TypeError "'<' not supported between instances of two types")
  end.

(** Lines 42-44: the default of the window widget, from the dates of the
    time column: the last date of the table, and seven days before it or
    the first date of the table, whichever is later.  Without a date in
    the column [min()] and [max()] are NaN, and the [max] of line 44
    compares NaN with the NaT that [NaN - pd.Timedelta(days=7)] gives,
    which raises [TypeError]. *)
Definition default_window (col_dates : list (option date)) : result (date * date) :=
  match dates_min col_dates, dates_max col_dates with
  | Some dataset_min, Some dataset_max =>
      let default_end := dataset_max in
      let default_start := Z.max dataset_min (default_end - 7) in
      Ok (default_start, default_end)
  | _, _ => Raise (TypeError "'>' not supported between instances of 'NaTType' and 'float'")
  end.

(** ** The user interface

    What the page shows is a log of events; what the user entered in the
    form is a record of the values the widgets return. *)

Inductive payload : Type :=
| Bytes (s : string)
| ZipBytes (members : list (string * string)).

Inductive event : Type :=
| StError (msg : string)
| StWarning (msg : string)
| StInfo (msg : string)
| StCaption (msg : string)
| DownloadButton (label : string) (data : payload) (file_name mime : string).

(** The value of a date-range widget is a tuple of the dates picked so
    far; the value of a multiselect is the list of the picked options. *)
Inductive selection : Type :=
| DateTuple (t : list date)
| Values (l : list cell).

Record form_input : Type := mkForm {
  (* st.multiselect('Columns to include in export', ...) *)
  selected_columns : list string;
  (* st.selectbox('Time column ...'): the position picked, if any *)
  time_col_pick : option nat;
  (* st.date_input('Select date range ...') *)
  date_range : list date;
  (* st.slider(f'{col} range', min, max, (min, max)) by column *)
  slider : string -> float * float -> float * float;
  (* st.date_input(f'{col} date range (optional)', (min, max)) by column *)
  date_input : string -> option date * option date -> list date;
  (* st.multiselect(f'{col} values', unique_vals) by column *)
  multiselect : string -> list cell -> list cell;
  (* st.text_input(f'Substring in {col}') by column *)
  text_input : string -> string;
  (* st.form_submit_button('Apply filters') *)
  submitted : bool
}.

(** ** Dictionaries *)

Fixpoint dict_set {V : Type} (k : string) (v : V) (d : list (string * V))
  : list (string * V) :=
  match d with
  | [] => [(k, v)]
  | (k', v') :: d' =>
      if String.eqb k k' then (k, v) :: d' else (k', v') :: dict_set k v d'
  end.

Record controls : Type := mkControls {
  numeric_ranges : list (string * (float * float));
  substrings : list (string * string);
  categorical_selections : list (string * selection)
}.

Definition no_controls : controls := mkControls [] [] [].

(** ** [build_filters_form] *)

Section BuildFiltersForm.

Open Scope result_scope.

Variable ui : form_input.

(** The body of the loop over [df.columns] (lines 50-64): one control per
    column other than the time column, chosen by the column's dtype.  The
    options of the multiselect are the distinct values of the column,
    sorted; sorting them raises when they are not of one kind. *)
Definition add_control (df : DataFrame) (time_col : string) (acc : controls)
    (col : string) : result controls :=
  if String.eqb col time_col then Ok acc
  else
    s <- getitem df col ;;
    if is_numeric_dtype (s_dtype s) then
      min_val <- float_min s ;;
      max_val <- float_max s ;;
      Ok (mkControls
            (dict_set col (slider ui col (min_val, max_val)) (numeric_ranges acc))
            (substrings acc)
            (categorical_selections acc))
    else if is_datetime64_any_dtype (s_dtype s) then
      d <- dt_date s ;;
      Ok (mkControls
            (numeric_ranges acc)
            (substrings acc)
            (dict_set ("__dt__" ++ col)%string
               (DateTuple (date_input ui col (dates_min d, dates_max d)))
               (categorical_selections acc)))
    else
      unique_vals <- sorted (unique (dropna (values s))) ;;
      if length unique_vals <=? 100 then
        Ok (mkControls
              (numeric_ranges acc)
              (substrings acc)
              (dict_set col (Values (multiselect ui col unique_vals))
                 (categorical_selections acc)))
      else
        Ok (mkControls
              (numeric_ranges acc)
              (dict_set col (text_input ui col) (substrings acc))
              (categorical_selections acc)).

Fixpoint collect_controls (df : DataFrame) (time_col : string)
    (cols : list string) (acc : controls) : result controls :=
  match cols with
  | [] => Ok acc
  | col :: cols' =>
      acc' <- add_control df time_col acc col ;;
      collect_controls df time_col cols' acc'
  end.

End BuildFiltersForm.

Section ApplyFilters.

Open Scope result_scope.

(** A [for] loop over the items of a dictionary that rebinds [filtered]
    and stops at the first exception. *)
Fixpoint for_items {V : Type} (body : DataFrame -> string * V -> result DataFrame)
    (items : list (string * V)) (filtered : DataFrame) : result DataFrame :=
  match items with
  | [] => Ok filtered
  | item :: items' =>
      filtered' <- body filtered item ;;
      for_items body items' filtered'
  end.

(** The window mask of a column of dates, inclusive at both ends. *)
Definition window_mask (s e : date) (dates : list (option date)) : list bool :=
  mask_and (map (date_ge s) dates) (map (date_le e) dates).

(** Lines 83-85: a numeric range narrows the rows unless it is the full
    range of the column in [df]. *)
Definition numeric_step (df filtered : DataFrame)
    (item : string * (float * float)) : result DataFrame :=
  let '(col, (low, high)) := item in
  s <- getitem df col ;;
  lo <- float_min s ;;
  hi <- float_max s ;;
  if pair_ne (low, high) (lo, hi) then
    fs <- getitem filtered col ;;
    m <- between fs low high ;;
    Ok (getitem_mask filtered m)
  else Ok filtered.

(** Lines 87-97: a key that starts with [__dt__] is a date range on the
    column named by the rest of the key, every other key a set of allowed
    values of the column of that name. *)
Definition categorical_step (df filtered : DataFrame)
    (item : string * selection) : result DataFrame :=
  let '(key, rng) := item in
  if Str.startswith "__dt__" key then
    let col := Str.replace "__dt__" "" key in
    match rng with
    | DateTuple [s; e] =>
        sd <- getitem df col ;;
        d <- dt_date sd ;;
        if negb (date_is s (dates_min d) && date_is e (dates_max d)) then
          fs <- getitem filtered col ;;
          fd <- dt_date fs ;;
          Ok (getitem_mask filtered (window_mask s e fd))
        else Ok filtered
    | _ => Ok filtered
    end
  else
    match rng with
    | Values [] | DateTuple [] => Ok filtered
    | Values sel =>
        fs <- getitem filtered key ;;
        Ok (getitem_mask filtered (isin fs sel))
    | DateTuple _ =>
        _ <- getitem filtered key ;;
        Raise (OtherError "isin with a tuple of dates is not modelled")
    end.

(** Lines 99-101: a non-empty text keeps the rows whose value, as a
    string, contains it. *)
Definition substring_step (filtered : DataFrame) (item : string * string)
  : result DataFrame :=
  let '(col, text) := item in
  match text with
  | EmptyString => Ok filtered
  | _ =>
      fs <- getitem filtered col ;;
      strs <- astype_str (values fs) ;;
      m <- str_contains strs text ;;
      Ok (getitem_mask filtered m)
  end.

(** Lines 79-103. *)
Definition filter_rows (df : DataFrame) (time_col : string)
    (start_date end_date : date) (cs : controls) (selected : list string)
  : result DataFrame :=
  ts <- getitem df time_col ;;
  d <- dt_date ts ;;
  let filtered := getitem_mask df (window_mask start_date end_date d) in
  filtered <- for_items (numeric_step df) (numeric_ranges cs) filtered ;;
  filtered <- for_items (categorical_step df) (categorical_selections cs) filtered ;;
  filtered <- for_items substring_step (substrings cs) filtered ;;
  getitem_cols filtered selected.

Definition msg_incomplete_window : string :=
  "Please select a start and end date for the time window.".
Definition msg_window_too_long : string :=
  "Selected time window exceeds 30 days. Please choose 30 days or less.".
Definition msg_no_datetime : string :=
  "No datetime columns found. A time column is required for export.".

(** Lines 71-104: the checks of the submitted window, then the filters.
    The function returns what it reported and either its pair or the
    exception that ended it. *)
Definition apply_filters (df : DataFrame) (time_col : string)
    (date_range : list date) (cs : controls) (selected : list string)
  : list event * result (option DataFrame * bool) :=
  match date_range with
  | [start_date; end_date] =>
      if (30 <? end_date - start_date)%Z then
        ([StError msg_window_too_long], Ok (None, false))
      else
        ([], filtered <- filter_rows df time_col start_date end_date cs selected ;;
             Ok (Some filtered, true))
  | _ => ([StWarning msg_incomplete_window], Ok (None, false))
  end.

(** [[c for c in df.columns if is_datetime64_any_dtype(df[c])]] *)
Definition datetime_cols (df : DataFrame) : list string :=
  filter (fun c => match getitem df c with
                   | Ok s => is_datetime64_any_dtype (s_dtype s)
                   | Raise _ => false
                   end) (column_names df).

(** Lines 29-104.  The window widget (line 45) is shown with the default
    of lines 42-44 and returns the dates the user leaves in it,
    [date_range ui]; computing the default raises on a time column
    without a date. *)
Definition build_filters_form (ui : form_input) (df : DataFrame)
  : list event * result (option DataFrame * bool) :=
  match datetime_cols df with
  | [] => ([StError msg_no_datetime], Ok (None, false))
  | first :: _ =>
      let default_time_col :=
        if existsb (String.eqb "time") (datetime_cols df) then "time" else first in
      let time_col :=
        match time_col_pick ui with
        | Some i => nth i (datetime_cols df) default_time_col
        | None => default_time_col
        end in
      match (ts <- getitem df time_col ;;
             col_dates <- dt_date ts ;;
             _ <- default_window col_dates ;;
             collect_controls ui df time_col (column_names df) no_controls) with
      | Raise e => ([], Raise e)
      | Ok cs =>
          if negb (submitted ui) then ([], Ok (None, false))
          else apply_filters df time_col (date_range ui) cs (selected_columns ui)
      end
  end.

End ApplyFilters.

(** ** Loading, coercion, export and [main]

    The pandas readers and writers are collaborators of the program: any
    functions of these types. *)

Record uploaded_file : Type := mkUpload { name : string; getvalue : string }.

Definition msg_unsupported : string :=
  "Unsupported file type. Please upload Parquet, CSV, JSON, or JSONL".

(** The constant of line 163, [chunk_size = 500_000]. *)
Definition chunk_size : nat := Z.to_nat 500000.

(** [range(start, stop, step)] for a positive step; [fuel] bounds the
    number of elements, and [stop] elements are enough from any start. *)
Fixpoint range_fuel (fuel start stop step : nat) : list nat :=
  match fuel with
  | O => []
  | S fuel' =>
      if start <? stop then start :: range_fuel fuel' (start + step) stop step
      else []
  end.

Definition range (start stop step : nat) : list nat :=
  range_fuel stop start stop step.

Definition part_name (num_parts : nat) : string :=
  ("filtered_part_" ++ Str.of_nat num_parts ++ ".csv")%string.

Section Main.

Open Scope result_scope.

Variable read_parquet : string -> result DataFrame.
Variable read_csv : string -> result DataFrame.
(* pd.read_json(..., lines=True) *)
Variable read_json_lines : string -> result DataFrame.
(* pd.read_json(..., orient='records') *)
Variable read_json_records : string -> result DataFrame.
(* pd.to_datetime(column, errors='coerce'), one value at a time, the
   whole column at hand for the inference of the format: the timestamp
   read, or nothing (NaT) *)
Variable parse_datetime : list cell -> cell -> option (date * Z).
Variable to_csv : DataFrame -> string.
Variable to_parquet : DataFrame -> result string.

(** Lines 11-26. *)
Definition load_file (uploaded : uploaded_file) : result DataFrame :=
  let name := Str.lower (name uploaded) in
  let data := getvalue uploaded in
  if Str.endswith ".parquet" name then read_parquet data
  else if Str.endswith ".csv" name then read_csv data
  else if Str.endswith ".jsonl" name || Str.endswith ".jsonl.gz" name then
    read_json_lines data
  else if Str.endswith ".json" name then
    match read_json_records data with
    | Raise (ValueError _) => read_json_lines data
    | r => r
    end
  else Raise (ValueError msg_unsupported).

(** [pd.to_datetime(s, errors='coerce')] *)
Definition to_datetime (l : list cell) : list cell :=
  map (fun c => match parse_datetime l c with
                | Some (d, t) => CTs d t
                | None => CNaT
                end) l.

(** [parsed.notna().mean() > 0.8].  The mean is the number of parsed
    values over the number of rows, rounded to a double, and NaN for no
    rows; against the double 0.8 the comparison of doubles decides as the
    comparison of the fractions does (for any count below 2^50). *)
Definition notna_count (l : list cell) : nat :=
  length (filter (fun c => negb (isna c)) l).

Definition success_ratio_gt_0_8 (parsed : list cell) : bool :=
  4 * length parsed <? 5 * notna_count parsed.

(** [df[col] = parsed] for a present column: its values are replaced row
    by row, and the column becomes a datetime column. *)
Fixpoint set_nth {A : Type} (i : nat) (x : A) (l : list A) : list A :=
  match l, i with
  | [], _ => []
  | _ :: l', O => x :: l'
  | y :: l', S i' => y :: set_nth i' x l'
  end.

Fixpoint set_cells (i : nat) (vals : list cell) (rs : list (list cell))
  : list (list cell) :=
  match rs, vals with
  | r :: rs', v :: vals' => set_nth i v r :: set_cells i vals' rs'
  | _, _ => rs
  end.

Definition setitem (df : DataFrame) (col : string) (parsed : list cell) : DataFrame :=
  match index_of col (column_names df) with
  | Some i => mkDataFrame (set_nth i (col, Datetime) (columns df))
                          (set_cells i parsed (rows df))
  | None => df
  end.

(** The body of the loop of lines 147-152. *)
Definition coerce_column (df : DataFrame) (col : string) : DataFrame :=
  match getitem df col with
  | Ok s =>
      if dtype_eqb (s_dtype s) Object then
        let parsed := to_datetime (values s) in
        if success_ratio_gt_0_8 parsed then setitem df col parsed else df
      else df
  | Raise _ => df
  end.

Definition coerce_columns (df : DataFrame) : DataFrame :=
  fold_left coerce_column (column_names df) df.

(** Lines 170-175: one archive member per start of [range]. *)
Fixpoint write_parts (filtered : DataFrame) (starts : list nat) (num_parts : nat)
  : list (string * string) :=
  match starts with
  | [] => []
  | start :: starts' =>
      let stop := Nat.min (start + chunk_size) (len filtered) in
      let part := iloc filtered start stop in
      let num_parts := num_parts + 1 in
      (part_name num_parts, to_csv part) :: write_parts filtered starts' num_parts
  end.

(** Lines 163-176. *)
Definition export_csv (filtered : DataFrame) : event :=
  if len filtered <=? chunk_size then
    DownloadButton "Download CSV" (Bytes (to_csv filtered)) "filtered.csv" "text/csv"
  else
    DownloadButton "Download CSV (ZIP, 500k rows per file)"
      (ZipBytes (write_parts filtered (range 0 (len filtered) chunk_size) 0))
      "filtered_parts.zip" "application/zip".

(** Lines 178-183. *)
Definition export_parquet (filtered : DataFrame) : event :=
  match to_parquet filtered with
  | Ok bytes =>
      DownloadButton "Download Parquet" (Bytes bytes) "filtered.parquet"
        "application/octet-stream"
  | Raise e => StCaption ("Parquet download unavailable: " ++ exn_str e)%string
  end.

Definition msg_awaiting : string := "Awaiting file upload...".
Definition msg_set_window : string :=
  "Set the required time window and any other filters, then click Apply to enable export.".

(** The caption of line 161; the sign between the two numbers is the
    multiplication sign, two bytes in UTF-8. *)
Definition times_sign : string :=
  String (ascii_of_nat 195) (String (ascii_of_nat 151) EmptyString).

Definition caption_filtered (filtered : DataFrame) : event :=
  StCaption ("Filtered rows: " ++ Str.with_commas (len filtered) ++ " " ++ times_sign
             ++ " " ++ Str.of_nat (length (columns filtered)) ++ " columns")%string.

(** Lines 130-183: what the page reports and offers, and whether the run
    ended in an exception. *)
Definition main (uploaded : option uploaded_file) (ui : form_input)
  : list event * result unit :=
  match uploaded with
  | None => ([StInfo msg_awaiting], Ok tt)
  | Some up =>
      match load_file up with
      | Raise e => ([StError ("Failed to load file: " ++ exn_str e)%string], Ok tt)
      | Ok df =>
          let df := coerce_columns df in
          match build_filters_form ui df with
          | (log, Raise e) => (log, Raise e)
          | (log, Ok (filtered, applied)) =>
              if negb applied then (log ++ [StInfo msg_set_window], Ok tt)
              else
                match filtered with
                | Some filtered =>
                    (log ++ [caption_filtered filtered; export_csv filtered;
                             export_parquet filtered], Ok tt)
                | None => (log, Raise (TypeError "object of type 'NoneType' has no len()"))
                end
          end
      end
  end.

End Main.

(** ** Vocabulary of the properties *)

(** The extensions [load_file] knows, on a lowercased name. *)
Definition recognized (name : string) : bool :=
  Str.endswith ".parquet" name || Str.endswith ".csv" name ||
  Str.endswith ".jsonl" name || Str.endswith ".jsonl.gz" name ||
  Str.endswith ".json" name.

(** An event that offers an artifact for download. *)
Definition is_download (ev : event) : bool :=
  match ev with
  | DownloadButton _ _ _ _ => true
  | _ => false
  end.

(** The outcome of [build_filters_form] on a window it rejects as too
    long: the error is shown and [(None, False)] returned. *)
Definition window_too_long : list event * result (option DataFrame * bool) :=
  ([StError msg_window_too_long], Ok (None, false)).

(** *** The filters, row by row

    What each step of [filter_rows] asks of a row of the table it is
    given, read off the step: the row predicate of the window, of a
    numeric range, of an entry of [categorical_selections], and of a
    substring.  The theorems below show that [filter_rows] keeps the rows
    that satisfy all of them. *)

Definition column_values (df : DataFrame) (i : nat) : list cell :=
  map (cell_at i) (rows df).

Definition in_window (i : nat) (s e : date) (r : list cell) : bool :=
  date_ge s (date_of (cell_at i r)) && date_le e (date_of (cell_at i r)).

(** The check of line 84 on column [i] of [df]. *)
Definition numeric_narrows (df : DataFrame) (i : nat) (low high : float) : bool :=
  pair_ne (low, high)
    (reduce_floats Qmin_b (column_values df i), reduce_floats Qmax_b (column_values df i)).

(** The check of line 92 on column [i] of [df]. *)
Definition dates_narrow (df : DataFrame) (i : nat) (s e : date) : bool :=
  negb (date_is s (dates_min (map date_of (column_values df i))) &&
        date_is e (dates_max (map date_of (column_values df i)))).

Definition numeric_keep (df : DataFrame) (item : string * (float * float))
    (r : list cell) : bool :=
  let '(col, (low, high)) := item in
  match index_of col (column_names df) with
  | Some i =>
      if numeric_narrows df i low high then between_cell low high (cell_at i r) else true
  | None => true
  end.

Definition categorical_keep (df : DataFrame) (item : string * selection)
    (r : list cell) : bool :=
  let '(key, rng) := item in
  if Str.startswith "__dt__" key then
    match rng with
    | DateTuple [s; e] =>
        match index_of (Str.replace "__dt__" "" key) (column_names df) with
        | Some i => if dates_narrow df i s e then in_window i s e r else true
        | None => true
        end
    | _ => true
    end
  else
    match rng with
    | Values (x :: sel) =>
        match index_of key (column_names df) with
        | Some i => existsb (cell_eqb (cell_at i r)) (x :: sel)
        | None => true
        end
    | _ => true
    end.

Definition substring_keep (df : DataFrame) (item : string * string)
    (r : list cell) : bool :=
  let '(col, text) := item in
  match text with
  | EmptyString => true
  | _ =>
      match index_of col (column_names df) with
      | Some i =>
          match cell_str (cell_at i r) with
          | Some str => contains_ci text str
          | None => false
          end
      | None => true
      end
  end.

Definition keep (df : DataFrame) (time_col : string) (s e : date) (cs : controls)
    (r : list cell) : bool :=
  match index_of time_col (column_names df) with
  | Some i => in_window i s e r
  | None => true
  end &&
  forallb (fun item => numeric_keep df item r) (numeric_ranges cs) &&
  forallb (fun item => categorical_keep df item r) (categorical_selections cs) &&
  forallb (fun item => substring_keep df item r) (substrings cs).

(** *** Controls that name columns of the table

    The conditions under which no step of [filter_rows] raises: every
    column a step looks up is a column of the table, of the dtype the step
    works on; a substring is a plain pattern on a column of strings and
    missing values. *)

Definition has_column (df : DataFrame) (col : string) (t : dtype) : bool :=
  match getitem df col with
  | Ok s => dtype_eqb (s_dtype s) t
  | Raise _ => false
  end.

Definition is_column (df : DataFrame) (col : string) : bool :=
  match index_of col (column_names df) with
  | Some _ => true
  | None => false
  end.

Definition numeric_ok (df : DataFrame) (item : string * (float * float)) : bool :=
  has_column df (fst item) Numeric.

Definition categorical_ok (df : DataFrame) (item : string * selection) : bool :=
  let '(key, rng) := item in
  if Str.startswith "__dt__" key then
    match rng with
    | DateTuple [_; _] => has_column df (Str.replace "__dt__" "" key) Datetime
    | _ => true
    end
  else
    match rng with
    | Values [] | DateTuple [] => true
    | Values _ => is_column df key
    | DateTuple _ => false
    end.

Definition substring_ok (df : DataFrame) (item : string * string) : bool :=
  let '(col, text) := item in
  match text with
  | EmptyString => true
  | _ =>
      match index_of col (column_names df) with
      | Some i =>
          Str.regex_plain text &&
          forallb (fun c => match cell_str c with Some _ => true | None => false end)
                  (column_values df i)
      | None => false
      end
  end.

Definition controls_ok (df : DataFrame) (time_col : string) (cs : controls)
    (selected : list string) : bool :=
  has_column df time_col Datetime &&
  forallb (numeric_ok df) (numeric_ranges cs) &&
  forallb (categorical_ok df) (categorical_selections cs) &&
  forallb (substring_ok df) (substrings cs) &&
  forallb (is_column df) selected.

(** The table [filtered] at any point of [filter_rows]: the columns of
    [df] and some of its rows. *)
Definition narrowed (df : DataFrame) (rs : list (list cell)) : DataFrame :=
  mkDataFrame (columns df) rs.

(** The position of a column of the table, and the table of the selected
    columns of some rows: what [filtered[selected_columns]] returns when
    every selected label is a column. *)
Definition pos (df : DataFrame) (col : string) : nat :=
  match index_of col (column_names df) with
  | Some i => i
  | None => 0
  end.

Definition project_row (df : DataFrame) (selected : list string) (r : list cell)
  : list cell :=
  map (fun c => cell_at (pos df c) r) selected.

Definition projected (df : DataFrame) (selected : list string)
    (rs : list (list cell)) : DataFrame :=
  mkDataFrame (map (fun c => nth (pos df c) (columns df) (EmptyString, Other)) selected)
              (map (project_row df selected) rs).

(** ** Example tables

    A small table of sales: a time column, a numeric column with a missing
    value, and a text column. *)
Definition sales : DataFrame :=
  mkDataFrame [("time", Datetime); ("amount", Numeric); ("region", Object)]
    [[CTs 10 0; CNum 1; CStr "a"];
     [CTs 10 5; CNaN; CStr "a"];
     [CTs 11 0; CNum 5; CStr "b"]].

Definition sales_controls : controls :=
  mkControls [("amount", (F 1, F 5))] [] [("region", Values [CStr "a"])].

Definition sales_columns : list string := ["time"; "amount"; "region"].

(** ** A date parser

    One format [pd.to_datetime] reads: [YYYY-MM-DD], as the date at
    midnight.  Everything else, missing values included, is not a date
    for this parser. *)

Definition digit (c : ascii) : option Z :=
  let n := nat_of_ascii c in
  if (48 <=? n) && (n <=? 57) then Some (Z.of_nat (n - 48)) else None.

Definition is_leap (y : Z) : bool :=
  ((y mod 4 =? 0) && negb (y mod 100 =? 0) || (y mod 400 =? 0))%Z.

Definition days_in_month (y m : Z) : Z :=
  if (m =? 2)%Z then (if is_leap y then 29 else 28)%Z
  else if ((m =? 4) || (m =? 6) || (m =? 9) || (m =? 11))%Z then 30%Z
  else 31%Z.

Definition days_before_month (y m : Z) : Z :=
  (nth (Z.to_nat (m - 1)) [0; 31; 59; 90; 120; 151; 181; 212; 243; 273; 304; 334] 0
   + (if (2 <? m) && is_leap y then 1 else 0))%Z.

(** [datetime.date(y, m, d).toordinal()] *)
Definition toordinal (y m d : Z) : Z :=
  ((y - 1) * 365 + (y - 1) / 4 - (y - 1) / 100 + (y - 1) / 400
   + days_before_month y m + d)%Z.

Definition parse_iso_string (s : string) : option (date * Z) :=
  match s with
  | String y1 (String y2 (String y3 (String y4 (String "-"
      (String m1 (String m2 (String "-" (String d1 (String d2 EmptyString))))))))) =>
      match digit y1, digit y2, digit y3, digit y4, digit m1, digit m2, digit d1, digit d2 with
      | Some a, Some b, Some c, Some d, Some e, Some f, Some g, Some h =>
          let y := (a * 1000 + b * 100 + c * 10 + d)%Z in
          let m := (e * 10 + f)%Z in
          let dd := (g * 10 + h)%Z in
          if ((1 <=? y) && (1 <=? m) && (m <=? 12) && (1 <=? dd)
              && (dd <=? days_in_month y m))%Z
          then Some (toordinal y m dd, 0%Z) else None
      | _, _, _, _, _, _, _, _ => None
      end
  | _ => None
  end.

Definition parse_iso (column : list cell) (c : cell) : option (date * Z) :=
  match c with
  | CStr s => parse_iso_string s
  | _ => None
  end.

(** ** The criterion of the coercion, in the words of the specification

    "If the fraction of successfully parsed non-missing values exceeds
    0.8": the values that parse, over the values of the column that are
    not missing. *)
Definition spec_parsed_fraction_exceeds
    (parse : list cell -> cell -> option (date * Z)) (column : list cell) : bool :=
  let present := dropna column in
  let parsed := filter (fun c => match parse column c with
                                 | Some _ => true
                                 | None => false
                                 end) present in
  4 * length present <? 5 * length parsed.

(** A table whose rows have a cell for every column. *)
Definition well_formed (df : DataFrame) : Prop :=
  Forall (fun r => length r = length (columns df)) (rows df).

(** A text column with one date and one missing value. *)
Definition visits : DataFrame :=
  mkDataFrame [("when", Object)] [[CStr "2024-01-01"]; [CNone]].

(** ** The chunks of the export

    The tables that the loop of lines 171-175 serializes, in order. *)
Definition chunks (filtered : DataFrame) : list DataFrame :=
  map (fun start => iloc filtered start (Nat.min (start + chunk_size) (len filtered)))
      (range 0 (len filtered) chunk_size).

(** The sizes of the chunks of [n] rows cut at [c]: full chunks, then the
    rest if there is one. *)
Definition chunk_sizes (n c : nat) : list nat :=
  repeat c (n / c) ++ (if n mod c =? 0 then [] else [n mod c]).

(** The rows from [start] up to [start + c], or to the end of the list:
    the rows of [iloc[start:min(start + c, len)]]. *)
Definition slice {A : Type} (c : nat) (l : list A) (start : nat) : list A :=
  firstn (Nat.min (start + c) (length l) - start) (skipn start l).

(** A form on [sales]: every column kept, the window of the two days, the
    widgets left at their defaults but for region [a]. *)
Definition sales_form : form_input :=
  mkForm sales_columns None [10; 11]%Z
    (fun _ default => default)
    (fun _ default => match default with
                      | (Some a, Some b) => [a; b]
                      | _ => []
                      end)
    (fun _ _ => [CStr "a"])
    (fun _ => EmptyString)
    true.

(** Readers and writers for the examples: every upload reads as [sales],
    and the Parquet writer is not installed. *)
Definition read_sales (data : string) : result DataFrame := Ok sales.
Definition csv_stub (df : DataFrame) : string := "csv".
Definition no_pyarrow (df : DataFrame) : result string :=
  Raise (OtherError "No module named 'pyarrow'").
Definition sales_upload : uploaded_file := mkUpload "Sales.CSV" "time,amount,region".

(** A table of notes: 101 distinct texts, [item 0] to [item 100], and a
    row whose note is missing.  The note column gets a substring control. *)
Definition notes : DataFrame :=
  mkDataFrame [("time", Datetime); ("note", Object)]
    (map (fun k => [CTs 10 0; CStr ("item " ++ Str.of_nat k)%string]) (seq 0 101)
     ++ [[CTs 10 0; CNaN]]).

(** The form on [notes] with the text [nan] typed for the note column. *)
Definition notes_form : form_input :=
  mkForm ["time"; "note"] None [10; 10]%Z
    (fun _ default => default)
    (fun _ _ => [])
    (fun _ _ => [])
    (fun _ => "nan")
    true.

(** A table with a text column whose label starts with [__dt__]. *)
Definition tagged : DataFrame :=
  mkDataFrame [("time", Datetime); ("__dt__tag", Object)]
    [[CTs 10 0; CStr "a"]; [CTs 10 0; CStr "b"]; [CTs 10 0; CStr "c"]].

(** The form on [tagged] with the value [a] picked for that column. *)
Definition tagged_form : form_input :=
  mkForm ["time"; "__dt__tag"] None [10; 10]%Z
    (fun _ default => default)
    (fun _ _ => [])
    (fun _ _ => [CStr "a"])
    (fun _ => EmptyString)
    true.

(** The controls without one of their entries, given as the entries
    before it and after it. *)
Definition with_numeric_ranges (cs : controls)
    (items : list (string * (float * float))) : controls :=
  mkControls items (substrings cs) (categorical_selections cs).

Definition with_categorical_selections (cs : controls)
    (items : list (string * selection)) : controls :=
  mkControls (numeric_ranges cs) (substrings cs) items.

(** *** Cells under a full range

    A row has a value where a range that spans its whole column would
    look: a number under a numeric range that line 84 skips, a date under
    a date range that line 92 skips. *)
Definition numeric_present (df : DataFrame) (item : string * (float * float))
    (r : list cell) : bool :=
  let '(col, (low, high)) := item in
  match index_of col (column_names df) with
  | Some i =>
      numeric_narrows df i low high ||
      match cell_at i r with
      | CNum _ => true
      | _ => false
      end
  | None => true
  end.

Definition dates_present (df : DataFrame) (item : string * selection)
    (r : list cell) : bool :=
  let '(key, rng) := item in
  if Str.startswith "__dt__" key then
    match rng with
    | DateTuple [s; e] =>
        match index_of (Str.replace "__dt__" "" key) (column_names df) with
        | Some i =>
            dates_narrow df i s e ||
            match date_of (cell_at i r) with
            | Some _ => true
            | None => false
            end
        | None => true
        end
    | _ => true
    end
  else true.

Definition full_range_cells_present (df : DataFrame) (cs : controls)
    (r : list cell) : bool :=
  forallb (fun item => numeric_present df item r) (numeric_ranges cs) &&
  forallb (fun item => dates_present df item r) (categorical_selections cs).

(** The rows of [sales] in region [a], and those of them with a number in
    [amount]: what the filters of [sales_controls] return on [sales], and
    on that result. *)
Definition sales_once : DataFrame :=
  mkDataFrame (columns sales)
    [[CTs 10 0; CNum 1; CStr "a"]; [CTs 10 5; CNaN; CStr "a"]].

Definition sales_twice : DataFrame :=
  mkDataFrame (columns sales) [[CTs 10 0; CNum 1; CStr "a"]].

(** The controls of [sales_controls] with region [b] picked instead. *)
Definition sales_controls_b : controls :=
  mkControls [("amount", (F 1, F 5))] [] [("region", Values [CStr "b"])].

Definition sales_b : DataFrame :=
  mkDataFrame (columns sales) [[CTs 11 0; CNum 5; CStr "b"]].

(** ** Vocabulary of the further properties *)

(** The time column of the form (lines 39-40): the default is the column
    [time] when it is a datetime column, else the first datetime column,
    and the user picks one of the datetime columns by its position. *)
Definition default_time_col (df : DataFrame) : string :=
  if existsb (String.eqb "time") (datetime_cols df) then "time"
  else hd EmptyString (datetime_cols df).

Definition chosen_time_col (ui : form_input) (df : DataFrame) : string :=
  match time_col_pick ui with
  | Some i => nth i (datetime_cols df) (default_time_col df)
  | None => default_time_col df
  end.

(** A cell that [astype(str)] renders in the model: a string or a missing
    value. *)
Definition is_text (c : cell) : bool :=
  match cell_str c with
  | Some _ => true
  | None => false
  end.

(** Every column that is neither numeric nor datetime holds strings and
    missing values. *)
Definition text_columns_ok (df : DataFrame) : Prop :=
  forall col i,
    index_of col (column_names df) = Some i ->
    has_column df col Numeric = false ->
    has_column df col Datetime = false ->
    forallb is_text (column_values df i) = true.

(** No datetime column has [__dt__] in its name. *)
Definition date_keys_ok (df : DataFrame) : Prop :=
  forall col, has_column df col Datetime = true -> Str.contains "__dt__" col = false.

(** The entries of the three dictionaries name columns of the table. *)
Definition entries_ok (df : DataFrame) (cs : controls) : bool :=
  forallb (numeric_ok df) (numeric_ranges cs) &&
  forallb (categorical_ok df) (categorical_selections cs) &&
  forallb (substring_ok df) (substrings cs).

(** Every step of [filter_rows] returns the table it is given: no entry
    of the dictionaries narrows. *)
Definition entries_idle (df : DataFrame) (cs : controls) : Prop :=
  (forall item f, In item (numeric_ranges cs) -> numeric_step df f item = Ok f) /\
  (forall item f, In item (categorical_selections cs) ->
     categorical_step df f item = Ok f) /\
  (forall item f, In item (substrings cs) -> substring_step f item = Ok f).

(** A form whose optional controls are left as the widgets show them at
    first: the slider at the whole range, the date range at the first and
    last date, no value selected, no text typed. *)
Definition untouched (ui : form_input) : Prop :=
  (forall col range, slider ui col range = range) /\
  (forall col a b, date_input ui col (Some a, Some b) = [a; b]) /\
  (forall col options, multiselect ui col options = []) /\
  (forall col, text_input ui col = EmptyString).

(** Every numeric column holds a number and every datetime column a
    timestamp. *)
Definition columns_observed (df : DataFrame) : Prop :=
  forall col i,
    index_of col (column_names df) = Some i ->
    (has_column df col Numeric = true ->
       exists q, In (CNum q) (column_values df i)) /\
    (has_column df col Datetime = true ->
       exists d t, In (CTs d t) (column_values df i)).

(** The two conditions above, as checks that run over the columns. *)
Definition date_keys_check (df : DataFrame) : bool :=
  forallb (fun col => negb (has_column df col Datetime) ||
                      negb (Str.contains "__dt__" col)) (column_names df).

Definition text_columns_check (df : DataFrame) : bool :=
  forallb (fun col => has_column df col Numeric || has_column df col Datetime ||
                      forallb is_text (column_values df (pos df col)))
          (column_names df).

Definition columns_observed_check (df : DataFrame) : bool :=
  forallb (fun col =>
             (negb (has_column df col Numeric) ||
              existsb (fun c => match c with CNum _ => true | _ => false end)
                      (column_values df (pos df col))) &&
             (negb (has_column df col Datetime) ||
              existsb (fun c => match c with CTs _ _ => true | _ => false end)
                      (column_values df (pos df col))))
          (column_names df).

(** The form on [sales] with nothing touched but the window. *)
Definition sales_untouched : form_input :=
  mkForm sales_columns None [10; 11]%Z
    (fun _ default => default)
    (fun _ default => match default with
                      | (Some a, Some b) => [a; b]
                      | _ => []
                      end)
    (fun _ _ => [])
    (fun _ => EmptyString)
    true.

(** A value of a column after the coercion: a timestamp or NaT. *)
Definition is_timestamp_or_nat (c : cell) : bool :=
  match c with
  | CTs _ _ | CNaT => true
  | _ => false
  end.

(** What the coercion may have done to the column at a position: left it
    as it was, or turned an object column into a datetime column holding
    the parsed values of the original ones. *)
Definition column_kept (df df' : DataFrame) (j : nat) : Prop :=
  nth j (map snd (columns df')) Other = nth j (map snd (columns df)) Other /\
  column_values df' j = column_values df j.

Definition column_coerced (parse : list cell -> cell -> option (date * Z))
    (df df' : DataFrame) (j : nat) : Prop :=
  nth j (map snd (columns df)) Other = Object /\
  nth j (map snd (columns df')) Other = Datetime /\
  column_values df' j = to_datetime parse (column_values df j).

(** A table with a week and a half of daily readings. *)
Definition readings : DataFrame :=
  mkDataFrame [("time", Datetime); ("level", Numeric)]
    (map (fun k => [CTs (100 + Z.of_nat k) 0; CNum (inject_Z (Z.of_nat k))]) (seq 0 10)).

(** What holds of the table [cur] at every point of the loop of lines
    147-152 over the table [df]. *)
Definition coercion_invariant (parse : list cell -> cell -> option (date * Z))
    (df cur : DataFrame) : Prop :=
  column_names cur = column_names df /\
  len cur = len df /\
  well_formed cur /\
  forall j, column_kept df cur j \/ column_coerced parse df cur j.

(** A table with the columns of [f] and some of its rows, in their order:
    the rows of [f] under a boolean mask. *)
Definition selects (f f' : DataFrame) : Prop :=
  columns f' = columns f /\ exists mask, rows f' = select mask (rows f).

(** The test of lines 148-151 on the column at a position of the table
    as loaded: an object column more than 0.8 of whose rows parse. *)
Definition coerces (parse : list cell -> cell -> option (date * Z))
    (df : DataFrame) (i : nat) : bool :=
  dtype_eqb (nth i (map snd (columns df)) Other) Object &&
  success_ratio_gt_0_8 (to_datetime parse (column_values df i)).

(** The column at position [i], once the loop has come to its label:
    coerced if the test holds on the loaded table, else as it was. *)
Definition column_decided (parse : list cell -> cell -> option (date * Z))
    (df cur : DataFrame) (i : nat) : Prop :=
  if coerces parse df i then column_coerced parse df cur i else column_kept df cur i.

(** A table with a text column of dates, one of them misspelt, among six
    rows. *)
Definition orders : DataFrame :=
  mkDataFrame [("placed", Object); ("total", Numeric)]
    [[CStr "2024-01-01"; CNum 5]; [CStr "2024-01-02"; CNum 6];
     [CStr "2024-01-03"; CNum 7]; [CStr "2024-01-04"; CNum 8];
     [CStr "2024-01-05"; CNum 9]; [CStr "n/a"; CNum 1]].

(** A table whose time column holds no date: NaT in both rows. *)
Definition undated : DataFrame :=
  mkDataFrame [("time", Datetime); ("amount", Numeric)]
    [[CNaT; CNum 1]; [CNaT; CNum 2]].

(** A table with a column of codes, some written as text and some as
    numbers. *)
Definition mixed : DataFrame :=
  mkDataFrame [("time", Datetime); ("code", Object)]
    [[CTs 10 0; CStr "a"]; [CTs 10 0; CNum 1]].

(** A table with a second datetime column whose label holds [__dt__], and
    the form on it with the date range of that column left as the widget
    shows it. *)
Definition stamped : DataFrame :=
  mkDataFrame [("time", Datetime); ("seen__dt__at", Datetime)]
    [[CTs 10 0; CTs 3 0]; [CTs 10 0; CTs 4 0]].

Definition stamped_form : form_input :=
  mkForm ["time"; "seen__dt__at"] None [10; 10]%Z
    (fun _ default => default)
    (fun _ default => match default with
                      | (Some a, Some b) => [a; b]
                      | _ => []
                      end)
    (fun _ _ => [])
    (fun _ => EmptyString)
    true.

(** A table whose numeric column holds no number. *)
Definition gauges : DataFrame :=
  mkDataFrame [("time", Datetime); ("level", Numeric)]
    [[CTs 10 0; CNaN]; [CTs 10 0; CNaN]].

(** *** Values that can be sorted

    The values of a column, missing ones aside, are of one kind: all
    numbers, all timestamps or all strings. *)
Definition one_kind (l : list cell) : Prop :=
  forall a b, In a l -> In b l -> isna a = false -> isna b = false ->
    comparable a b = true.

(** Every column that is neither numeric nor datetime holds values of one
    kind. *)
Definition columns_sortable (df : DataFrame) : Prop :=
  forall col i,
    index_of col (column_names df) = Some i ->
    has_column df col Numeric = false ->
    has_column df col Datetime = false ->
    one_kind (column_values df i).

Definition one_kind_check (l : list cell) : bool :=
  match dropna l with
  | [] => true
  | c :: l' => forallb (comparable c) l'
  end.

Definition columns_sortable_check (df : DataFrame) : bool :=
  forallb (fun col => has_column df col Numeric || has_column df col Datetime ||
                      one_kind_check (column_values df (pos df col)))
          (column_names df).

(** *** What the form collects

    [d.get(k)], the widget that lines 53-64 show for a column, and the
    assignment of lines 55, 58, 62 or 64 for it. *)
Fixpoint dict_get {V : Type} (k : string) (d : list (string * V)) : option V :=
  match d with
  | [] => None
  | (k', v) :: d' => if String.eqb k k' then Some v else dict_get k d'
  end.

Inductive widget : Type := Slider | DateRange | MultiSelect | TextInput.

Definition widget_of (df : DataFrame) (col : string) : option widget :=
  match getitem df col with
  | Ok s =>
      Some (if is_numeric_dtype (s_dtype s) then Slider
            else if is_datetime64_any_dtype (s_dtype s) then DateRange
            else if length (unique (dropna (values s))) <=? 100 then MultiSelect
            else TextInput)
  | Raise _ => None
  end.

Definition slider_value (ui : form_input) (df : DataFrame) (col : string)
  : float * float :=
  slider ui col (reduce_floats Qmin_b (column_values df (pos df col)),
                 reduce_floats Qmax_b (column_values df (pos df col))).

Definition date_input_value (ui : form_input) (df : DataFrame) (col : string)
  : list date :=
  date_input ui col (dates_min (map date_of (column_values df (pos df col))),
                     dates_max (map date_of (column_values df (pos df col)))).

Definition multiselect_value (ui : form_input) (df : DataFrame) (col : string)
  : list cell :=
  multiselect ui col (sort_cells (unique (dropna (column_values df (pos df col))))).

Definition write_control (ui : form_input) (df : DataFrame) (col : string)
    (acc : controls) : controls :=
  match widget_of df col with
  | Some Slider =>
      mkControls (dict_set col (slider_value ui df col) (numeric_ranges acc))
                 (substrings acc) (categorical_selections acc)
  | Some DateRange =>
      mkControls (numeric_ranges acc) (substrings acc)
                 (dict_set ("__dt__" ++ col)%string
                    (DateTuple (date_input_value ui df col))
                    (categorical_selections acc))
  | Some MultiSelect =>
      mkControls (numeric_ranges acc) (substrings acc)
                 (dict_set col (Values (multiselect_value ui df col))
                    (categorical_selections acc))
  | Some TextInput =>
      mkControls (numeric_ranges acc)
                 (dict_set col (text_input ui col) (substrings acc))
                 (categorical_selections acc)
  | None => acc
  end.

Definition form_step (ui : form_input) (df : DataFrame) (time_col : string)
    (acc : controls) (col : string) : controls :=
  if String.eqb col time_col then acc else write_control ui df col acc.

(** * Properties *)

(** ** Strings *)

Example lower_ex : Str.lower "Data.JSON" = "data.json".
Proof. reflexivity. Qed.

Example endswith_ex : Str.endswith ".json" "a.json" = true /\ Str.endswith ".json" "a.jsonl" = false.
Proof. split; reflexivity. Qed.

Example replace_ex : Str.replace "__dt__" "" "__dt__a__dt__b" = "ab".
Proof. reflexivity. Qed.

Example of_nat_ex : Str.of_nat 12 = "12".
Proof. reflexivity. Qed.

Lemma substring_split (s : string) (k : nat) :
  k <= String.length s ->
  s = (String.substring 0 k s ++ String.substring k (String.length s - k) s)%string.
Proof.
  revert k; induction s as [|c s IH]; intros k Hk.
  - destruct k; reflexivity.
  - destruct k as [|k]; simpl.
    + f_equal. clear. induction s as [|d s IH]; simpl; [reflexivity|].
      f_equal. exact IH.
    + f_equal. apply IH. simpl in Hk. lia.
Qed.

(** [endswith] finds a suffix: the string is some prefix followed by it. *)
Lemma endswith_app (suf s : string) :
  Str.endswith suf s = true -> exists p, s = (p ++ suf)%string.
Proof.
  unfold Str.endswith.
  destruct (String.length suf <=? String.length s) eqn:Hle; [|discriminate].
  apply Nat.leb_le in Hle. intros H. apply String.eqb_eq in H.
  set (k := String.length s - String.length suf) in *.
  exists (String.substring 0 k s).
  assert (Hk : k <= String.length s) by (unfold k; lia).
  rewrite (substring_split s Hk) at 1. f_equal.
  replace (String.length s - k) with (String.length suf) by (unfold k; lia).
  exact H.
Qed.

Lemma last_char_app (p q : string) :
  q <> EmptyString -> Str.last_char (p ++ q) = Str.last_char q.
Proof.
  intros Hq. induction p as [|c p IH]; simpl; [reflexivity|].
  rewrite IH. destruct (p ++ q)%string eqn:E; [|reflexivity].
  destruct p; simpl in E; [congruence|discriminate].
Qed.

(** Two suffixes of one string end in the same character. *)
Lemma endswith_last (suf suf' s : string) :
  suf <> EmptyString -> suf' <> EmptyString ->
  Str.endswith suf s = true -> Str.endswith suf' s = true ->
  Str.last_char suf = Str.last_char suf'.
Proof.
  intros H1 H2 E1 E2.
  apply endswith_app in E1. apply endswith_app in E2.
  destruct E1 as [p ->]. destruct E2 as [p' E].
  rewrite <- (last_char_app p H1), E. apply last_char_app. exact H2.
Qed.

Lemma endswith_json_only (s : string) :
  Str.endswith ".json" s = true ->
  Str.endswith ".parquet" s = false /\ Str.endswith ".csv" s = false /\
  Str.endswith ".jsonl" s = false /\ Str.endswith ".jsonl.gz" s = false.
Proof.
  intros H.
  repeat split;
    match goal with
    | |- Str.endswith ?suf s = false =>
        destruct (Str.endswith suf s) eqn:E; [exfalso|reflexivity];
        assert (L : Str.last_char ".json" = Str.last_char suf)
          by (apply endswith_last with (s := s); [discriminate|discriminate|exact H|exact E]);
        discriminate L
    end.
Qed.

(** ** [load_file] *)

Section LoadFile.

Variable read_parquet read_csv read_json_lines read_json_records : string -> result DataFrame.

Let load := load_file read_parquet read_csv read_json_lines read_json_records.

(** C10. For an upload whose lowercased name ends in [.json] the loader
    parses the bytes as an array of records and, only if that raises a
    value error, parses them as line-delimited records.  For a name with
    a recognized extension the outcome of the loader is the outcome of one
    of the four readers on the bytes, so an error is the reader's own; for
    any other name it is the unsupported-file-type error. *)
Theorem load_file_json_fallback_and_unsupported (up : uploaded_file) :
  let lname := Str.lower (name up) in
  (Str.endswith ".json" lname = true ->
     (forall df, read_json_records (getvalue up) = Ok df -> load up = Ok df) /\
     (forall m, read_json_records (getvalue up) = Raise (ValueError m) ->
        load up = read_json_lines (getvalue up)) /\
     (forall e, read_json_records (getvalue up) = Raise e ->
        (forall m, e <> ValueError m) -> load up = Raise e)) /\
  (recognized lname = true ->
     In (load up) [read_parquet (getvalue up); read_csv (getvalue up);
                   read_json_lines (getvalue up); read_json_records (getvalue up)]) /\
  (recognized lname = false -> load up = Raise (ValueError msg_unsupported)).
Proof.
  intros lname. subst load. unfold load_file. fold lname.
  split; [|split].
  - intros Hj. destruct (endswith_json_only _ Hj) as (-> & -> & -> & ->).
    rewrite Hj. simpl.
    split; [|split].
    + intros df ->. reflexivity.
    + intros m ->. reflexivity.
    + intros e -> Hne. destruct e; try reflexivity. elim (Hne msg). reflexivity.
  - unfold recognized. intros Hr.
    destruct (Str.endswith ".parquet" lname); [simpl; auto|].
    destruct (Str.endswith ".csv" lname); [simpl; auto|].
    destruct (Str.endswith ".jsonl" lname); [simpl; auto|].
    destruct (Str.endswith ".jsonl.gz" lname); [simpl; auto|].
    simpl in Hr. rewrite Hr. simpl.
    destruct (read_json_records (getvalue up)) as [df|e] eqn:E.
    + rewrite <- E. auto.
    + destruct e; rewrite <- ?E; auto.
  - unfold recognized. intros Hr.
    destruct (Str.endswith ".parquet" lname); [discriminate|].
    destruct (Str.endswith ".csv" lname); [discriminate|].
    destruct (Str.endswith ".jsonl" lname); [discriminate|].
    destruct (Str.endswith ".jsonl.gz" lname); [discriminate|].
    simpl in Hr. rewrite Hr. reflexivity.
Qed.

End LoadFile.

(** ** The time window *)

Lemma apply_filters_too_long df tc (s e : date) cs sel :
  (30 < e - s)%Z -> apply_filters df tc [s; e] cs sel = window_too_long.
Proof.
  intros H. unfold apply_filters.
  apply Z.ltb_lt in H. rewrite H. reflexivity.
Qed.

Lemma apply_filters_accepted df tc (s e : date) cs sel :
  (e - s <= 30)%Z ->
  apply_filters df tc [s; e] cs sel =
  ([], rbind (filter_rows df tc s e cs sel) (fun filtered => Ok (Some filtered, true))).
Proof.
  intros H. unfold apply_filters.
  apply Z.ltb_ge in H. rewrite H. reflexivity.
Qed.

(** Whatever the form holds, [build_filters_form] offers no download. *)
Lemma build_filters_form_log ui df ev :
  In ev (fst (build_filters_form ui df)) -> is_download ev = false.
Proof.
  unfold build_filters_form.
  destruct (datetime_cols df) as [|first rest]; [intros [<-|[]]; reflexivity|].
  match goal with |- context [match ?r with Ok _ => _ | Raise _ => _ end] =>
    destruct r as [cs|ex] end; [|intros []].
  destruct (submitted ui); simpl; [|intros []].
  unfold apply_filters.
  destruct (date_range ui) as [|s [|e [|x l]]]; try (intros [<-|[]]; reflexivity).
  destruct (30 <? e - s)%Z; [intros [<-|[]]; reflexivity|intros []].
Qed.

Lemma build_filters_form_too_long ui df s e :
  date_range ui = [s; e] -> (30 < e - s)%Z ->
  snd (build_filters_form ui df) = Ok (None, false) \/
  exists ex, snd (build_filters_form ui df) = Raise ex.
Proof.
  intros Hr Hlt. unfold build_filters_form.
  destruct (datetime_cols df) as [|first rest]; [left; reflexivity|].
  match goal with |- context [match ?r with Ok _ => _ | Raise _ => _ end] =>
    destruct r as [cs|ex] end; [|right; exists ex; reflexivity].
  destruct (submitted ui); simpl; [|left; reflexivity].
  rewrite Hr, apply_filters_too_long by exact Hlt. left; reflexivity.
Qed.

Section Window.

Variable read_parquet read_csv read_json_lines read_json_records : string -> result DataFrame.
Variable parse_datetime : list cell -> cell -> option (date * Z).
Variable to_csv : DataFrame -> string.
Variable to_parquet : DataFrame -> result string.

Let run := main read_parquet read_csv read_json_lines read_json_records
                parse_datetime to_csv to_parquet.

(** C1. A submitted window [(start_date, end_date)] is rejected as too
    long exactly when [end_date - start_date] exceeds 30 days; a window of
    at most 30 days, and so one of exactly 30 days, passes the check and
    the outcome is that of the filters.  On a window that is too long
    [build_filters_form] returns no table (it returns [(None, False)], if
    it returns), and the page offers no download. *)
Theorem window_too_long_iff (df : DataFrame) (time_col : string)
    (cs : controls) (selected : list string) (ui : form_input)
    (uploaded : option uploaded_file) (s e : date) :
  (apply_filters df time_col [s; e] cs selected = window_too_long <-> (30 < e - s)%Z) /\
  apply_filters df time_col [s; s + 30]%Z cs selected =
    ([], rbind (filter_rows df time_col s (s + 30)%Z cs selected)
               (fun filtered => Ok (Some filtered, true))) /\
  (date_range ui = [s; e] -> (30 < e - s)%Z ->
     (forall filtered applied,
        snd (build_filters_form ui df) <> Ok (Some filtered, applied)) /\
     (forall ev, In ev (fst (run uploaded ui)) -> is_download ev = false)).
Proof.
  split; [|split].
  - split; [|apply apply_filters_too_long].
    intros H. destruct (Z.lt_ge_cases 30 (e - s)) as [Hlt|Hge]; [exact Hlt|].
    rewrite apply_filters_accepted in H by exact Hge. discriminate H.
  - apply apply_filters_accepted. lia.
  - intros Hr Hlt. split.
    + intros filtered applied.
      destruct (build_filters_form_too_long ui df Hr Hlt) as [-> | [ex ->]]; discriminate.
    + subst run. unfold main. destruct uploaded as [up|]; simpl.
      2:{ intros ev [<-|[]]. reflexivity. }
      destruct (load_file _ _ _ _ up) as [df0|ex]; simpl.
      2:{ intros ev [<-|[]]. reflexivity. }
      set (df1 := coerce_columns parse_datetime df0).
      pose proof (build_filters_form_too_long ui df1 Hr Hlt) as Hout.
      pose proof (build_filters_form_log ui df1) as Hnd.
      destruct (build_filters_form ui df1) as [log r]. simpl in Hout, Hnd.
      destruct Hout as [-> | [ex ->]]; simpl.
      * intros ev Hin. apply in_app_or in Hin. destruct Hin as [Hin|[<-|[]]].
        -- apply Hnd, Hin.
        -- reflexivity.
      * exact Hnd.
Qed.

End Window.

(** ** Masks and row predicates *)

Lemma select_map_filter {A : Type} (p : A -> bool) (l : list A) :
  select (map p l) l = filter p l.
Proof.
  induction l as [|x l IH]; simpl; [reflexivity|].
  rewrite IH. reflexivity.
Qed.

Lemma select_map_map_filter {A B : Type} (f : A -> B) (p : B -> bool) (l : list A) :
  select (map p (map f l)) l = filter (fun x => p (f x)) l.
Proof.
  rewrite map_map. apply (select_map_filter (fun x => p (f x))).
Qed.

Lemma mask_and_map {A : Type} (p q : A -> bool) (l : list A) :
  mask_and (map p l) (map q l) = map (fun x => p x && q x) l.
Proof.
  induction l as [|x l IH]; simpl; [reflexivity|].
  rewrite IH. reflexivity.
Qed.

Lemma window_mask_rows (i : nat) (s e : date) (rs : list (list cell)) :
  select (window_mask s e (map date_of (map (cell_at i) rs))) rs =
  filter (in_window i s e) rs.
Proof.
  unfold window_mask. rewrite mask_and_map, !map_map.
  apply (select_map_filter (in_window i s e)).
Qed.

Lemma filter_all {A : Type} (p : A -> bool) (l : list A) :
  (forall x, In x l -> p x = true) -> filter p l = l.
Proof.
  induction l as [|x l IH]; simpl; intros H; [reflexivity|].
  rewrite (H x (or_introl eq_refl)). f_equal. apply IH.
  intros y Hy. apply H. right. exact Hy.
Qed.

Lemma filter_filter {A : Type} (p q : A -> bool) (l : list A) :
  filter q (filter p l) = filter (fun x => p x && q x) l.
Proof.
  induction l as [|x l IH]; simpl; [reflexivity|].
  destruct (p x); simpl; rewrite IH; reflexivity.
Qed.

Lemma filter_none {A : Type} (p : A -> bool) (l : list A) :
  (forall x, In x l -> p x = false) -> filter p l = [].
Proof.
  induction l as [|x l IH]; simpl; intros H; [reflexivity|].
  rewrite (H x (or_introl eq_refl)). apply IH.
  intros y Hy. apply H. right. exact Hy.
Qed.

Lemma dtype_eqb_eq (a b : dtype) : dtype_eqb a b = true <-> a = b.
Proof. destruct a, b; simpl; split; congruence. Qed.

(** ** Column lookup *)

Lemma getitem_index (df : DataFrame) (col : string) (i : nat) :
  index_of col (column_names df) = Some i ->
  getitem df col = Ok (mkSeries (nth i (map snd (columns df)) Other) (column_values df i)).
Proof. intros H. unfold getitem. rewrite H. reflexivity. Qed.

Lemma has_column_index (df : DataFrame) (col : string) (t : dtype) :
  has_column df col t = true ->
  exists i, index_of col (column_names df) = Some i /\
            nth i (map snd (columns df)) Other = t.
Proof.
  unfold has_column, getitem.
  destruct (index_of col (column_names df)) as [i|]; [|discriminate].
  simpl. intros H. exists i. split; [reflexivity|]. apply dtype_eqb_eq, H.
Qed.

Lemma is_column_index (df : DataFrame) (col : string) :
  is_column df col = true -> exists i, index_of col (column_names df) = Some i.
Proof.
  unfold is_column. destruct (index_of col (column_names df)) as [i|]; [|discriminate].
  intros _. exists i. reflexivity.
Qed.

(** ** The steps of [filter_rows] as filters of rows *)

Section Steps.

Variable df : DataFrame.

Lemma numeric_step_filter (item : string * (float * float)) (rs : list (list cell)) :
  numeric_ok df item = true ->
  numeric_step df (narrowed df rs) item = Ok (narrowed df (filter (numeric_keep df item) rs)).
Proof.
  destruct item as [col [low high]]. unfold numeric_ok. simpl fst. intros Hok.
  destruct (has_column_index _ _ _ Hok) as (i & Hi & Ht).
  unfold numeric_step, numeric_keep. rewrite (getitem_index _ _ Hi). simpl.
  unfold float_min, float_max. simpl. rewrite Ht. simpl. rewrite Hi.
  unfold numeric_narrows.
  destruct (pair_ne _ _).
  - unfold getitem, narrowed, column_names. simpl. fold (column_names df).
    rewrite Hi. simpl. unfold between. simpl. rewrite Ht. simpl.
    unfold getitem_mask. simpl. rewrite select_map_map_filter. reflexivity.
  - rewrite filter_all by reflexivity. reflexivity.
Qed.

Lemma getitem_narrowed (rs : list (list cell)) (col : string) (i : nat) :
  index_of col (column_names df) = Some i ->
  getitem (narrowed df rs) col =
  Ok (mkSeries (nth i (map snd (columns df)) Other) (map (cell_at i) rs)).
Proof. intros H. unfold getitem, narrowed, column_names. simpl. fold (column_names df). rewrite H. reflexivity. Qed.

Lemma categorical_step_filter (item : string * selection) (rs : list (list cell)) :
  categorical_ok df item = true ->
  categorical_step df (narrowed df rs) item =
  Ok (narrowed df (filter (categorical_keep df item) rs)).
Proof.
  destruct item as [key rng]. unfold categorical_ok, categorical_step, categorical_keep.
  destruct (Str.startswith "__dt__" key).
  - destruct rng as [t|l]; [|intros _; rewrite filter_all by reflexivity; reflexivity].
    destruct t as [|s [|e [|x t]]];
      try (intros _; rewrite filter_all by reflexivity; reflexivity).
    intros Hok. destruct (has_column_index _ _ _ Hok) as (i & Hi & Ht).
    rewrite (getitem_index _ _ Hi). simpl. unfold dt_date. simpl. rewrite Ht. simpl.
    rewrite Hi. unfold dates_narrow. fold (column_values df i).
    destruct (negb _).
    + rewrite (getitem_narrowed _ _ Hi). simpl. rewrite Ht. simpl.
      unfold getitem_mask. simpl. rewrite window_mask_rows. reflexivity.
    + rewrite filter_all by reflexivity. reflexivity.
  - destruct rng as [t|l].
    + destruct t; [|discriminate]. intros _. rewrite filter_all by reflexivity. reflexivity.
    + destruct l as [|x sel]; [intros _; rewrite filter_all by reflexivity; reflexivity|].
      intros Hok. destruct (is_column_index _ _ Hok) as (i & Hi).
      rewrite (getitem_narrowed _ _ Hi). simpl. rewrite Hi.
      unfold getitem_mask, isin. simpl values.
      rewrite (select_map_map_filter (cell_at i)
                 (fun c => existsb (cell_eqb c) (x :: sel))). reflexivity.
Qed.

Lemma astype_str_ok (l : list cell) :
  forallb (fun c => match cell_str c with Some _ => true | None => false end) l = true ->
  astype_str l =
  Ok (map (fun c => match cell_str c with Some str => str | None => EmptyString end) l).
Proof.
  induction l as [|c l IH]; simpl; [reflexivity|].
  intros H. apply andb_prop in H. destruct H as [Hc Hl].
  rewrite (IH Hl). destruct (cell_str c); [reflexivity|discriminate].
Qed.

Lemma forallb_sub {A : Type} (p : A -> bool) (f : list cell -> A)
    (rs all : list (list cell)) :
  incl rs all -> forallb p (map f all) = true -> forallb p (map f rs) = true.
Proof.
  intros Hin Hall. rewrite forallb_forall in *.
  intros x Hx. apply in_map_iff in Hx. destruct Hx as (r & <- & Hr).
  apply Hall. apply in_map. apply Hin, Hr.
Qed.

Lemma substring_step_filter (item : string * string) (rs : list (list cell)) :
  incl rs (rows df) ->
  substring_ok df item = true ->
  substring_step (narrowed df rs) item =
  Ok (narrowed df (filter (substring_keep df item) rs)).
Proof.
  intros Hsub. destruct item as [col text].
  unfold substring_ok, substring_step, substring_keep.
  destruct text as [|a text]; [intros _; rewrite filter_all by reflexivity; reflexivity|].
  destruct (index_of col (column_names df)) as [i|] eqn:Hi; [|discriminate].
  intros Hok. apply andb_prop in Hok. destruct Hok as [Hplain Hstr].
  rewrite (getitem_narrowed _ _ Hi). simpl values.
  unfold column_values in Hstr. pose proof (forallb_sub _ _ Hsub Hstr) as Hrs.
  simpl. rewrite (astype_str_ok _ Hrs). simpl.
  unfold str_contains. rewrite Hplain. simpl.
  unfold getitem_mask. simpl. f_equal. unfold narrowed. f_equal.
  rewrite map_map.
  rewrite (select_map_map_filter (cell_at i)
    (fun c => contains_ci (String a text)
                match cell_str c with Some str => str | None => EmptyString end)).
  apply filter_ext_in. intros r Hr.
  rewrite forallb_forall in Hrs. specialize (Hrs (cell_at i r) (in_map _ _ _ Hr)).
  destruct (cell_str (cell_at i r)); [reflexivity|discriminate].
Qed.

(** A loop whose body filters the rows filters them by every item. *)
Lemma for_items_filter {V : Type} (body : DataFrame -> string * V -> result DataFrame)
    (keepf : string * V -> list cell -> bool) (items : list (string * V)) :
  (forall item rs, In item items -> incl rs (rows df) ->
     body (narrowed df rs) item = Ok (narrowed df (filter (keepf item) rs))) ->
  forall rs, incl rs (rows df) ->
  for_items body items (narrowed df rs) =
  Ok (narrowed df (filter (fun r => forallb (fun item => keepf item r) items) rs)).
Proof.
  induction items as [|item items IH]; intros Hbody rs Hrs; simpl.
  - rewrite filter_all by reflexivity. reflexivity.
  - rewrite (Hbody item rs (or_introl eq_refl) Hrs). simpl.
    rewrite IH.
    + rewrite filter_filter. reflexivity.
    + intros it rs' Hit. apply Hbody. right. exact Hit.
    + intros r Hr. apply filter_In in Hr. apply Hrs, Hr.
Qed.

End Steps.

(** ** [filter_rows] keeps the rows that satisfy every control *)

Lemma positions_ok (df : DataFrame) (selected : list string) :
  forallb (is_column df) selected = true ->
  positions (column_names df) selected = Ok (map (pos df) selected).
Proof.
  induction selected as [|c sel IH]; simpl; [reflexivity|].
  intros H. apply andb_prop in H. destruct H as [Hc Hsel].
  rewrite (IH Hsel). unfold pos, is_column in *.
  destruct (index_of c (column_names df)); [reflexivity|discriminate].
Qed.

Lemma getitem_cols_ok (df : DataFrame) (selected : list string)
    (rs : list (list cell)) :
  forallb (is_column df) selected = true ->
  getitem_cols (narrowed df rs) selected = Ok (projected df selected rs).
Proof.
  intros H. unfold getitem_cols, narrowed, column_names. simpl.
  fold (column_names df). rewrite (positions_ok _ _ H).
  unfold projected, project_row. rewrite map_map. f_equal. f_equal.
  apply map_ext. intros r. rewrite map_map. reflexivity.
Qed.

Theorem filter_rows_keep (df : DataFrame) (time_col : string) (s e : date)
    (cs : controls) (selected : list string) :
  controls_ok df time_col cs selected = true ->
  filter_rows df time_col s e cs selected =
  Ok (projected df selected (filter (keep df time_col s e cs) (rows df))).
Proof.
  unfold controls_ok. intros H.
  repeat (apply andb_prop in H; destruct H as [H ?]).
  rename H into Htime, H0 into Hsel, H1 into Hsub, H2 into Hcat, H3 into Hnum.
  destruct (has_column_index _ _ _ Htime) as (i & Hi & Ht).
  unfold filter_rows. rewrite (getitem_index _ _ Hi). simpl.
  unfold dt_date. simpl. rewrite Ht. simpl.
  unfold getitem_mask. simpl. unfold column_values. rewrite window_mask_rows.
  fold (narrowed df (filter (in_window i s e) (rows df))).
  assert (Hin : incl (filter (in_window i s e) (rows df)) (rows df))
    by (intros r Hr; apply filter_In in Hr; apply Hr).
  rewrite (for_items_filter (numeric_step df) (numeric_keep df)); [simpl| |exact Hin].
  2:{ intros item rs Hit _. apply numeric_step_filter.
      rewrite forallb_forall in Hnum. apply Hnum, Hit. }
  rewrite filter_filter.
  match goal with |- context [narrowed df (filter ?p (rows df))] =>
    assert (Hin2 : incl (filter p (rows df)) (rows df))
      by (intros r Hr; apply filter_In in Hr; apply Hr) end.
  rewrite (for_items_filter (categorical_step df) (categorical_keep df)); [simpl| |exact Hin2].
  2:{ intros item rs Hit _. apply categorical_step_filter.
      rewrite forallb_forall in Hcat. apply Hcat, Hit. }
  rewrite filter_filter.
  match goal with |- context [narrowed df (filter ?p (rows df))] =>
    assert (Hin3 : incl (filter p (rows df)) (rows df))
      by (intros r Hr; apply filter_In in Hr; apply Hr) end.
  rewrite (for_items_filter (fun f => substring_step f) (substring_keep df)); [simpl| |exact Hin3].
  2:{ intros item rs Hit Hrs. apply substring_step_filter; [exact Hrs|].
      rewrite forallb_forall in Hsub. apply Hsub, Hit. }
  rewrite filter_filter.
  rewrite (getitem_cols_ok _ _ _ Hsel). f_equal. f_equal.
  apply filter_ext. intros r. unfold keep. rewrite Hi. reflexivity.
Qed.

(** ** An inverted window *)

Lemma in_window_inverted (i : nat) (s e : date) (r : list cell) :
  (e < s)%Z -> in_window i s e r = false.
Proof.
  intros H. unfold in_window, date_ge, date_le.
  destruct (date_of (cell_at i r)) as [v|]; [|reflexivity].
  destruct (s <=? v)%Z eqn:E1; [|reflexivity].
  apply Z.leb_le in E1. simpl. apply Z.leb_gt. lia.
Qed.

Lemma select_nil {A : Type} (m : list bool) : select m (@nil A) = [].
Proof. destruct m as [|[] m]; reflexivity. Qed.

Lemma getitem_mask_empty (f : DataFrame) (m : list bool) :
  rows f = [] -> rows (getitem_mask f m) = [].
Proof. intros H. unfold getitem_mask. simpl. rewrite H. apply select_nil. Qed.

(** A loop over the items of a dictionary leaves a table without rows
    without rows, when every step does. *)
Lemma for_items_empty {V : Type} (body : DataFrame -> string * V -> result DataFrame)
    (items : list (string * V)) :
  (forall f item f', rows f = [] -> body f item = Ok f' -> rows f' = []) ->
  forall f f', rows f = [] -> for_items body items f = Ok f' -> rows f' = [].
Proof.
  intros Hbody. induction items as [|item items IH]; simpl; intros f f' Hf H.
  - congruence.
  - destruct (body f item) as [f1|ex] eqn:E; [|discriminate]. simpl in H.
    apply (IH f1 f'); [|exact H]. apply (Hbody f item); assumption.
Qed.

Ltac step_result :=
  repeat match goal with
    | H : rbind ?r _ = Ok _ |- _ => destruct r; simpl in H; [|discriminate]
    | H : Ok _ = Ok _ |- _ => injection H as <-
    | H : Raise _ = Ok _ |- _ => discriminate H
    | H : (if ?b then _ else _) = Ok _ |- _ => destruct b
    | |- rows (getitem_mask _ _) = [] => apply getitem_mask_empty
    end; try assumption.

Lemma numeric_step_empty (df f : DataFrame) item f' :
  rows f = [] -> numeric_step df f item = Ok f' -> rows f' = [].
Proof.
  destruct item as [col [low high]]. unfold numeric_step. intros Hf H. step_result.
Qed.

Lemma categorical_step_empty (df f : DataFrame) item f' :
  rows f = [] -> categorical_step df f item = Ok f' -> rows f' = [].
Proof.
  destruct item as [key rng]. unfold categorical_step. intros Hf H.
  destruct (Str.startswith "__dt__" key).
  - destruct rng as [[|s [|e [|x t]]]|l]; step_result.
  - destruct rng as [[|x t]|[|x l]]; step_result.
Qed.

Lemma substring_step_empty (f : DataFrame) item f' :
  rows f = [] -> substring_step f item = Ok f' -> rows f' = [].
Proof.
  destruct item as [col text]. unfold substring_step. intros Hf H.
  destruct text; step_result.
Qed.

Lemma getitem_cols_empty (f f' : DataFrame) (selected : list string) :
  rows f = [] -> getitem_cols f selected = Ok f' -> rows f' = [].
Proof.
  unfold getitem_cols. intros Hf H.
  destruct (positions (column_names f) selected); [|discriminate].
  injection H as <-. simpl. rewrite Hf. reflexivity.
Qed.

(** C9. When the end date of the submitted pair is before its start date
    the checks of the window pass: nothing is reported and the filters
    run.  No row lies in the window, so a table that [filter_rows] returns
    has no rows; and it returns one whenever the time column is a datetime
    column and the other controls name columns of the table. *)
Theorem inverted_window_empty (df : DataFrame) (time_col : string)
    (cs : controls) (selected : list string) (s e : date) :
  (e < s)%Z ->
  apply_filters df time_col [s; e] cs selected =
    ([], rbind (filter_rows df time_col s e cs selected)
               (fun filtered => Ok (Some filtered, true))) /\
  (forall filtered,
     filter_rows df time_col s e cs selected = Ok filtered -> len filtered = 0) /\
  (controls_ok df time_col cs selected = true ->
     apply_filters df time_col [s; e] cs selected =
       ([], Ok (Some (projected df selected []), true))).
Proof.
  intros Hinv.
  assert (Hacc := @apply_filters_accepted df time_col s e cs selected).
  split; [apply Hacc; lia|]. split.
  - intros filtered H. unfold len. unfold filter_rows in H.
    destruct (getitem df time_col) as [ts|] eqn:Ets; [|discriminate]. simpl in H.
    destruct (dt_date ts) as [d|] eqn:Ed; [|discriminate]. simpl in H.
    assert (H0 : rows (getitem_mask df (window_mask s e d)) = []).
    { unfold getitem in Ets.
      destruct (index_of time_col (column_names df)) as [i|]; [|discriminate].
      injection Ets as <-. unfold dt_date in Ed. simpl in Ed.
      destruct (is_datetime64_any_dtype _); [|discriminate]. injection Ed as <-.
      unfold getitem_mask. simpl. rewrite window_mask_rows.
      rewrite filter_none; [reflexivity|].
      intros r _. apply in_window_inverted, Hinv. }
    destruct (for_items (numeric_step df) _ _) as [f1|] eqn:E1; [|discriminate].
    simpl in H.
    destruct (for_items (categorical_step df) _ _) as [f2|] eqn:E2; [|discriminate].
    simpl in H.
    destruct (for_items substring_step _ _) as [f3|] eqn:E3; [|discriminate].
    simpl in H.
    apply (for_items_empty _ _ (numeric_step_empty df) _) in E1; [|exact H0].
    apply (for_items_empty _ _ (categorical_step_empty df) _) in E2; [|exact E1].
    apply (for_items_empty _ _ substring_step_empty _) in E3; [|exact E2].
    rewrite (getitem_cols_empty _ _ E3 H). reflexivity.
  - intros Hok. rewrite Hacc by lia.
    rewrite (filter_rows_keep _ _ s e _ _ Hok). simpl.
    rewrite filter_none; [reflexivity|].
    intros r _. unfold keep.
    unfold controls_ok in Hok. repeat (apply andb_prop in Hok; destruct Hok as [Hok ?]).
    destruct (has_column_index _ _ _ Hok) as (i & -> & _).
    rewrite in_window_inverted by exact Hinv. reflexivity.
Qed.

Lemma inverted_window_empty_witness :
  apply_filters sales "time" [11; 10]%Z sales_controls sales_columns =
    ([], Ok (Some (projected sales sales_columns []), true)).
Proof.
  apply (@inverted_window_empty sales "time" sales_controls sales_columns 11%Z 10%Z).
  - reflexivity.
  - vm_compute. reflexivity.
Defined.

(** ** Temporal coercion *)

Lemma index_of_nth_error (c : string) (names : list string) (i : nat) :
  index_of c names = Some i -> nth_error names i = Some c.
Proof.
  revert i; induction names as [|n names IH]; simpl; intros i H; [discriminate|].
  destruct (String.eqb c n) eqn:E.
  - injection H as <-. apply String.eqb_eq in E. subst. reflexivity.
  - destruct (index_of c names) as [j|]; [|discriminate].
    injection H as <-. simpl. apply IH. reflexivity.
Qed.

Lemma set_nth_same {A : Type} (i : nat) (x : A) (l : list A) :
  nth_error l i = Some x -> set_nth i x l = l.
Proof.
  revert i; induction l as [|y l IH]; intros [|i]; simpl; intros H; try discriminate.
  - congruence.
  - f_equal. apply IH, H.
Qed.

Lemma map_set_nth {A B : Type} (f : A -> B) (i : nat) (x : A) (l : list A) :
  map f (set_nth i x l) = set_nth i (f x) (map f l).
Proof.
  revert i; induction l as [|y l IH]; intros [|i]; simpl; try reflexivity.
  f_equal. apply IH.
Qed.

Lemma nth_set_nth {A : Type} (i : nat) (x d : A) (l : list A) :
  i < length l -> nth i (set_nth i x l) d = x.
Proof.
  revert i; induction l as [|y l IH]; intros [|i]; simpl; intros H; try lia.
  - reflexivity.
  - apply IH. lia.
Qed.

Lemma set_cells_column (i : nat) (g : list cell -> cell) (rs : list (list cell)) :
  (forall r, In r rs -> i < length r) ->
  map (cell_at i) (set_cells i (map g rs) rs) = map g rs.
Proof.
  induction rs as [|r rs IH]; simpl; intros H; [reflexivity|].
  f_equal.
  - unfold cell_at. apply nth_set_nth. apply H. left. reflexivity.
  - apply IH. intros r' Hr'. apply H. right. exact Hr'.
Qed.

Section Coercion.

Variable parse_datetime : list cell -> cell -> option (date * Z).

Let coerce := coerce_column parse_datetime.
Let parse_all := to_datetime parse_datetime.

Lemma setitem_column (df : DataFrame) (col : string) (i : nat) (g : list cell -> cell) :
  index_of col (column_names df) = Some i ->
  has_column (setitem df col (map g (rows df))) col Datetime = true /\
  (well_formed df ->
   getitem (setitem df col (map g (rows df))) col =
   Ok (mkSeries Datetime (map g (rows df)))).
Proof.
  intros Hi. pose proof (index_of_nth_error _ _ Hi) as Hn.
  assert (Hlt : i < length (columns df)).
  { unfold column_names in Hn. rewrite <- (length_map fst).
    apply nth_error_Some. congruence. }
  assert (Hnames : column_names (setitem df col (map g (rows df))) = column_names df).
  { unfold setitem. rewrite Hi. unfold column_names. simpl.
    rewrite map_set_nth. simpl. apply set_nth_same. exact Hn. }
  assert (Hty : nth i (map snd (columns (setitem df col (map g (rows df))))) Other = Datetime).
  { unfold setitem. rewrite Hi. simpl. rewrite map_set_nth. simpl.
    apply nth_set_nth. rewrite length_map. exact Hlt. }
  split.
  - unfold has_column, getitem. rewrite Hnames, Hi. simpl. rewrite Hty. reflexivity.
  - intros Hwf. unfold getitem. rewrite Hnames, Hi, Hty. f_equal. f_equal.
    unfold setitem. rewrite Hi. simpl. apply set_cells_column.
    intros r Hr. unfold well_formed in Hwf. rewrite Forall_forall in Hwf.
    rewrite (Hwf r Hr). exact Hlt.
Qed.

(** C2, as the code has it. For a column of dtype object every value is
    parsed, a value that does not parse becoming NaT, and the step is a
    total function: it raises on no input.  The column becomes a datetime
    column, its values replaced by the parsed ones, exactly when the
    parsed values are more than 0.8 of all the rows of the column, missing
    values counted among the rows; at 0.8 or below the table is left as it
    is, and so is a column of any other dtype. *)
Theorem coercion_threshold_all_rows (df : DataFrame) (col : string) (s : Series) :
  getitem df col = Ok s ->
  let parsed := parse_all (values s) in
  (forall k c, nth_error (values s) k = Some c ->
     nth_error parsed k =
     Some (match parse_datetime (values s) c with
           | Some (d, t) => CTs d t
           | None => CNaT
           end)) /\
  length parsed = length (values s) /\
  (s_dtype s = Object -> 4 * length (values s) < 5 * notna_count parsed ->
     coerce df col = setitem df col parsed /\
     has_column (coerce df col) col Datetime = true /\
     (well_formed df -> getitem (coerce df col) col = Ok (mkSeries Datetime parsed))) /\
  (s_dtype s = Object -> 5 * notna_count parsed <= 4 * length (values s) ->
     coerce df col = df) /\
  (s_dtype s <> Object -> coerce df col = df).
Proof.
  intros Hs parsed. subst coerce parse_all. unfold coerce_column. rewrite Hs.
  assert (Hlen : length parsed = length (values s))
    by (unfold parsed, to_datetime; apply length_map).
  split; [|split; [exact Hlen|split; [|split]]].
  - intros k c Hk. unfold parsed, to_datetime.
    rewrite nth_error_map, Hk. reflexivity.
  - intros Hobj Hgt. rewrite Hobj. simpl. fold parsed.
    unfold success_ratio_gt_0_8. rewrite Hlen.
    apply Nat.ltb_lt in Hgt. rewrite Hgt.
    unfold getitem in Hs.
    destruct (index_of col (column_names df)) as [i|] eqn:Hi; [|discriminate].
    injection Hs as <-. simpl in parsed.
    unfold parsed, to_datetime, column_values. rewrite map_map.
    split; [reflexivity|]. apply (@setitem_column df col i _ Hi).
  - intros Hobj Hle. rewrite Hobj. simpl. fold parsed.
    unfold success_ratio_gt_0_8. rewrite Hlen.
    apply Nat.ltb_ge in Hle. rewrite Hle. reflexivity.
  - intros Hne. destruct (s_dtype s); try reflexivity. elim Hne. reflexivity.
Qed.

End Coercion.

Lemma coercion_threshold_all_rows_witness :
  coerce_column parse_iso
    (mkDataFrame [("when", Object)] [[CStr "2024-01-01"]; [CStr "2024-01-02"]]) "when" =
  mkDataFrame [("when", Datetime)] [[CTs 738886 0]; [CTs 738887 0]].
Proof.
  pose proof (@coercion_threshold_all_rows parse_iso
    (mkDataFrame [("when", Object)] [[CStr "2024-01-01"]; [CStr "2024-01-02"]])
    "when" (mkSeries Object [CStr "2024-01-01"; CStr "2024-01-02"]) eq_refl) as H.
  destruct H as (_ & _ & H & _).
  destruct (H eq_refl) as (-> & _).
  - vm_compute. lia.
  - reflexivity.
Defined.

(** C2, as the specification words it, fails: in the table [visits] the
    only value that is not missing parses, a fraction of 1 of the values
    that are not missing, and the column is left as it is, since one of
    its two rows parsed. *)
Lemma coercion_among_nonmissing_counterexample :
  getitem visits "when" = Ok (mkSeries Object [CStr "2024-01-01"; CNone]) /\
  spec_parsed_fraction_exceeds parse_iso [CStr "2024-01-01"; CNone] = true /\
  coerce_column parse_iso visits "when" = visits /\
  has_column (coerce_column parse_iso visits "when") "when" Datetime = false.
Proof. repeat split. Qed.

(** ** Export in chunks *)

Arguments chunk_size : simpl never.

Lemma chunk_size_pos : 0 < chunk_size.
Proof. unfold chunk_size. lia. Qed.

Section Chunks.

Variable c : nat.
Hypothesis c_pos : 0 < c.

Variable A : Type.
Variable l : list A.

Let n := length l.
Let part := slice c l.

(** The slices at the starts of [range] tile the list from any start. *)
Lemma slices_concat (fuel start : nat) :
  n - start <= fuel * c ->
  concat (map part (range_fuel fuel start n c)) = skipn start l.
Proof.
  revert start; induction fuel as [|fuel IH]; intros start Hfuel; simpl.
  - symmetry. apply skipn_all2. fold n. lia.
  - destruct (start <? n) eqn:E.
    + apply Nat.ltb_lt in E. simpl. rewrite IH by nia.
      unfold part, slice. fold n.
      destruct (Nat.le_gt_cases (start + c) n) as [Hle|Hgt].
      * rewrite Nat.min_l by exact Hle.
        replace (start + c - start) with c by lia.
        rewrite Nat.add_comm, <- skipn_skipn. apply firstn_skipn.
      * rewrite Nat.min_r by lia.
        rewrite (skipn_all2 l (n:=start + c)) by (fold n; lia).
        rewrite app_nil_r. apply firstn_all2. rewrite length_skipn. fold n. lia.
    + apply Nat.ltb_ge in E. simpl. symmetry. apply skipn_all2. fold n. exact E.
Qed.

Lemma slice_length (start : nat) :
  length (part start) = Nat.min (start + c) n - start.
Proof.
  unfold part, slice. rewrite length_firstn, length_skipn. fold n. lia.
Qed.

(** The sizes of the slices from a start: full ones, then the rest. *)
Lemma slices_sizes (fuel start : nat) :
  n - start <= fuel * c ->
  map (fun st => length (part st)) (range_fuel fuel start n c) = chunk_sizes (n - start) c.
Proof.
  revert start; induction fuel as [|fuel IH]; intros start Hfuel; simpl.
  - replace (n - start) with 0 by lia. unfold chunk_sizes.
    rewrite Nat.Div0.div_0_l, Nat.Div0.mod_0_l. reflexivity.
  - destruct (start <? n) eqn:E.
    + apply Nat.ltb_lt in E. simpl. rewrite IH by nia. rewrite slice_length.
      destruct (Nat.le_gt_cases (start + c) n) as [Hle|Hgt].
      * rewrite Nat.min_l by exact Hle.
        replace (start + c - start) with c by lia.
        replace (n - start) with ((n - (start + c)) + 1 * c) by lia.
        unfold chunk_sizes.
        rewrite Nat.div_add by lia. rewrite Nat.Div0.mod_add.
        rewrite Nat.add_1_r. reflexivity.
      * rewrite Nat.min_r by lia.
        replace (n - (start + c)) with 0 by lia. unfold chunk_sizes.
        rewrite Nat.Div0.div_0_l, Nat.Div0.mod_0_l. simpl.
        rewrite Nat.div_small by lia. rewrite Nat.mod_small by lia.
        destruct (n - start =? 0) eqn:E0; [apply Nat.eqb_eq in E0; lia|reflexivity].
    + apply Nat.ltb_ge in E. replace (n - start) with 0 by lia. unfold chunk_sizes.
      rewrite Nat.Div0.div_0_l, Nat.Div0.mod_0_l. reflexivity.
Qed.

End Chunks.

Lemma chunk_sizes_bounds (n c : nat) :
  0 < c -> Forall (fun k => 0 < k <= c) (chunk_sizes n c).
Proof.
  intros Hc. unfold chunk_sizes. apply Forall_app. split.
  - apply Forall_forall. intros k Hk. apply repeat_spec in Hk. lia.
  - destruct (n mod c =? 0) eqn:E; constructor; [|constructor].
    apply Nat.eqb_neq in E. pose proof (Nat.mod_upper_bound n c). lia.
Qed.

Section ExportCsv.

Variable to_csv : DataFrame -> string.

Lemma chunks_rows (filtered : DataFrame) :
  map rows (chunks filtered) =
  map (slice chunk_size (rows filtered)) (range 0 (len filtered) chunk_size).
Proof. unfold chunks. rewrite map_map. reflexivity. Qed.

Lemma write_parts_members (filtered : DataFrame) (starts : list nat) (k : nat) :
  write_parts to_csv filtered starts k =
  combine (map (fun j => part_name (k + j)) (seq 1 (length starts)))
          (map to_csv
             (map (fun start =>
                     iloc filtered start (Nat.min (start + chunk_size) (len filtered)))
                  starts)).
Proof.
  revert k; induction starts as [|start starts IH]; intros k; [reflexivity|].
  cbn [write_parts length seq map combine]. f_equal. rewrite IH. f_equal.
  rewrite <- (seq_shift (length starts) 1), map_map.
  apply map_ext. intros j. f_equal. lia.
Qed.

Lemma range_enough (n : nat) : n - 0 <= n * chunk_size.
Proof. pose proof chunk_size_pos. nia. Qed.

(** C6. A table of at most 500,000 rows is offered as one CSV file.  A
    longer one is offered as an archive with one member per chunk, named
    [filtered_part_1.csv], [filtered_part_2.csv], ... in order.  The
    chunks have the columns of the table; their rows, one chunk after the
    other, are the rows of the table in their order; every chunk but
    possibly the last has 500,000 rows, none is empty or longer, and their
    sizes add up to the number of rows.  A table of 1,200,000 rows gives
    three chunks of 500,000, 500,000 and 200,000 rows. *)
Theorem export_csv_chunks (filtered : DataFrame) :
  let n := len filtered in
  (n <= chunk_size ->
     export_csv to_csv filtered =
     DownloadButton "Download CSV" (Bytes (to_csv filtered)) "filtered.csv" "text/csv") /\
  (chunk_size < n ->
     export_csv to_csv filtered =
     DownloadButton "Download CSV (ZIP, 500k rows per file)"
       (ZipBytes (combine (map part_name (seq 1 (length (chunks filtered))))
                          (map to_csv (chunks filtered))))
       "filtered_parts.zip" "application/zip") /\
  Forall (fun p => columns p = columns filtered) (chunks filtered) /\
  concat (map rows (chunks filtered)) = rows filtered /\
  map len (chunks filtered) =
    repeat chunk_size (n / chunk_size) ++
    (if n mod chunk_size =? 0 then [] else [n mod chunk_size]) /\
  Forall (fun p => 0 < len p <= chunk_size) (chunks filtered) /\
  list_sum (map len (chunks filtered)) = n /\
  (Z.of_nat n = 1200000%Z ->
     map (fun p => Z.of_nat (len p)) (chunks filtered) = [500000; 500000; 200000]%Z /\
     map part_name (seq 1 (length (chunks filtered))) =
       ["filtered_part_1.csv"; "filtered_part_2.csv"; "filtered_part_3.csv"]).
Proof.
  intros n.
  assert (Hsizes : map len (chunks filtered) = chunk_sizes n chunk_size).
  { unfold len at 1. rewrite <- (map_map rows (@length _)), chunks_rows, map_map.
    unfold range. rewrite (slices_sizes chunk_size_pos (rows filtered)) by apply range_enough.
    fold (len filtered). fold n. rewrite Nat.sub_0_r. reflexivity. }
  assert (Hcat : concat (map rows (chunks filtered)) = rows filtered).
  { rewrite chunks_rows. unfold range.
    rewrite (slices_concat chunk_size_pos (rows filtered)) by apply range_enough.
    reflexivity. }
  split; [|split; [|split; [|split; [exact Hcat|split; [exact Hsizes|split; [|split]]]]]].
  - intros Hle. unfold export_csv. fold n. apply Nat.leb_le in Hle. rewrite Hle. reflexivity.
  - intros Hgt. unfold export_csv. fold n. apply Nat.leb_gt in Hgt. rewrite Hgt.
    rewrite write_parts_members. unfold chunks. rewrite !length_map.
    reflexivity.
  - unfold chunks. apply Forall_forall. intros p Hp.
    apply in_map_iff in Hp. destruct Hp as (start & <- & _). reflexivity.
  - pose proof (chunk_sizes_bounds n chunk_size_pos) as Hb.
    rewrite <- Hsizes in Hb. rewrite Forall_map in Hb. exact Hb.
  - unfold n, len at 2. rewrite <- Hcat, length_concat.
    rewrite map_map. reflexivity.
  - intros Hn.
    assert (Hq : n / chunk_size = 2).
    { symmetry. apply (Nat.div_unique n chunk_size 2 (Z.to_nat 200000));
        unfold chunk_size; lia. }
    assert (Hr : n mod chunk_size = Z.to_nat 200000).
    { symmetry. apply (Nat.mod_unique n chunk_size 2 (Z.to_nat 200000));
        unfold chunk_size; lia. }
    assert (H3 : map len (chunks filtered) = [chunk_size; chunk_size; Z.to_nat 200000]).
    { rewrite Hsizes. unfold chunk_sizes. rewrite Hq, Hr.
      destruct (Z.to_nat 200000 =? 0) eqn:E; [apply Nat.eqb_eq in E; lia|reflexivity]. }
    split.
    + rewrite <- (map_map len Z.of_nat), H3. unfold chunk_size.
      cbn [map]. rewrite !Z2Nat.id by lia. reflexivity.
    + rewrite <- (length_map len), H3. reflexivity.
Qed.

End ExportCsv.

(** ** A failing Parquet writer *)

Section Parquet.

Variable read_parquet read_csv read_json_lines read_json_records : string -> result DataFrame.
Variable parse_datetime : list cell -> cell -> option (date * Z).
Variable to_csv : DataFrame -> string.

Let load := load_file read_parquet read_csv read_json_lines read_json_records.
Let run := main read_parquet read_csv read_json_lines read_json_records
                parse_datetime to_csv.

(** C7. When the form yields a filtered table, the run ends normally
    whatever the Parquet writer does.  The CSV download is offered first
    and is the same event for every Parquet writer; a writer that raises
    adds the caption that the Parquet download is unavailable, with the
    text of its exception, and nothing else changes. *)
Theorem parquet_failure_not_fatal (to_parquet : DataFrame -> result string)
    (up : uploaded_file) (ui : form_input) (df filtered : DataFrame)
    (log : list event) :
  load up = Ok df ->
  build_filters_form ui (coerce_columns parse_datetime df) =
    (log, Ok (Some filtered, true)) ->
  run to_parquet (Some up) ui =
    (log ++ [caption_filtered filtered; export_csv to_csv filtered;
             export_parquet to_parquet filtered], Ok tt) /\
  (forall e, to_parquet filtered = Raise e ->
     run to_parquet (Some up) ui =
       (log ++ [caption_filtered filtered; export_csv to_csv filtered;
                StCaption ("Parquet download unavailable: " ++ exn_str e)%string],
        Ok tt)) /\
  (forall to_parquet' : DataFrame -> result string,
     snd (run to_parquet' (Some up) ui) = snd (run to_parquet (Some up) ui) /\
     removelast (fst (run to_parquet' (Some up) ui)) =
     removelast (fst (run to_parquet (Some up) ui))).
Proof.
  intros Hload Hform. subst load run.
  assert (Hrun : forall w,
    main read_parquet read_csv read_json_lines read_json_records parse_datetime
         to_csv w (Some up) ui =
    (log ++ [caption_filtered filtered; export_csv to_csv filtered;
             export_parquet w filtered], Ok tt)).
  { intros w. unfold main. rewrite Hload, Hform. reflexivity. }
  split; [apply Hrun|split].
  - intros e He. rewrite Hrun. unfold export_parquet. rewrite He. reflexivity.
  - intros w. rewrite !Hrun. split; [reflexivity|]. simpl.
    change [caption_filtered filtered; export_csv to_csv filtered; export_parquet w filtered]
      with ([caption_filtered filtered; export_csv to_csv filtered] ++ [export_parquet w filtered]).
    change [caption_filtered filtered; export_csv to_csv filtered;
            export_parquet to_parquet filtered]
      with ([caption_filtered filtered; export_csv to_csv filtered]
            ++ [export_parquet to_parquet filtered]).
    rewrite !app_assoc, !removelast_last. reflexivity.
Qed.

End Parquet.

Lemma parquet_failure_not_fatal_witness :
  main read_sales read_sales read_sales read_sales parse_iso csv_stub no_pyarrow
       (Some sales_upload) sales_form =
  ([StCaption ("Filtered rows: 2 " ++ times_sign ++ " 3 columns")%string;
    DownloadButton "Download CSV" (Bytes "csv") "filtered.csv" "text/csv";
    StCaption "Parquet download unavailable: No module named 'pyarrow'"], Ok tt).
Proof.
  pose proof (@parquet_failure_not_fatal read_sales read_sales read_sales read_sales
                parse_iso csv_stub no_pyarrow sales_upload sales_form sales
                (mkDataFrame (columns sales) (firstn 2 (rows sales))) []
                eq_refl eq_refl) as (_ & H & _).
  rewrite (H _ eq_refl). reflexivity.
Defined.

(** ** Substring controls *)

(** What a substring control keeps, when its column is a column of
    strings and missing values and the text is a plain pattern: the rows
    whose value, written as a string, contains the text, letter case
    ignored.  The string of a missing value is its name. *)
Theorem substring_keeps_matching_strings (df : DataFrame) (col text : string)
    (i : nat) (rs : list (list cell)) :
  text <> EmptyString ->
  incl rs (rows df) ->
  index_of col (column_names df) = Some i ->
  substring_ok df (col, text) = true ->
  substring_step (narrowed df rs) (col, text) =
  Ok (narrowed df
        (filter (fun r => match cell_str (cell_at i r) with
                          | Some str => contains_ci text str
                          | None => false
                          end) rs)).
Proof.
  intros Hne Hin Hi Hok. rewrite (substring_step_filter _ _ Hin Hok).
  f_equal. f_equal. apply filter_ext. intros r. unfold substring_keep. rewrite Hi.
  destruct text; [elim Hne; reflexivity|reflexivity].
Qed.

Lemma substring_keeps_matching_strings_witness :
  substring_step (narrowed notes (rows notes)) ("note", "ITEM 10") =
  Ok (narrowed notes [[CTs 10 0; CStr "item 10"]; [CTs 10 0; CStr "item 100"]]).
Proof.
  rewrite (@substring_keeps_matching_strings notes "note" "ITEM 10" 1 (rows notes)).
  - vm_compute. reflexivity.
  - discriminate.
  - apply incl_refl.
  - reflexivity.
  - vm_compute. reflexivity.
Defined.

(** C3, at the failing input. In the table [notes] no note contains
    [nan]; the one row the substring control keeps for the text [nan] is
    the row whose note is missing. *)
Theorem substring_matches_missing_value :
  build_filters_form notes_form notes =
  ([], Ok (Some (mkDataFrame [("time", Datetime); ("note", Object)]
                             [[CTs 10 0; CNaN]]), true)).
Proof. vm_compute. reflexivity. Qed.

(** ** Categorical controls *)

(** What an entry of allowed values keeps, when its key does not start
    with [__dt__]: every row for an empty selection, and for any other the
    rows whose value in the column of that name is one of the selected
    values. *)
Theorem categorical_keeps_members (df : DataFrame) (key : string) (sel : list cell)
    (i : nat) (rs : list (list cell)) :
  Str.startswith "__dt__" key = false ->
  index_of key (column_names df) = Some i ->
  categorical_step df (narrowed df rs) (key, Values sel) =
  Ok (narrowed df
        (match sel with
         | [] => rs
         | _ => filter (fun r => existsb (cell_eqb (cell_at i r)) sel) rs
         end)).
Proof.
  intros Hkey Hi.
  rewrite categorical_step_filter.
  - unfold categorical_keep. rewrite Hkey, Hi.
    destruct sel; [rewrite filter_all by reflexivity|]; reflexivity.
  - unfold categorical_ok. rewrite Hkey. unfold is_column. rewrite Hi.
    destruct sel; reflexivity.
Qed.

Lemma categorical_keeps_members_witness :
  categorical_step sales (narrowed sales (rows sales)) ("region", Values [CStr "a"]) =
  Ok (narrowed sales [[CTs 10 0; CNum 1; CStr "a"]; [CTs 10 5; CNaN; CStr "a"]]).
Proof.
  rewrite (@categorical_keeps_members sales "region" [CStr "a"] 2 (rows sales));
    reflexivity.
Defined.

(** C5, at the failing input. In the table [tagged] the text column is
    labelled [__dt__tag]; with the value [a] selected for it the form
    returns all three rows, those with [b] and [c] included. *)
Theorem selection_ignored_for_prefixed_column :
  collect_controls tagged_form tagged "time" (column_names tagged) no_controls =
    Ok (mkControls [] [] [("__dt__tag", Values [CStr "a"])]) /\
  build_filters_form tagged_form tagged = ([], Ok (Some tagged, true)).
Proof. split; vm_compute; reflexivity. Qed.

(** ** Full-range constraints *)

Lemma for_items_app {V : Type} (body : DataFrame -> string * V -> result DataFrame)
    (l1 l2 : list (string * V)) (f : DataFrame) :
  for_items body (l1 ++ l2) f = rbind (for_items body l1 f) (for_items body l2).
Proof.
  revert f; induction l1 as [|item l1 IH]; intros f; simpl; [reflexivity|].
  destruct (body f item) as [f1|ex]; simpl; [apply IH|reflexivity].
Qed.

(** A loop skips an item on which its body returns the table as it is. *)
Lemma for_items_skip {V : Type} (body : DataFrame -> string * V -> result DataFrame)
    (l1 l2 : list (string * V)) (item : string * V) (f : DataFrame) :
  (forall f', body f' item = Ok f') ->
  for_items body (l1 ++ item :: l2) f = for_items body (l1 ++ l2) f.
Proof.
  intros Hskip. rewrite !for_items_app.
  destruct (for_items body l1 f) as [f1|ex]; simpl; [|reflexivity].
  rewrite Hskip. reflexivity.
Qed.

Lemma numeric_step_full_range (df : DataFrame) (col : string) (low high lo hi : float)
    (sr : Series) (f : DataFrame) :
  getitem df col = Ok sr -> float_min sr = Ok lo -> float_max sr = Ok hi ->
  pair_ne (low, high) (lo, hi) = false ->
  numeric_step df f (col, (low, high)) = Ok f.
Proof.
  intros Hs Hlo Hhi Hne. unfold numeric_step. rewrite Hs. simpl.
  rewrite Hlo. simpl. rewrite Hhi. simpl. rewrite Hne. reflexivity.
Qed.

Lemma categorical_step_full_range (df : DataFrame) (key : string) (s e : date)
    (sd : Series) (d : list (option date)) (f : DataFrame) :
  Str.startswith "__dt__" key = true ->
  getitem df (Str.replace "__dt__" "" key) = Ok sd -> dt_date sd = Ok d ->
  dates_min d = Some s -> dates_max d = Some e ->
  categorical_step df f (key, DateTuple [s; e]) = Ok f.
Proof.
  intros Hkey Hs Hd Hmin Hmax. unfold categorical_step. rewrite Hkey, Hs. simpl.
  rewrite Hd. simpl. rewrite Hmin, Hmax. unfold date_is. rewrite !Z.eqb_refl.
  reflexivity.
Qed.

(** C4. A range equal to the full range of its column is not always
    inert.  The table [stamped] has a datetime column labelled
    [seen__dt__at]; the form stores its date range, left at the first and
    the last date of the column, under the key [__dt__seen__dt__at], and
    line 89 reads the key back as the column [seenat]: the form ends in
    [KeyError], while without the entry the filters return both rows.
    The table [gauges] has a numeric column without a number, whose
    minimum and maximum are NaN: the range of NaN and NaN differs from
    itself at line 84, is applied, and drops both rows, while without the
    entry both rows are returned. *)
Theorem full_range_constraint_not_inert :
  (collect_controls stamped_form stamped "time" (column_names stamped) no_controls =
     Ok (mkControls [] [] [("__dt__seen__dt__at", DateTuple [3; 4]%Z)]) /\
   dates_min (map date_of (column_values stamped 1)) = Some 3%Z /\
   dates_max (map date_of (column_values stamped 1)) = Some 4%Z /\
   build_filters_form stamped_form stamped = ([], Raise (KeyError "seenat")) /\
   apply_filters stamped "time" [10; 10]%Z no_controls ["time"; "seen__dt__at"] =
     ([], Ok (Some stamped, true))) /\
  (reduce_floats Qmin_b (column_values gauges 1) = FNaN /\
   reduce_floats Qmax_b (column_values gauges 1) = FNaN /\
   apply_filters gauges "time" [10; 10]%Z
     (mkControls [("level", (FNaN, FNaN))] [] []) ["time"; "level"] =
     ([], Ok (Some (mkDataFrame (columns gauges) []), true)) /\
   apply_filters gauges "time" [10; 10]%Z no_controls ["time"; "level"] =
     ([], Ok (Some gauges, true))).
Proof. repeat split; vm_compute; reflexivity. Qed.

(** ** Applying the filters to the filtered table *)

Lemma index_of_in (c : string) (names : list string) :
  In c names -> exists i, index_of c names = Some i.
Proof.
  induction names as [|n names IH]; simpl; intros H; [contradiction|].
  destruct (String.eqb c n) eqn:E; [exists 0; reflexivity|].
  destruct H as [->|H]; [rewrite String.eqb_refl in E; discriminate|].
  destruct (IH H) as [i ->]. exists (S i). reflexivity.
Qed.

Lemma index_of_map {B : Type} (h : string -> B) (d : B) (c : string)
    (names : list string) (j : nat) :
  index_of c names = Some j -> nth j (map h names) d = h c.
Proof.
  intros H. apply index_of_nth_error in H.
  apply nth_error_nth. rewrite nth_error_map, H. reflexivity.
Qed.

Section Projected.

Variable df : DataFrame.
Variable selected : list string.
Hypothesis selected_columns_ok : forallb (is_column df) selected = true.

Lemma selected_is_column (c : string) :
  In c selected -> index_of c (column_names df) = Some (pos df c).
Proof.
  intros Hc. rewrite forallb_forall in selected_columns_ok.
  specialize (selected_columns_ok c Hc). unfold is_column, pos in *.
  destruct (index_of c (column_names df)); [reflexivity|discriminate].
Qed.

Lemma projected_names (rs : list (list cell)) :
  column_names (projected df selected rs) = selected.
Proof.
  unfold column_names, projected. simpl. rewrite map_map.
  rewrite <- (map_id selected) at 2. apply map_ext_in. intros c Hc.
  pose proof (index_of_nth_error _ _ (selected_is_column c Hc)) as Hn.
  unfold column_names in Hn. rewrite nth_error_map in Hn.
  destruct (nth_error (columns df) (pos df c)) as [p|] eqn:E; [|discriminate].
  rewrite (nth_error_nth _ _ _ E). simpl in Hn. congruence.
Qed.

(** A column of the projected table is a column of the table, and a cell
    of a projected row is the cell of the row in that column. *)
Lemma projected_cell (rs : list (list cell)) (col : string) (j : nat) :
  index_of col (column_names (projected df selected rs)) = Some j ->
  index_of col (column_names df) = Some (pos df col) /\
  forall r, cell_at j (project_row df selected r) = cell_at (pos df col) r.
Proof.
  rewrite projected_names. intros Hj. split.
  - apply selected_is_column. apply index_of_nth_error in Hj.
    apply nth_error_In in Hj. exact Hj.
  - intros r. unfold project_row, cell_at at 1.
    apply (index_of_map (fun c => cell_at (pos df c) r)). exact Hj.
Qed.

(** Selecting the selected columns of the projected table changes
    nothing. *)
Lemma projected_again (rs : list (list cell)) :
  projected (projected df selected rs) selected (rows (projected df selected rs)) =
  projected df selected rs.
Proof.
  assert (Hpos : forall c, In c selected ->
            index_of c selected = Some (pos (projected df selected rs) c)).
  { intros c Hc. unfold pos. rewrite projected_names.
    destruct (index_of_in _ _ Hc) as [j ->]. reflexivity. }
  remember (projected df selected rs) as T eqn:ET.
  assert (Hc : columns T =
               map (fun c => nth (pos df c) (columns df) (EmptyString, Other)) selected)
    by (subst T; reflexivity).
  assert (Hr : rows T = map (project_row df selected) rs) by (subst T; reflexivity).
  clear ET. destruct T as [cols rws]. simpl in Hc, Hr. subst cols rws.
  unfold projected. simpl. f_equal.
  - apply map_ext_in. intros c Hin.
    apply (index_of_map (fun c => nth (pos df c) (columns df) (EmptyString, Other))).
    apply Hpos, Hin.
  - rewrite <- (map_id (map (project_row df selected) rs)) at 2.
    rewrite !map_map. apply map_ext. intros r.
    unfold project_row at 1. apply map_ext_in. intros c Hin.
    unfold cell_at at 1. unfold project_row.
    apply (index_of_map (fun c => cell_at (pos df c) r)). apply Hpos, Hin.
Qed.

End Projected.

(** *** The minimum and the maximum bound the values of a column *)

Lemma Qmin_b_le (a b : Q) : (Qmin_b a b <= a)%Q /\ (Qmin_b a b <= b)%Q.
Proof.
  unfold Qmin_b. destruct (Qle_bool a b) eqn:E.
  - apply Qle_bool_iff in E. split; [apply Qle_refl|exact E].
  - split; [|apply Qle_refl]. apply Qlt_le_weak, Qnot_le_lt.
    intros H. apply Qle_bool_iff in H. congruence.
Qed.

Lemma Qmax_b_ge (a b : Q) : (a <= Qmax_b a b)%Q /\ (b <= Qmax_b a b)%Q.
Proof.
  unfold Qmax_b. destruct (Qle_bool a b) eqn:E.
  - apply Qle_bool_iff in E. split; [exact E|apply Qle_refl].
  - split; [apply Qle_refl|]. apply Qlt_le_weak, Qnot_le_lt.
    intros H. apply Qle_bool_iff in H. congruence.
Qed.

Lemma reduce_floats_min (vals : list cell) (q : Q) :
  In (CNum q) vals -> exists m, reduce_floats Qmin_b vals = F m /\ (m <= q)%Q.
Proof.
  induction vals as [|c vals IH]; simpl; intros H; [contradiction|].
  destruct H as [->|H].
  - simpl. destruct (reduce_floats Qmin_b vals) as [|m].
    + exists q. split; [reflexivity|apply Qle_refl].
    + exists (Qmin_b q m). split; [reflexivity|apply Qmin_b_le].
  - destruct (IH H) as (m & -> & Hm).
    destruct (cell_float c) as [|x].
    + exists m. split; [reflexivity|exact Hm].
    + exists (Qmin_b x m). split; [reflexivity|].
      apply Qle_trans with m; [apply Qmin_b_le|exact Hm].
Qed.

Lemma reduce_floats_max (vals : list cell) (q : Q) :
  In (CNum q) vals -> exists m, reduce_floats Qmax_b vals = F m /\ (q <= m)%Q.
Proof.
  induction vals as [|c vals IH]; simpl; intros H; [contradiction|].
  destruct H as [->|H].
  - simpl. destruct (reduce_floats Qmax_b vals) as [|m].
    + exists q. split; [reflexivity|apply Qle_refl].
    + exists (Qmax_b q m). split; [reflexivity|apply Qmax_b_ge].
  - destruct (IH H) as (m & -> & Hm).
    destruct (cell_float c) as [|x].
    + exists m. split; [reflexivity|exact Hm].
    + exists (Qmax_b x m). split; [reflexivity|].
      apply Qle_trans with m; [exact Hm|apply Qmax_b_ge].
Qed.

Lemma reduce_dates_min (l : list (option date)) (v : date) :
  In (Some v) l -> exists m, dates_min l = Some m /\ (m <= v)%Z.
Proof.
  unfold dates_min. induction l as [|x l IH]; simpl; intros H; [contradiction|].
  destruct H as [->|H].
  - destruct (reduce_dates Z.min l) as [m|].
    + exists (Z.min v m). split; [reflexivity|lia].
    + exists v. split; [reflexivity|lia].
  - destruct (IH H) as (m & -> & Hm). destruct x as [w|].
    + exists (Z.min w m). split; [reflexivity|lia].
    + exists m. split; [reflexivity|exact Hm].
Qed.

Lemma reduce_dates_max (l : list (option date)) (v : date) :
  In (Some v) l -> exists m, dates_max l = Some m /\ (v <= m)%Z.
Proof.
  unfold dates_max. induction l as [|x l IH]; simpl; intros H; [contradiction|].
  destruct H as [->|H].
  - destruct (reduce_dates Z.max l) as [m|].
    + exists (Z.max v m). split; [reflexivity|lia].
    + exists v. split; [reflexivity|lia].
  - destruct (IH H) as (m & -> & Hm). destruct x as [w|].
    + exists (Z.max w m). split; [reflexivity|lia].
    + exists m. split; [reflexivity|exact Hm].
Qed.

(** A number of the column lies in a range that line 84 takes for the
    full range of the column. *)
Lemma full_range_between (df : DataFrame) (i : nat) (low high : float)
    (r : list cell) (q : Q) :
  In r (rows df) -> cell_at i r = CNum q ->
  numeric_narrows df i low high = false ->
  between_cell low high (cell_at i r) = true.
Proof.
  intros Hr Hc Hn. unfold numeric_narrows, pair_ne in Hn.
  apply negb_false_iff, andb_prop in Hn. simpl in Hn. destruct Hn as [Hlo Hhi].
  assert (Hin : In (CNum q) (column_values df i)).
  { rewrite <- Hc. unfold column_values. apply in_map, Hr. }
  destruct (reduce_floats_min _ _ Hin) as (m & Em & Hm).
  destruct (reduce_floats_max _ _ Hin) as (M & EM & HM).
  rewrite Em in Hlo. rewrite EM in Hhi.
  destruct low as [|l]; [discriminate|]. destruct high as [|h]; [discriminate|].
  simpl in Hlo, Hhi. apply Qeq_bool_iff in Hlo, Hhi.
  unfold between_cell. rewrite Hc. simpl.
  apply andb_true_intro. split; apply Qle_bool_iff.
  - rewrite Hlo. exact Hm.
  - rewrite Hhi. exact HM.
Qed.

(** A date of the column lies in a range that line 92 takes for the full
    range of the column. *)
Lemma full_range_in_window (df : DataFrame) (i : nat) (s e : date)
    (r : list cell) (v : date) :
  In r (rows df) -> date_of (cell_at i r) = Some v ->
  dates_narrow df i s e = false ->
  in_window i s e r = true.
Proof.
  intros Hr Hc Hn. unfold dates_narrow in Hn.
  apply negb_false_iff, andb_prop in Hn. destruct Hn as [Hlo Hhi].
  assert (Hin : In (Some v) (map date_of (column_values df i))).
  { rewrite <- Hc. unfold column_values. apply in_map, in_map, Hr. }
  destruct (reduce_dates_min _ _ Hin) as (m & Em & Hm).
  destruct (reduce_dates_max _ _ Hin) as (M & EM & HM).
  rewrite Em in Hlo. rewrite EM in Hhi. simpl in Hlo, Hhi.
  apply Z.eqb_eq in Hlo, Hhi. subst m M.
  unfold in_window. rewrite Hc. simpl.
  apply andb_true_intro. split; apply Z.leb_le; assumption.
Qed.

Section Again.

Variable df : DataFrame.
Variable time_col : string.
Variables s e : date.
Variable cs : controls.
Variable selected : list string.
Hypothesis selected_columns_ok : forallb (is_column df) selected = true.

Variable rs : list (list cell).

Let again := projected df selected rs.

Lemma in_window_projected (ds de : date) (r : list cell) (j : nat) (col : string) :
  index_of col (column_names again) = Some j ->
  in_window j ds de (project_row df selected r) = in_window (pos df col) ds de r.
Proof.
  intros Hj. destruct (projected_cell df selected selected_columns_ok rs col Hj) as [_ Hc].
  unfold in_window. rewrite Hc. reflexivity.
Qed.

Lemma numeric_keep_projected (item : string * (float * float)) (r : list cell) :
  In r (rows df) ->
  numeric_keep df item r = true -> numeric_present df item r = true ->
  numeric_keep again item (project_row df selected r) = true.
Proof.
  destruct item as [col [low high]]. unfold numeric_keep, numeric_present.
  intros Hr Hk Hp.
  destruct (index_of col (column_names again)) as [j|] eqn:Hj; [|reflexivity].
  destruct (projected_cell df selected selected_columns_ok rs col Hj) as [Hi Hc].
  rewrite Hi in Hk, Hp. rewrite Hc.
  destruct (numeric_narrows again j low high); [|reflexivity].
  destruct (numeric_narrows df (pos df col) low high) eqn:Hn; [exact Hk|].
  simpl in Hp. destruct (cell_at (pos df col) r) as [q| | | | |] eqn:Ec; try discriminate.
  rewrite <- Ec. apply (full_range_between df _ _ _ r Hr Ec Hn).
Qed.

Lemma categorical_keep_projected (item : string * selection) (r : list cell) :
  In r (rows df) ->
  categorical_keep df item r = true -> dates_present df item r = true ->
  categorical_keep again item (project_row df selected r) = true.
Proof.
  destruct item as [key rng]. unfold categorical_keep, dates_present.
  intros Hr Hk Hp. destruct (Str.startswith "__dt__" key).
  - destruct rng as [[|ds [|de [|x t]]]|l]; try reflexivity.
    destruct (index_of _ (column_names again)) as [j|] eqn:Hj; [|reflexivity].
    destruct (projected_cell df selected selected_columns_ok rs _ Hj) as [Hi Hc].
    rewrite Hi in Hk, Hp.
    destruct (dates_narrow again j ds de); [|reflexivity].
    rewrite (in_window_projected ds de r _ Hj).
    destruct (dates_narrow df _ ds de) eqn:Hn; [exact Hk|].
    simpl in Hp.
    destruct (date_of (cell_at (pos df (Str.replace "__dt__" "" key)) r)) as [v|] eqn:Ec;
      [|discriminate].
    apply (full_range_in_window df _ _ _ r Hr Ec Hn).
  - destruct rng as [t|[|x sel]]; try reflexivity.
    destruct (index_of key (column_names again)) as [j|] eqn:Hj; [|reflexivity].
    destruct (projected_cell df selected selected_columns_ok rs key Hj) as [Hi Hc].
    rewrite Hi in Hk. rewrite Hc. exact Hk.
Qed.

Lemma substring_keep_projected (item : string * string) (r : list cell) :
  substring_keep df item r = true ->
  substring_keep again item (project_row df selected r) = true.
Proof.
  destruct item as [col text]. unfold substring_keep. intros Hk.
  destruct text as [|a text]; [reflexivity|].
  destruct (index_of col (column_names again)) as [j|] eqn:Hj; [|reflexivity].
  destruct (projected_cell df selected selected_columns_ok rs col Hj) as [Hi Hc].
  rewrite Hi in Hk. rewrite Hc. exact Hk.
Qed.

(** A row that passes the filters on the table passes them on the
    filtered table, if it has a value wherever a full range looks. *)
Lemma keep_projected (r : list cell) :
  In r (rows df) ->
  keep df time_col s e cs r = true ->
  full_range_cells_present df cs r = true ->
  keep again time_col s e cs (project_row df selected r) = true.
Proof.
  intros Hr Hk Hp. unfold keep in *. unfold full_range_cells_present in Hp.
  apply andb_prop in Hp. destruct Hp as [Hpn Hpd].
  repeat (apply andb_prop in Hk; destruct Hk as [Hk ?]).
  rename Hk into Hw, H1 into Hn, H0 into Hc, H into Hs.
  rewrite forallb_forall in Hpn, Hpd, Hn, Hc, Hs.
  repeat (apply andb_true_intro; split).
  - destruct (index_of time_col (column_names again)) as [j|] eqn:Hj; [|reflexivity].
    rewrite (in_window_projected s e r _ Hj).
    destruct (projected_cell df selected selected_columns_ok rs _ Hj) as [Hi _].
    rewrite Hi in Hw. exact Hw.
  - apply forallb_forall. intros item Hin.
    apply numeric_keep_projected; [exact Hr|apply Hn, Hin|apply Hpn, Hin].
  - apply forallb_forall. intros item Hin.
    apply categorical_keep_projected; [exact Hr|apply Hc, Hin|apply Hpd, Hin].
  - apply forallb_forall. intros item Hin.
    apply substring_keep_projected. apply Hs, Hin.
Qed.

End Again.

(** C8, as the code has it. Let the controls name columns of the table
    and of the filtered table (so the selected columns include every
    column the controls use), and let every row that passes have a value
    wherever a range equal to the full range of its column looks.  Then
    applying the same window, controls and selection to the filtered table
    returns the filtered table: the same rows, the same columns in the
    same order. *)
Theorem filters_idempotent_without_missing (df : DataFrame) (time_col : string)
    (s e : date) (cs : controls) (selected : list string) (filtered : DataFrame) :
  controls_ok df time_col cs selected = true ->
  apply_filters df time_col [s; e] cs selected = ([], Ok (Some filtered, true)) ->
  controls_ok filtered time_col cs selected = true ->
  (forall r, In r (rows df) -> keep df time_col s e cs r = true ->
             full_range_cells_present df cs r = true) ->
  apply_filters filtered time_col [s; e] cs selected = ([], Ok (Some filtered, true)).
Proof.
  intros Hok Hfirst Hok2 Hpresent.
  assert (Hle : (e - s <= 30)%Z).
  { destruct (Z.lt_ge_cases 30 (e - s)) as [Hlt|Hge]; [|exact Hge].
    rewrite apply_filters_too_long in Hfirst by exact Hlt. discriminate Hfirst. }
  rewrite apply_filters_accepted in Hfirst by exact Hle.
  rewrite (filter_rows_keep _ _ s e _ _ Hok) in Hfirst. simpl in Hfirst.
  injection Hfirst as Hfiltered.
  rewrite apply_filters_accepted by exact Hle.
  rewrite (filter_rows_keep _ _ s e _ _ Hok2). simpl.
  assert (Hsel : forallb (is_column df) selected = true).
  { unfold controls_ok in Hok. apply andb_prop in Hok. apply Hok. }
  subst filtered.
  set (kept := filter (keep df time_col s e cs) (rows df)).
  rewrite filter_all.
  - rewrite (projected_again df selected Hsel kept). reflexivity.
  - intros r1 Hr1. simpl in Hr1. apply in_map_iff in Hr1.
    destruct Hr1 as (r & <- & Hr). apply filter_In in Hr. destruct Hr as [Hr Hk].
    apply keep_projected; [exact Hsel|exact Hr|exact Hk|apply Hpresent; assumption].
Qed.

Lemma filters_idempotent_without_missing_witness :
  apply_filters sales_b "time" [10; 11]%Z sales_controls_b sales_columns =
  ([], Ok (Some sales_b, true)).
Proof.
  apply (@filters_idempotent_without_missing sales "time" 10%Z 11%Z sales_controls_b
           sales_columns sales_b).
  - vm_compute. reflexivity.
  - vm_compute. reflexivity.
  - vm_compute. reflexivity.
  - intros r Hr. simpl in Hr.
    destruct Hr as [<-|[<-|[<-|[]]]]; vm_compute; intros Hk;
      first [reflexivity|discriminate Hk].
Defined.

(** C8, as the specification words it, fails. On [sales] the range of
    [amount] is its full range and is skipped, so the row without an
    amount stays; on the result the same range is no longer the full
    range, and applying the same controls again drops that row. *)
Lemma filters_not_idempotent_counterexample :
  controls_ok sales "time" sales_controls sales_columns = true /\
  apply_filters sales "time" [10; 11]%Z sales_controls sales_columns =
    ([], Ok (Some sales_once, true)) /\
  controls_ok sales_once "time" sales_controls sales_columns = true /\
  apply_filters sales_once "time" [10; 11]%Z sales_controls sales_columns =
    ([], Ok (Some sales_twice, true)) /\
  sales_twice <> sales_once.
Proof.
  repeat split; try (vm_compute; reflexivity). discriminate.
Qed.

(** ** The filters as one conjunction *)

(** When the controls name columns of the table, [apply_filters] on a
    window of at most 30 days returns the rows that lie in the window and
    pass every numeric range, every entry of [categorical_selections] and
    every substring, in their order in the table, cut to the selected
    columns in the order of the selection. *)
Theorem apply_filters_conjunction (df : DataFrame) (time_col : string)
    (s e : date) (cs : controls) (selected : list string) :
  (e - s <= 30)%Z ->
  controls_ok df time_col cs selected = true ->
  apply_filters df time_col [s; e] cs selected =
  ([], Ok (Some (projected df selected (filter (keep df time_col s e cs) (rows df))),
           true)).
Proof.
  intros Hle Hok. rewrite apply_filters_accepted by exact Hle.
  rewrite (filter_rows_keep _ _ s e _ _ Hok). reflexivity.
Qed.

Lemma apply_filters_conjunction_witness :
  apply_filters sales "time" [10; 11]%Z sales_controls sales_columns =
  ([], Ok (Some sales_once, true)).
Proof.
  refine (eq_trans (@apply_filters_conjunction sales "time" 10%Z 11%Z sales_controls
                      sales_columns _ _) _).
  - vm_compute. discriminate.
  - vm_compute. reflexivity.
  - vm_compute. reflexivity.
Defined.

(** * Further properties of the program *)

(** ** The reader of an upload *)

Lemma endswith_excludes (suf suf' s : string) :
  suf <> EmptyString -> suf' <> EmptyString ->
  Str.last_char suf <> Str.last_char suf' ->
  Str.endswith suf s = true -> Str.endswith suf' s = false.
Proof.
  intros H1 H2 Hne E. destruct (Str.endswith suf' s) eqn:E'; [|reflexivity].
  elim Hne. apply endswith_last with (s := s); assumption.
Qed.

Section Readers.

Variable read_parquet read_csv read_json_lines read_json_records : string -> result DataFrame.

Let load := load_file read_parquet read_csv read_json_lines read_json_records.

(** The reader is chosen by the end of the lowercased name alone: a name in
    [.parquet] goes to the Parquet reader, one in [.csv] to the CSV
    reader, one in [.jsonl] or [.jsonl.gz] to the reader of line-delimited
    records, each whatever the rest of the name holds and never to another
    reader; two uploads whose names differ in letter case only, with the
    same bytes, load alike. *)
Theorem load_file_reader_by_extension (up : uploaded_file) :
  let lname := Str.lower (name up) in
  (Str.endswith ".parquet" lname = true -> load up = read_parquet (getvalue up)) /\
  (Str.endswith ".csv" lname = true -> load up = read_csv (getvalue up)) /\
  (Str.endswith ".jsonl" lname = true \/ Str.endswith ".jsonl.gz" lname = true ->
     load up = read_json_lines (getvalue up)) /\
  (forall up', Str.lower (name up') = lname -> getvalue up' = getvalue up ->
     load up' = load up).
Proof.
  intros lname. subst load. unfold load_file. fold lname.
  split; [|split; [|split]].
  - intros ->. reflexivity.
  - intros H.
    rewrite (endswith_excludes (suf:=".csv") (suf':=".parquet") lname) by
      (try discriminate; exact H).
    rewrite H. reflexivity.
  - intros [H|H].
    + rewrite (endswith_excludes (suf:=".jsonl") (suf':=".parquet") lname) by
        (try discriminate; exact H).
      rewrite (endswith_excludes (suf:=".jsonl") (suf':=".csv") lname) by
        (try discriminate; exact H).
      rewrite H. reflexivity.
    + rewrite (endswith_excludes (suf:=".jsonl.gz") (suf':=".parquet") lname) by
        (try discriminate; exact H).
      rewrite (endswith_excludes (suf:=".jsonl.gz") (suf':=".csv") lname) by
        (try discriminate; exact H).
      rewrite H, orb_true_r. reflexivity.
  - intros up' -> ->. reflexivity.
Qed.

End Readers.

Lemma load_file_reader_by_extension_witness :
  load_file (fun _ => Raise (OtherError "parquet")) read_sales
            (fun _ => Raise (OtherError "lines")) (fun _ => Raise (OtherError "records"))
            sales_upload = Ok sales.
Proof.
  destruct (@load_file_reader_by_extension (fun _ => Raise (OtherError "parquet"))
              read_sales (fun _ => Raise (OtherError "lines"))
              (fun _ => Raise (OtherError "records")) sales_upload) as (_ & H & _).
  rewrite H; reflexivity.
Defined.

(** ** The keys of the date ranges *)

Lemma prefix_app (p s : string) : String.prefix p (p ++ s) = true.
Proof.
  induction p as [|c p IH]; simpl; [destruct s; reflexivity|].
  destruct (Ascii.ascii_dec c c) as [_|Hne]; [exact IH|elim Hne; reflexivity].
Qed.

Lemma contains_prefix (p s : string) :
  Str.contains p s = false -> String.prefix p s = false.
Proof.
  destruct s as [|c s]; simpl; [intros H; exact H|].
  intros H. apply orb_false_iff in H. apply H.
Qed.

(** A string without an occurrence of [old] is left as it is. *)
Lemma replace_absent (old new s : string) :
  Str.contains old s = false -> Str.replace_from old new 0 s = s.
Proof.
  induction s as [|c s IH]; [reflexivity|].
  intros H. pose proof (contains_prefix _ _ H) as Hp.
  cbn [Str.replace_from]. rewrite Hp. f_equal. apply IH.
  simpl in H. apply orb_false_iff in H. apply H.
Qed.

(** The characters of a matched occurrence are dropped. *)
Lemma replace_skip (old new a s : string) :
  Str.replace_from old new (String.length a) (a ++ s) = Str.replace_from old new 0 s.
Proof.
  induction a as [|c a IH]; simpl.
  - destruct s; reflexivity.
  - exact IH.
Qed.

(** An occurrence at the start is replaced, and the search goes on after
    it. *)
Lemma replace_strip (c : ascii) (o new s : string) :
  Str.replace (String c o) new (String c o ++ s) =
  (new ++ Str.replace_from (String c o) new 0 s)%string.
Proof.
  unfold Str.replace.
  change (String c o ++ s)%string with (String c (o ++ s)).
  cbn [Str.replace_from].
  change (String c (o ++ s)) with (String c o ++ s)%string.
  rewrite prefix_app. f_equal.
  change (String.length (String c o) - 1) with (String.length o - 0).
  rewrite Nat.sub_0_r. apply replace_skip.
Qed.

Lemma date_key_decodes (col : string) :
  Str.contains "__dt__" col = false ->
  Str.startswith "__dt__" ("__dt__" ++ col) = true /\
  Str.replace "__dt__" "" ("__dt__" ++ col) = col.
Proof.
  intros H. split.
  - apply prefix_app.
  - rewrite (replace_strip "_" "_dt__" "" col). apply replace_absent, H.
Qed.

(** The key that line 58 writes for a datetime column is read back by
    lines 88-89 as a date range on that column, for every column name
    that holds no [__dt__]: the key starts with [__dt__], and the key
    without [__dt__] is the name. *)
Theorem date_key_round_trip (col : string) :
  Str.contains "__dt__" col = false ->
  Str.startswith "__dt__" ("__dt__" ++ col) = true /\
  Str.replace "__dt__" "" ("__dt__" ++ col) = col.
Proof. exact (date_key_decodes col). Qed.

Lemma date_key_round_trip_witness :
  Str.replace "__dt__" "" ("__dt__" ++ "shipped_at") = "shipped_at".
Proof.
  apply (date_key_round_trip "shipped_at"). reflexivity.
Defined.

(** ** The time column of the form *)

Lemma datetime_cols_has_column (df : DataFrame) (col : string) :
  In col (datetime_cols df) ->
  In col (column_names df) /\ has_column df col Datetime = true.
Proof.
  unfold datetime_cols. intros H. apply filter_In in H. destruct H as [Hin H].
  split; [exact Hin|]. unfold has_column.
  destruct (getitem df col) as [sr|]; [|discriminate].
  unfold is_datetime64_any_dtype in H. exact H.
Qed.

Lemma default_time_col_in (df : DataFrame) :
  datetime_cols df <> [] -> In (default_time_col df) (datetime_cols df).
Proof.
  intros Hne. unfold default_time_col.
  destruct (existsb (String.eqb "time") (datetime_cols df)) eqn:E.
  - apply existsb_exists in E. destruct E as (c & Hc & Heq).
    apply String.eqb_eq in Heq. subst c. exact Hc.
  - destruct (datetime_cols df); [elim Hne; reflexivity|left; reflexivity].
Qed.

Lemma chosen_time_col_in (ui : form_input) (df : DataFrame) :
  datetime_cols df <> [] -> In (chosen_time_col ui df) (datetime_cols df).
Proof.
  intros Hne. unfold chosen_time_col.
  destruct (time_col_pick ui) as [i|]; [|apply default_time_col_in, Hne].
  destruct (nth_in_or_default i (datetime_cols df) (default_time_col df)) as [H| ->].
  - exact H.
  - apply default_time_col_in, Hne.
Qed.

(** [build_filters_form] past its first check, in terms of the time
    column. *)
Lemma build_filters_form_time_col (ui : form_input) (df : DataFrame) :
  datetime_cols df <> [] ->
  build_filters_form ui df =
  match rbind (getitem df (chosen_time_col ui df))
          (fun ts => rbind (dt_date ts)
             (fun col_dates => rbind (default_window col_dates)
                (fun _ => collect_controls ui df (chosen_time_col ui df)
                            (column_names df) no_controls))) with
  | Raise ex => ([], Raise ex)
  | Ok cs =>
      if negb (submitted ui) then ([], Ok (None, false))
      else apply_filters df (chosen_time_col ui df) (date_range ui) cs
             (selected_columns ui)
  end.
Proof.
  intros Hne. unfold build_filters_form, chosen_time_col, default_time_col.
  destruct (datetime_cols df) as [|first rest]; [elim Hne; reflexivity|].
  reflexivity.
Qed.

Lemma chosen_time_col_datetime (ui : form_input) (df : DataFrame) :
  datetime_cols df <> [] ->
  has_column df (chosen_time_col ui df) Datetime = true /\
  (has_column df "time" Datetime = true -> In "time" (column_names df) ->
   time_col_pick ui = None -> chosen_time_col ui df = "time") /\
  exists ts d, getitem df (chosen_time_col ui df) = Ok ts /\ dt_date ts = Ok d.
Proof.
  intros Hne.
  destruct (datetime_cols_has_column df _ (chosen_time_col_in ui df Hne)) as [_ Hdt].
  split; [exact Hdt|split].
  - intros Htime Hin Hpick. unfold chosen_time_col. rewrite Hpick.
    unfold default_time_col.
    assert (E : existsb (String.eqb "time") (datetime_cols df) = true).
    { apply existsb_exists. exists "time". split; [|apply String.eqb_refl].
      unfold datetime_cols. apply filter_In. split; [exact Hin|].
      unfold has_column in Htime. destruct (getitem df "time"); [exact Htime|discriminate]. }
    rewrite E. reflexivity.
  - unfold has_column in Hdt.
    destruct (getitem df (chosen_time_col ui df)) as [ts|]; [|discriminate].
    exists ts, (map date_of (values ts)). split; [reflexivity|].
    unfold dt_date, is_datetime64_any_dtype. rewrite Hdt. reflexivity.
Qed.

(** Whatever the user picks, the time column the form filters on is a
    datetime column of the table: the column [time] by default when it is
    one, and the window step finds its dates. *)
Theorem time_column_is_datetime (ui : form_input) (df : DataFrame) :
  datetime_cols df <> [] ->
  has_column df (chosen_time_col ui df) Datetime = true /\
  (has_column df "time" Datetime = true -> In "time" (column_names df) ->
   time_col_pick ui = None -> chosen_time_col ui df = "time") /\
  exists ts d, getitem df (chosen_time_col ui df) = Ok ts /\ dt_date ts = Ok d.
Proof. exact (chosen_time_col_datetime ui df). Qed.

Lemma time_column_is_datetime_witness :
  has_column sales (chosen_time_col sales_form sales) Datetime = true.
Proof.
  apply (@time_column_is_datetime sales_form sales). discriminate.
Defined.

(** ** The default of the window *)

Lemma default_window_ok (col_dates : list (option date)) (d : date) :
  In (Some d) col_dates ->
  exists lo hi,
    dates_min col_dates = Some lo /\ dates_max col_dates = Some hi /\
    default_window col_dates = Ok (Z.max lo (hi - 7), hi)%Z.
Proof.
  intros Hd.
  destruct (reduce_dates_min _ _ Hd) as (m & Em & _).
  destruct (reduce_dates_max _ _ Hd) as (M & EM & _).
  exists m, M. unfold default_window. rewrite Em, EM. repeat split.
Qed.

Lemma default_window_no_date (col_dates : list (option date)) :
  (forall d, ~ In (Some d) col_dates) ->
  dates_min col_dates = None /\ dates_max col_dates = None /\
  exists msg, default_window col_dates = Raise (TypeError msg).
Proof.
  intros Hno.
  assert (H : forall op, reduce_dates op col_dates = None).
  { intros op. induction col_dates as [|[v|] l IH]; simpl.
    - reflexivity.
    - elim (Hno v). left. reflexivity.
    - apply IH. intros d Hd. apply (Hno d). right. exact Hd. }
  unfold default_window, dates_min, dates_max. rewrite !H.
  split; [reflexivity|split; [reflexivity|eexists; reflexivity]].
Qed.

(** On a table whose datetime columns each hold a timestamp, the lines
    up to the loop over the columns end normally. *)
Lemma time_col_window (ui : form_input) (df : DataFrame) :
  datetime_cols df <> [] -> columns_observed df ->
  exists ts d w,
    getitem df (chosen_time_col ui df) = Ok ts /\ dt_date ts = Ok d /\
    default_window d = Ok w.
Proof.
  intros Hne Hobs.
  destruct (chosen_time_col_datetime ui df Hne) as (Hdt & _ & _).
  destruct (has_column_index _ _ _ Hdt) as (i & Hi & Ht).
  destruct (Hobs _ _ Hi) as [_ Hts]. destruct (Hts Hdt) as (d0 & t0 & Hin).
  exists (mkSeries (nth i (map snd (columns df)) Other) (column_values df i)),
         (map date_of (column_values df i)).
  destruct (@default_window_ok (map date_of (column_values df i)) d0)
    as (lo & hi & _ & _ & Hw).
  { apply (in_map date_of _ _ Hin). }
  eexists. split; [apply getitem_index, Hi|]. split; [|exact Hw].
  unfold dt_date, is_datetime64_any_dtype. simpl.
  unfold has_column in Hdt. rewrite (getitem_index _ _ Hi) in Hdt. simpl in Hdt.
  rewrite Hdt. reflexivity.
Qed.

(** ** The controls the form collects *)

Lemma in_dict_set {V : Type} (k : string) (v : V) (d : list (string * V))
    (item : string * V) :
  In item (dict_set k v d) -> item = (k, v) \/ In item d.
Proof.
  induction d as [|[k' v'] d IH]; simpl.
  - intros [<-|[]]. left. reflexivity.
  - destruct (String.eqb k k'); simpl.
    + intros [<-|H]; [left; reflexivity|right; right; exact H].
    + intros [<-|H]; [right; left; reflexivity|].
      destruct (IH H) as [->|Hd]; [left; reflexivity|right; right; exact Hd].
Qed.

Lemma forallb_dict_set {V : Type} (p : string * V -> bool) (k : string) (v : V)
    (d : list (string * V)) :
  forallb p d = true -> p (k, v) = true -> forallb p (dict_set k v d) = true.
Proof.
  intros Hd Hkv. apply forallb_forall. intros item Hin.
  destruct (in_dict_set _ _ _ _ Hin) as [->|H]; [exact Hkv|].
  rewrite forallb_forall in Hd. apply Hd, H.
Qed.

Lemma has_column_dtype (df : DataFrame) (col : string) (i : nat) (t : dtype) :
  index_of col (column_names df) = Some i ->
  has_column df col t = dtype_eqb (nth i (map snd (columns df)) Other) t.
Proof. intros Hi. unfold has_column. rewrite (getitem_index _ _ Hi). reflexivity. Qed.

(** *** Sorting the options of a multiselect *)

Lemma unique_in (l : list cell) (x : cell) : In x (unique l) -> In x l.
Proof.
  induction l as [|c l IH]; simpl; [tauto|].
  intros [<-|H]; [left; reflexivity|].
  apply filter_In in H. right. apply IH, H.
Qed.

Lemma dropna_in (l : list cell) (x : cell) :
  In x (dropna l) <-> In x l /\ isna x = false.
Proof.
  unfold dropna. rewrite filter_In, negb_true_iff. reflexivity.
Qed.

Lemma comparable_refl (a : cell) : isna a = false -> comparable a a = true.
Proof. destruct a; simpl; congruence. Qed.

Lemma comparable_trans (c a b : cell) :
  comparable c a = true -> comparable c b = true -> comparable a b = true.
Proof. destruct c, a, b; simpl; congruence. Qed.

Lemma insert_sorted_length (c : cell) (l : list cell) :
  length (insert_sorted c l) = S (length l).
Proof.
  induction l as [|x l IH]; simpl; [reflexivity|].
  destruct (cell_leb c x); simpl; [reflexivity|]. rewrite IH. reflexivity.
Qed.

Lemma sort_cells_length (l : list cell) : length (sort_cells l) = length l.
Proof.
  induction l as [|c l IH]; simpl; [reflexivity|].
  rewrite insert_sorted_length, IH. reflexivity.
Qed.

(** Values of one kind are sorted without an exception. *)
Lemma sorted_one_kind (l : list cell) :
  one_kind l ->
  sorted (unique (dropna l)) = Ok (sort_cells (unique (dropna l))).
Proof.
  intros H. unfold sorted.
  destruct (unique (dropna l)) as [|c l'] eqn:E; [reflexivity|].
  assert (Hin : forall x, In x (c :: l') -> In x l /\ isna x = false).
  { intros x Hx. rewrite <- E in Hx. apply dropna_in, unique_in, Hx. }
  replace (forallb (comparable c) l') with true; [reflexivity|].
  symmetry. apply forallb_forall. intros x Hx.
  destruct (Hin c (or_introl eq_refl)) as [Hc Hnc].
  destruct (Hin x (or_intror Hx)) as [Hxl Hnx].
  apply H; assumption.
Qed.

Lemma one_kind_check_ok (l : list cell) : one_kind_check l = true -> one_kind l.
Proof.
  unfold one_kind_check, one_kind. intros H a b Ha Hb Hna Hnb.
  assert (Hda : In a (dropna l)) by (apply dropna_in; split; assumption).
  assert (Hdb : In b (dropna l)) by (apply dropna_in; split; assumption).
  destruct (dropna l) as [|c l']; [contradiction|].
  rewrite forallb_forall in H.
  assert (Hc : forall x, In x (c :: l') -> isna x = false -> comparable c x = true).
  { intros x [<-|Hx] Hn; [apply comparable_refl, Hn|apply H, Hx]. }
  apply (comparable_trans c); apply Hc; assumption.
Qed.

Lemma text_one_kind (l : list cell) : forallb is_text l = true -> one_kind l.
Proof.
  intros H a b Ha Hb Hna Hnb. rewrite forallb_forall in H.
  pose proof (H a Ha) as Ta. pose proof (H b Hb) as Tb.
  destruct a; try discriminate; destruct b; try discriminate; reflexivity.
Qed.

Lemma text_columns_sortable (df : DataFrame) : text_columns_ok df -> columns_sortable df.
Proof.
  intros H col i Hi Hn Hd. apply text_one_kind. apply (H col i Hi Hn Hd).
Qed.

(** The loop of lines 50-64 ends normally and keeps a property of the
    dictionaries that each of its steps keeps. *)
Lemma collect_controls_inv (ui : form_input) (df : DataFrame) (time_col : string)
    (I : controls -> Prop) :
  (forall col acc, In col (column_names df) -> I acc ->
     exists acc', add_control ui df time_col acc col = Ok acc' /\ I acc') ->
  forall cols acc, incl cols (column_names df) -> I acc ->
  exists cs, collect_controls ui df time_col cols acc = Ok cs /\ I cs.
Proof.
  intros Hstep. induction cols as [|col cols IH]; intros acc Hin Hacc; simpl.
  - exists acc. split; [reflexivity|exact Hacc].
  - destruct (Hstep col acc (Hin col (or_introl eq_refl)) Hacc) as (acc' & -> & Hacc').
    simpl. apply IH; [|exact Hacc'].
    intros c Hc. apply Hin. right. exact Hc.
Qed.

Section FormNeverRaises.

Variable ui : form_input.
Variable df : DataFrame.
Variable time_col : string.

Hypothesis keys_ok : date_keys_ok df.
Hypothesis text_ok : text_columns_ok df.
Hypothesis patterns_ok : forall col, Str.regex_plain (text_input ui col) = true.

Lemma add_control_entries_ok (col : string) (acc : controls) :
  In col (column_names df) -> entries_ok df acc = true ->
  exists acc', add_control ui df time_col acc col = Ok acc' /\ entries_ok df acc' = true.
Proof.
  intros Hin Hacc. unfold add_control.
  destruct (String.eqb col time_col); [exists acc; split; [reflexivity|exact Hacc]|].
  destruct (index_of_in _ _ Hin) as [i Hi].
  rewrite (getitem_index _ _ Hi). simpl.
  pose proof (has_column_dtype df col Numeric Hi) as Hnum.
  pose proof (has_column_dtype df col Datetime Hi) as Hdt.
  unfold entries_ok in Hacc.
  apply andb_prop in Hacc. destruct Hacc as [Hacc Hs].
  apply andb_prop in Hacc. destruct Hacc as [Hn Hc].
  unfold float_min, float_max, dt_date, is_numeric_dtype, is_datetime64_any_dtype. simpl.
  destruct (dtype_eqb (nth i (map snd (columns df)) Other) Numeric) eqn:En.
  - simpl. eexists. split; [reflexivity|]. unfold entries_ok. simpl.
    rewrite Hc, Hs, !andb_true_r. apply forallb_dict_set; [exact Hn|].
    unfold numeric_ok. simpl. exact Hnum.
  - destruct (dtype_eqb (nth i (map snd (columns df)) Other) Datetime) eqn:Ed.
    + simpl. eexists. split; [reflexivity|]. unfold entries_ok. simpl.
      rewrite Hn, Hs, andb_true_r. simpl. apply forallb_dict_set; [exact Hc|].
      unfold categorical_ok.
      change (String "_" (String "_" (String "d" (String "t" (String "_" (String "_" col))))))
        with ("__dt__" ++ col)%string.
      destruct (date_key_decodes col (keys_ok col Hdt)) as [-> ->].
      destruct (date_input ui col _) as [|a [|b [|x t]]]; try reflexivity. exact Hdt.
    + rewrite (sorted_one_kind (text_one_kind _ (text_ok col Hi Hnum Hdt))). simpl.
      destruct (length (sort_cells (unique (dropna (column_values df i)))) <=? 100).
      * eexists. split; [reflexivity|]. unfold entries_ok. simpl.
        rewrite Hn, Hs, andb_true_r. simpl. apply forallb_dict_set; [exact Hc|].
        unfold categorical_ok. destruct (Str.startswith "__dt__" col); [reflexivity|].
        destruct (multiselect ui col _); [reflexivity|].
        unfold is_column. rewrite Hi. reflexivity.
      * eexists. split; [reflexivity|]. unfold entries_ok. simpl.
        rewrite Hn, Hc. simpl. apply forallb_dict_set; [exact Hs|].
        unfold substring_ok. destruct (text_input ui col) eqn:Et; [reflexivity|].
        rewrite Hi. rewrite <- Et, patterns_ok. simpl.
        apply (text_ok col Hi); assumption.
Qed.

End FormNeverRaises.

Lemma index_of_names_in (df : DataFrame) (col : string) (i : nat) :
  index_of col (column_names df) = Some i -> In col (column_names df).
Proof.
  intros H. apply index_of_nth_error in H. apply nth_error_In in H. exact H.
Qed.

Lemma has_column_in (df : DataFrame) (col : string) (t : dtype) :
  has_column df col t = true -> In col (column_names df).
Proof.
  intros H. destruct (has_column_index _ _ _ H) as (i & Hi & _).
  apply (index_of_names_in df col Hi).
Qed.

Lemma columns_observed_check_ok (df : DataFrame) :
  columns_observed_check df = true -> columns_observed df.
Proof.
  unfold columns_observed_check, columns_observed. intros H col i Hi.
  rewrite forallb_forall in H. specialize (H col (index_of_names_in df col Hi)).
  unfold pos in H. rewrite Hi in H. apply andb_prop in H. destruct H as [Hn Hd].
  split; intros Hc.
  - rewrite Hc in Hn. simpl in Hn. apply existsb_exists in Hn.
    destruct Hn as (c & Hin & Hc'). destruct c; try discriminate. exists q. exact Hin.
  - rewrite Hc in Hd. simpl in Hd. apply existsb_exists in Hd.
    destruct Hd as (c & Hin & Hc'). destruct c; try discriminate.
    exists day, tod. exact Hin.
Qed.

Lemma columns_sortable_check_ok (df : DataFrame) :
  columns_sortable_check df = true -> columns_sortable df.
Proof.
  unfold columns_sortable_check, columns_sortable. intros H col i Hi Hn Hd.
  rewrite forallb_forall in H. specialize (H col (index_of_names_in df col Hi)).
  rewrite Hn, Hd in H. simpl in H. unfold pos in H. rewrite Hi in H.
  apply one_kind_check_ok, H.
Qed.

Lemma date_keys_check_ok (df : DataFrame) :
  date_keys_check df = true -> date_keys_ok df.
Proof.
  unfold date_keys_check, date_keys_ok. intros H col Hdt.
  rewrite forallb_forall in H. specialize (H col (has_column_in _ _ _ Hdt)).
  rewrite Hdt in H. simpl in H. apply negb_true_iff in H. exact H.
Qed.

Lemma text_columns_check_ok (df : DataFrame) :
  text_columns_check df = true -> text_columns_ok df.
Proof.
  unfold text_columns_check, text_columns_ok. intros H col i Hi Hn Hd.
  rewrite forallb_forall in H. specialize (H col (index_of_names_in df col Hi)).
  rewrite Hn, Hd in H. simpl in H. unfold pos in H. rewrite Hi in H. exact H.
Qed.

Lemma entries_ok_controls_ok (df : DataFrame) (time_col : string) (cs : controls)
    (selected : list string) :
  has_column df time_col Datetime = true -> entries_ok df cs = true ->
  forallb (is_column df) selected = true ->
  controls_ok df time_col cs selected = true.
Proof.
  unfold entries_ok, controls_ok. intros -> He ->.
  apply andb_prop in He. destruct He as [He ->].
  apply andb_prop in He. destruct He as [-> ->]. reflexivity.
Qed.



(** ** A form left at its defaults *)

Lemma for_items_idle {V : Type} (body : DataFrame -> string * V -> result DataFrame)
    (items : list (string * V)) (f : DataFrame) :
  (forall item f', In item items -> body f' item = Ok f') ->
  for_items body items f = Ok f.
Proof.
  induction items as [|item items IH]; intros H; simpl; [reflexivity|].
  rewrite (H item f (or_introl eq_refl)). simpl. apply IH.
  intros it f' Hin. apply H. right. exact Hin.
Qed.

Section Untouched.

Variable ui : form_input.
Variable df : DataFrame.
Variable time_col : string.

Hypothesis ui_untouched : untouched ui.
Hypothesis keys_ok : date_keys_ok df.
Hypothesis observed : columns_observed df.
Hypothesis sortable : columns_sortable df.

Lemma add_control_idle (col : string) (acc : controls) :
  In col (column_names df) -> entries_idle df acc ->
  exists acc', add_control ui df time_col acc col = Ok acc' /\ entries_idle df acc'.
Proof.
  intros Hin (In_ & Ic & Is). unfold add_control.
  destruct (String.eqb col time_col);
    [exists acc; split; [reflexivity|split; [exact In_|split; [exact Ic|exact Is]]]|].
  destruct (index_of_in _ _ Hin) as [i Hi].
  rewrite (getitem_index _ _ Hi). simpl.
  pose proof (has_column_dtype df col Numeric Hi) as Hnum.
  pose proof (has_column_dtype df col Datetime Hi) as Hdt.
  destruct ui_untouched as (Usl & Udi & Ums & Uti).
  destruct (observed col Hi) as [Onum Odt].
  unfold float_min, float_max, dt_date, is_numeric_dtype, is_datetime64_any_dtype. simpl.
  destruct (dtype_eqb (nth i (map snd (columns df)) Other) Numeric) eqn:En.
  - simpl. eexists. split; [reflexivity|]. split; [|split; [exact Ic|exact Is]].
    simpl. intros item f Hitem. apply in_dict_set in Hitem.
    destruct Hitem as [->|Hold]; [|apply In_, Hold].
    rewrite Usl. destruct (Onum Hnum) as [q Hq].
    destruct (reduce_floats_min _ _ Hq) as (m & Em & _).
    destruct (reduce_floats_max _ _ Hq) as (M & EM & _).
    apply numeric_step_full_range with
      (lo := reduce_floats Qmin_b (column_values df i))
      (hi := reduce_floats Qmax_b (column_values df i))
      (sr := mkSeries (nth i (map snd (columns df)) Other) (column_values df i)).
    + apply getitem_index, Hi.
    + unfold float_min, is_numeric_dtype. simpl. rewrite En. reflexivity.
    + unfold float_max, is_numeric_dtype. simpl. rewrite En. reflexivity.
    + rewrite Em, EM. unfold pair_ne. simpl.
      rewrite !Qeq_bool_refl. reflexivity.
  - destruct (dtype_eqb (nth i (map snd (columns df)) Other) Datetime) eqn:Ed.
    + simpl. eexists. split; [reflexivity|]. split; [exact In_|split; [|exact Is]].
      simpl. intros item f Hitem. apply in_dict_set in Hitem.
      destruct Hitem as [->|Hold]; [|apply Ic, Hold].
      destruct (Odt Hdt) as (d0 & t0 & Hts).
      assert (Hsome : In (Some d0) (map date_of (column_values df i)))
        by (apply (in_map date_of _ _ Hts)).
      destruct (reduce_dates_min _ _ Hsome) as (a & Ea & _).
      destruct (reduce_dates_max _ _ Hsome) as (b & Eb & _).
      rewrite Ea, Eb, Udi.
      change (String "_" (String "_" (String "d" (String "t" (String "_" (String "_" col))))))
        with ("__dt__" ++ col)%string.
      destruct (date_key_decodes col (keys_ok col Hdt)) as [Hsw Hrep].
      apply categorical_step_full_range with
        (sd := mkSeries (nth i (map snd (columns df)) Other) (column_values df i))
        (d := map date_of (column_values df i)).
      * exact Hsw.
      * rewrite Hrep. apply getitem_index, Hi.
      * unfold dt_date, is_datetime64_any_dtype. simpl. rewrite Ed. reflexivity.
      * exact Ea.
      * exact Eb.
    + rewrite (sorted_one_kind (sortable col Hi Hnum Hdt)). simpl.
      destruct (length (sort_cells (unique (dropna (column_values df i)))) <=? 100).
      * eexists. split; [reflexivity|]. split; [exact In_|split; [|exact Is]].
        simpl. intros item f Hitem. apply in_dict_set in Hitem.
        destruct Hitem as [->|Hold]; [|apply Ic, Hold].
        rewrite Ums. unfold categorical_step.
        destruct (Str.startswith "__dt__" col); reflexivity.
      * eexists. split; [reflexivity|]. split; [exact In_|split; [exact Ic|]].
        simpl. intros item f Hitem. apply in_dict_set in Hitem.
        destruct Hitem as [->|Hold]; [|apply Is, Hold].
        rewrite Uti. reflexivity.
Qed.

End Untouched.



(** ** The default window *)

Lemma reduce_dates_in (op : Z -> Z -> Z) (l : list (option date)) (m : date) :
  (forall x y, op x y = x \/ op x y = y) ->
  reduce_dates op l = Some m -> In (Some m) l.
Proof.
  intros Hop. revert m. induction l as [|[v|] l IH]; simpl; intros m H.
  - discriminate.
  - destruct (reduce_dates op l) as [m'|].
    + injection H as <-. destruct (Hop v m') as [->| ->].
      * left. reflexivity.
      * right. apply IH. reflexivity.
    + injection H as <-. left. reflexivity.
  - right. apply IH, H.
Qed.



(** On a time column without a date (no row, or NaT in every row) the
    form ends in the [TypeError] of line 44, before it shows a control,
    whatever the user enters. *)
Theorem form_raises_without_dates (ui : form_input) (df : DataFrame) :
  datetime_cols df <> [] ->
  (forall d t, ~ In (CTs d t) (column_values df (pos df (chosen_time_col ui df)))) ->
  exists msg, build_filters_form ui df = ([], Raise (TypeError msg)).
Proof.
  intros Hne Hno.
  destruct (chosen_time_col_datetime ui df Hne) as (Hdt & _ & _).
  destruct (has_column_index _ _ _ Hdt) as (i & Hi & Ht).
  unfold pos in Hno. rewrite Hi in Hno.
  destruct (@default_window_no_date (map date_of (column_values df i)))
    as (_ & _ & msg & Hw).
  { intros d Hin. apply in_map_iff in Hin. destruct Hin as (c & Hc & Hin).
    destruct c; try discriminate. injection Hc as ->. apply (Hno _ _ Hin). }
  exists msg.
  rewrite (build_filters_form_time_col ui df Hne), (getitem_index _ _ Hi). simpl.
  unfold dt_date, is_datetime64_any_dtype. simpl.
  unfold has_column in Hdt. rewrite (getitem_index _ _ Hi) in Hdt. simpl in Hdt.
  rewrite Hdt. simpl. unfold column_values in Hw.
  match goal with |- context [default_window ?l] =>
    change (default_window l)
      with (default_window (map date_of (map (cell_at i) (rows df)))) end.
  rewrite Hw. reflexivity.
Qed.

Lemma form_raises_without_dates_witness :
  exists msg, build_filters_form sales_form undated = ([], Raise (TypeError msg)).
Proof.
  apply (@form_raises_without_dates sales_form undated).
  - discriminate.
  - intros d t H. vm_compute in H. decompose [or] H; discriminate || contradiction.
Defined.

(** ** The coercion of the whole table *)

Lemma set_nth_length {A : Type} (i : nat) (x : A) (l : list A) :
  length (set_nth i x l) = length l.
Proof.
  revert i; induction l as [|y l IH]; intros [|i]; simpl; try reflexivity.
  f_equal. apply IH.
Qed.

Lemma nth_set_nth_other {A : Type} (i j : nat) (x d : A) (l : list A) :
  j <> i -> nth j (set_nth i x l) d = nth j l d.
Proof.
  revert i j; induction l as [|y l IH]; intros [|i] [|j] H; simpl; try reflexivity.
  - elim H. reflexivity.
  - apply IH. intros E. apply H. f_equal. exact E.
Qed.

Lemma set_cells_length (i : nat) (vals : list cell) (rs : list (list cell)) :
  length (set_cells i vals rs) = length rs.
Proof.
  revert vals; induction rs as [|r rs IH]; intros [|v vals]; simpl; try reflexivity.
  f_equal. apply IH.
Qed.

Lemma set_cells_widths (i : nat) (vals : list cell) (rs : list (list cell)) (n : nat) :
  Forall (fun r => length r = n) rs ->
  Forall (fun r => length r = n) (set_cells i vals rs).
Proof.
  revert vals; induction rs as [|r rs IH]; intros vals H; [destruct vals; exact H|].
  inversion H as [|? ? Hr Hrs]; subst. destruct vals as [|v vals]; [exact H|].
  simpl. constructor; [rewrite set_nth_length; reflexivity|apply IH, Hrs].
Qed.

Lemma set_cells_other (i j : nat) (vals : list cell) (rs : list (list cell)) :
  j <> i -> map (cell_at j) (set_cells i vals rs) = map (cell_at j) rs.
Proof.
  intros Hne. revert vals; induction rs as [|r rs IH]; intros [|v vals]; simpl;
    try reflexivity.
  f_equal; [apply nth_set_nth_other, Hne|apply IH].
Qed.

Section CoerceColumns.

Variable parse_datetime : list cell -> cell -> option (date * Z).
Variable df : DataFrame.
Hypothesis df_well_formed : well_formed df.

Lemma coerce_column_invariant (cur : DataFrame) (col : string) :
  coercion_invariant parse_datetime df cur -> coercion_invariant parse_datetime df (coerce_column parse_datetime cur col).
Proof.
  intros (Hnames & Hlen & Hwf & Hcols). unfold coerce_column, getitem.
  destruct (index_of col (column_names cur)) as [i|] eqn:Hi;
    [|split; [exact Hnames|split; [exact Hlen|split; [exact Hwf|exact Hcols]]]].
  simpl.
  destruct (dtype_eqb (nth i (map snd (columns cur)) Other) Object) eqn:Eo;
    [|split; [exact Hnames|split; [exact Hlen|split; [exact Hwf|exact Hcols]]]].
  destruct (success_ratio_gt_0_8 _);
    [|split; [exact Hnames|split; [exact Hlen|split; [exact Hwf|exact Hcols]]]].
  apply dtype_eqb_eq in Eo.
  pose proof (index_of_nth_error _ _ Hi) as Hn.
  assert (Hlt : i < length (columns cur)).
  { unfold column_names in Hn. rewrite <- (length_map fst).
    apply nth_error_Some. congruence. }
  set (parsed := to_datetime parse_datetime (map (cell_at i) (rows cur))).
  assert (Hparsed : parsed =
            map (fun r => match parse_datetime (map (cell_at i) (rows cur)) (cell_at i r) with
                          | Some (d, t) => CTs d t
                          | None => CNaT
                          end) (rows cur))
    by (unfold parsed, to_datetime; rewrite map_map; reflexivity).
  unfold setitem. rewrite Hi.
  split; [|split; [|split]].
  - rewrite <- Hnames. unfold column_names. simpl. rewrite map_set_nth. simpl.
    apply set_nth_same. exact Hn.
  - rewrite <- Hlen. unfold len. simpl. apply set_cells_length.
  - unfold well_formed in *. simpl. rewrite set_nth_length.
    apply set_cells_widths. exact Hwf.
  - intros j. destruct (Nat.eq_dec j i) as [->|Hne].
    + right. destruct (Hcols i) as [[Ht Hv]|(_ & Ht & _)]; [|congruence].
      split; [congruence|]. split.
      * simpl. rewrite map_set_nth. simpl. apply nth_set_nth.
        rewrite length_map. exact Hlt.
      * unfold column_values in *. simpl. rewrite <- Hv. fold parsed.
        rewrite Hparsed. apply set_cells_column.
        intros r Hr. unfold well_formed in Hwf. rewrite Forall_forall in Hwf.
        rewrite (Hwf r Hr). exact Hlt.
    + assert (Hsame : column_kept cur
                (mkDataFrame (set_nth i (col, Datetime) (columns cur))
                             (set_cells i parsed (rows cur))) j).
      { split.
        - simpl. rewrite map_set_nth. apply nth_set_nth_other, Hne.
        - unfold column_values. simpl. apply set_cells_other, Hne. }
      destruct Hsame as [Ht Hv].
      destruct (Hcols j) as [[Ht' Hv']|(Ho & Ht' & Hv')].
      * left. split; congruence.
      * right. split; [exact Ho|]. split; congruence.
Qed.

Lemma coerce_fold_invariant (cols : list string) (cur : DataFrame) :
  coercion_invariant parse_datetime df cur ->
  coercion_invariant parse_datetime df (fold_left (coerce_column parse_datetime) cols cur).
Proof.
  revert cur; induction cols as [|col cols IH]; intros cur H; simpl; [exact H|].
  apply IH, coerce_column_invariant, H.
Qed.

End CoerceColumns.

(** The coercion of lines 147-152 keeps the shape of the table: the
    labels of the columns, the number of rows and a cell for every column
    in every row.  A column either stays as it was, dtype and values, or
    it was an object column and is now a datetime column holding the
    parsed values of the original ones, timestamps and NaT.  So a column
    that was numeric or datetime, or of any dtype other than object, is
    never touched. *)
Theorem coerce_columns_shape (parse_datetime : list cell -> cell -> option (date * Z))
    (df : DataFrame) :
  well_formed df ->
  let df' := coerce_columns parse_datetime df in
  column_names df' = column_names df /\
  len df' = len df /\
  well_formed df' /\
  (forall j, column_kept df df' j \/
             (column_coerced parse_datetime df df' j /\
              forallb is_timestamp_or_nat (column_values df' j) = true)) /\
  (forall j, nth j (map snd (columns df)) Other <> Object -> column_kept df df' j).
Proof.
  intros Hwf df'.
  assert (Hinv : coercion_invariant parse_datetime df df').
  { unfold df', coerce_columns. apply coerce_fold_invariant.
    split; [reflexivity|split; [reflexivity|split; [exact Hwf|]]].
    intros j. left. split; reflexivity. }
  destruct Hinv as (Hnames & Hlen & Hwf' & Hcols).
  split; [exact Hnames|split; [exact Hlen|split; [exact Hwf'|split]]].
  - intros j. destruct (Hcols j) as [Hk|Hc]; [left; exact Hk|right].
    split; [exact Hc|]. destruct Hc as (_ & _ & ->).
    unfold to_datetime. apply forallb_forall. intros c Hc.
    apply in_map_iff in Hc. destruct Hc as (c0 & <- & _).
    destruct (parse_datetime _ c0) as [[d t]|]; reflexivity.
  - intros j Hne. destruct (Hcols j) as [Hk|(Ho & _)]; [exact Hk|contradiction].
Qed.

Lemma coerce_columns_shape_witness :
  column_kept sales (coerce_columns parse_iso sales) 1.
Proof.
  destruct (@coerce_columns_shape parse_iso sales) as (_ & _ & _ & _ & H).
  - repeat constructor.
  - apply H. discriminate.
Defined.

(** ** When the page offers a download *)

Lemma build_filters_form_applied (ui : form_input) (df : DataFrame)
    (log : list event) (fo : option DataFrame) :
  build_filters_form ui df = (log, Ok (fo, true)) ->
  exists f s e,
    fo = Some f /\ log = [] /\ submitted ui = true /\
    date_range ui = [s; e] /\ (e - s <= 30)%Z.
Proof.
  unfold build_filters_form.
  destruct (datetime_cols df) as [|first rest]; [discriminate|].
  match goal with |- context [match ?r with Ok _ => _ | Raise _ => _ end] =>
    destruct r as [cs|ex] end; [|discriminate].
  destruct (submitted ui); simpl; [|discriminate].
  unfold apply_filters.
  destruct (date_range ui) as [|s [|e [|x w]]]; try discriminate.
  destruct (30 <? e - s)%Z eqn:E; [discriminate|].
  destruct (filter_rows df _ s e cs (selected_columns ui)) as [f|ex]; [|discriminate].
  simpl. intros H. injection H as <- <-.
  exists f, s, e. apply Z.ltb_ge in E. repeat split; try reflexivity. exact E.
Qed.

Section Downloads.

Variable read_parquet read_csv read_json_lines read_json_records : string -> result DataFrame.
Variable parse_datetime : list cell -> cell -> option (date * Z).
Variable to_csv : DataFrame -> string.
Variable to_parquet : DataFrame -> result string.

Let load := load_file read_parquet read_csv read_json_lines read_json_records.
Let run := main read_parquet read_csv read_json_lines read_json_records
                parse_datetime to_csv to_parquet.

(** The page offers a download only after a file was loaded and the form
    was submitted with a start and an end date at most 30 days apart, and
    the filters returned a table: the download is then the CSV (or the
    archive) or the Parquet file of that table, and the run ends
    normally.  Without an upload, after a failed load, before the form is
    submitted and after any rejected window no download is offered. *)
Theorem download_only_of_filtered_table (uploaded : option uploaded_file)
    (ui : form_input) (ev : event) :
  In ev (fst (run uploaded ui)) -> is_download ev = true ->
  exists up df filtered s e,
    uploaded = Some up /\ load up = Ok df /\
    submitted ui = true /\ date_range ui = [s; e] /\ (e - s <= 30)%Z /\
    build_filters_form ui (coerce_columns parse_datetime df) =
      ([], Ok (Some filtered, true)) /\
    (ev = export_csv to_csv filtered \/ ev = export_parquet to_parquet filtered) /\
    snd (run uploaded ui) = Ok tt.
Proof.
  subst run load. unfold main. intros Hin Hdl.
  destruct uploaded as [up|]; simpl in Hin.
  2:{ destruct Hin as [<-|[]]. discriminate. }
  destruct (load_file _ _ _ _ up) as [df|ex] eqn:Hload; simpl in Hin.
  2:{ destruct Hin as [<-|[]]. discriminate. }
  pose proof (@build_filters_form_log ui (coerce_columns parse_datetime df)) as Hlog.
  destruct (build_filters_form ui (coerce_columns parse_datetime df))
    as [log [[fo applied]|ex]] eqn:Hform; simpl in Hin, Hlog.
  2:{ rewrite (Hlog ev Hin) in Hdl. discriminate. }
  destruct applied; simpl in Hin.
  2:{ apply in_app_or in Hin. destruct Hin as [Hin|[<-|[]]]; [|discriminate].
      rewrite (Hlog ev Hin) in Hdl. discriminate. }
  destruct (build_filters_form_applied _ _ Hform) as (f & s & e & -> & -> & Hs & Hr & Hle).
  simpl in Hin. exists up, df, f, s, e.
  repeat split; try assumption; try reflexivity.
  destruct Hin as [<-|[<-|[<-|[]]]]; [discriminate|left; reflexivity|right; reflexivity].
Qed.

End Downloads.

Lemma download_only_of_filtered_table_witness :
  exists filtered,
    build_filters_form sales_form (coerce_columns parse_iso sales) =
      ([], Ok (Some filtered, true)) /\
    DownloadButton "Download CSV" (Bytes "csv") "filtered.csv" "text/csv" =
      export_csv csv_stub filtered.
Proof.
  destruct (@download_only_of_filtered_table read_sales read_sales read_sales read_sales
              parse_iso csv_stub no_pyarrow (Some sales_upload) sales_form
              (DownloadButton "Download CSV" (Bytes "csv") "filtered.csv" "text/csv"))
    as (up & df & filtered & s & e & Hup & Hload & _ & _ & _ & Hform & Hev & _).
  - vm_compute. tauto.
  - reflexivity.
  - injection Hup as <-. vm_compute in Hload. injection Hload as <-.
    exists filtered. split; [exact Hform|].
    destruct Hev as [Hev|Hev]; [exact Hev|].
    exfalso. revert Hev. unfold export_parquet, no_pyarrow. discriminate.
Defined.

(** ** The filters only select rows *)

Lemma select_all {A : Type} (l : list A) : select (map (fun _ => true) l) l = l.
Proof. induction l as [|x l IH]; simpl; [reflexivity|]. f_equal. exact IH. Qed.

Lemma select_select {A : Type} (l : list A) (m1 m2 : list bool) :
  exists m, select m2 (select m1 l) = select m l.
Proof.
  revert m1 m2; induction l as [|x l IH]; intros m1 m2.
  - exists []. rewrite select_nil. apply select_nil.
  - destruct m1 as [|b m1]; [exists []; simpl; apply select_nil|].
    destruct b; simpl.
    + destruct m2 as [|b2 m2]; [exists []; reflexivity|].
      destruct (IH m1 m2) as [m Hm]. destruct b2.
      * exists (true :: m). simpl. f_equal. exact Hm.
      * exists (false :: m). exact Hm.
    + destruct (IH m1 m2) as [m Hm]. exists (false :: m). exact Hm.
Qed.

Lemma select_length {A : Type} (m : list bool) (l : list A) :
  length (select m l) <= length l.
Proof.
  revert m; induction l as [|x l IH]; intros [|b m]; simpl; try lia.
  specialize (IH m). destruct b; simpl; lia.
Qed.

Lemma select_in {A : Type} (m : list bool) (l : list A) (x : A) :
  In x (select m l) -> In x l.
Proof.
  revert m; induction l as [|y l IH]; intros [|b m]; simpl; try contradiction.
  destruct b; simpl; [intros [->|H]|intros H]; eauto.
Qed.

Lemma selects_refl (f : DataFrame) : selects f f.
Proof.
  split; [reflexivity|]. exists (map (fun _ => true) (rows f)).
  symmetry. apply select_all.
Qed.

Lemma selects_trans (f g h : DataFrame) : selects f g -> selects g h -> selects f h.
Proof.
  intros [Hc1 [m1 H1]] [Hc2 [m2 H2]]. split; [congruence|].
  rewrite H2, H1. apply select_select.
Qed.

Lemma selects_mask (f : DataFrame) (m : list bool) : selects f (getitem_mask f m).
Proof. split; [reflexivity|]. exists m. reflexivity. Qed.

Ltac step_selects :=
  repeat match goal with
    | H : rbind ?r _ = Ok _ |- _ => destruct r; simpl in H; [|discriminate]
    | H : Ok _ = Ok _ |- _ => injection H as <-
    | H : Raise _ = Ok _ |- _ => discriminate H
    | H : (if ?b then _ else _) = Ok _ |- _ => destruct b
    | |- selects ?f ?f => apply selects_refl
    | |- selects _ (getitem_mask _ _) => apply selects_mask
    end.

Lemma numeric_step_selects (df f : DataFrame) item f' :
  numeric_step df f item = Ok f' -> selects f f'.
Proof.
  destruct item as [col [low high]]. unfold numeric_step. intros H. step_selects.
Qed.

Lemma categorical_step_selects (df f : DataFrame) item f' :
  categorical_step df f item = Ok f' -> selects f f'.
Proof.
  destruct item as [key rng]. unfold categorical_step. intros H.
  destruct (Str.startswith "__dt__" key).
  - destruct rng as [[|s [|e [|x t]]]|l]; step_selects.
  - destruct rng as [[|x t]|[|x l]]; step_selects.
Qed.

Lemma substring_step_selects (f : DataFrame) item f' :
  substring_step f item = Ok f' -> selects f f'.
Proof.
  destruct item as [col text]. unfold substring_step. intros H.
  destruct text; step_selects.
Qed.

Lemma for_items_selects {V : Type} (body : DataFrame -> string * V -> result DataFrame)
    (items : list (string * V)) :
  (forall f item f', body f item = Ok f' -> selects f f') ->
  forall f f', for_items body items f = Ok f' -> selects f f'.
Proof.
  intros Hbody. induction items as [|item items IH]; simpl; intros f f' H.
  - injection H as <-. apply selects_refl.
  - destruct (body f item) as [f1|ex] eqn:E; [|discriminate]. simpl in H.
    apply selects_trans with f1; [apply (Hbody f item), E|apply IH, H].
Qed.

Lemma positions_columns (df : DataFrame) (cols : list string) (ps : list nat) :
  positions (column_names df) cols = Ok ps -> forallb (is_column df) cols = true.
Proof.
  revert ps; induction cols as [|c cols IH]; simpl; intros ps H; [reflexivity|].
  unfold is_column at 1.
  destruct (index_of c (column_names df)); [|discriminate].
  destruct (positions (column_names df) cols) as [l|]; [|discriminate].
  simpl. apply (IH l). reflexivity.
Qed.

(** Whatever the controls are, a table that [filter_rows] returns is made
    of rows of the table it was given, in their order and cut to the
    selected columns, each with a date of the time column inside the
    window: the filters add no row, change no cell, reorder nothing, and
    let no row through whose timestamp is missing or outside the window.
    The columns of the result are the selected ones, in the order of the
    selection. *)
Theorem filter_rows_selects_window_rows (df : DataFrame) (time_col : string)
    (s e : date) (cs : controls) (selected : list string) (filtered : DataFrame) :
  filter_rows df time_col s e cs selected = Ok filtered ->
  exists mask i,
    index_of time_col (column_names df) = Some i /\
    filtered = projected df selected (select mask (rows df)) /\
    (forall r, In r (select mask (rows df)) ->
       exists d, date_of (cell_at i r) = Some d /\ (s <= d <= e)%Z) /\
    column_names filtered = selected /\
    len filtered <= len df.
Proof.
  unfold filter_rows. intros H.
  destruct (getitem df time_col) as [ts|] eqn:Hts; [|discriminate]. simpl in H.
  destruct (dt_date ts) as [d|] eqn:Hd; [|discriminate]. simpl in H.
  unfold getitem in Hts.
  destruct (index_of time_col (column_names df)) as [i|] eqn:Hi; [|discriminate].
  injection Hts as <-. unfold dt_date in Hd. simpl in Hd.
  destruct (is_datetime64_any_dtype _); [|discriminate]. injection Hd as <-.
  destruct (for_items (numeric_step df) _ _) as [f1|] eqn:E1; [|discriminate].
  simpl in H.
  destruct (for_items (categorical_step df) _ _) as [f2|] eqn:E2; [|discriminate].
  simpl in H.
  destruct (for_items substring_step _ _) as [f3|] eqn:E3; [|discriminate].
  simpl in H.
  apply (for_items_selects _ _ (numeric_step_selects df)) in E1.
  apply (for_items_selects _ _ (categorical_step_selects df)) in E2.
  apply (for_items_selects _ _ substring_step_selects) in E3.
  pose proof (selects_trans (selects_trans E1 E2) E3) as [Hc [m Hm]].
  unfold getitem_mask in Hc, Hm. simpl in Hc, Hm.
  rewrite window_mask_rows in Hm.
  rewrite <- (select_map_filter (in_window i s e)) in Hm.
  destruct (select_select (rows df) (map (in_window i s e) (rows df)) m) as [mask Hmask].
  assert (Hwin : forall r, In r (rows f3) -> in_window i s e r = true).
  { intros r Hr. rewrite Hm in Hr. apply select_in in Hr.
    rewrite select_map_filter in Hr. apply filter_In in Hr. apply Hr. }
  rewrite Hmask in Hm.
  assert (Hf3 : f3 = narrowed df (select mask (rows df))).
  { destruct f3 as [c3 r3]. simpl in Hc, Hm. subst. reflexivity. }
  rewrite Hf3 in H, Hwin. simpl in Hwin.
  assert (Hsel : forallb (is_column df) selected = true).
  { unfold getitem_cols in H. unfold narrowed, column_names in H. simpl in H.
    fold (column_names df) in H.
    destruct (positions (column_names df) selected) as [ps|] eqn:Ep; [|discriminate].
    apply (positions_columns df selected Ep). }
  rewrite (getitem_cols_ok _ _ _ Hsel) in H. injection H as <-.
  exists mask, i. split; [reflexivity|]. split; [reflexivity|]. split; [|split].
  - intros r Hr. specialize (Hwin r Hr). unfold in_window, date_ge, date_le in Hwin.
    destruct (date_of (cell_at i r)) as [v|]; [|discriminate].
    apply andb_prop in Hwin. destruct Hwin as [H1 H2].
    apply Z.leb_le in H1, H2. exists v. split; [reflexivity|lia].
  - apply projected_names, Hsel.
  - unfold len, projected. simpl. rewrite length_map. apply select_length.
Qed.

Lemma filter_rows_selects_window_rows_witness :
  column_names sales_once = sales_columns /\ len sales_once <= len sales.
Proof.
  destruct (@filter_rows_selects_window_rows sales "time" 10%Z 11%Z sales_controls
              sales_columns sales_once) as (mask & i & _ & _ & _ & Hn & Hl).
  - vm_compute. reflexivity.
  - split; [exact Hn|exact Hl].
Defined.

(** ** The order of the controls *)

Lemma forallb_permutation {A : Type} (p : A -> bool) (l l' : list A) :
  Permutation l l' -> forallb p l = forallb p l'.
Proof.
  induction 1 as [|x l l' _ IH|x y l|l l' l'' _ IH1 _ IH2]; simpl.
  - reflexivity.
  - rewrite IH. reflexivity.
  - destruct (p x), (p y); reflexivity.
  - congruence.
Qed.

(** When the controls name columns of the table, the order of the entries
    inside each dictionary does not matter: the filters return the same
    table for every rearrangement of the numeric ranges, of the entries of
    [categorical_selections] and of the substrings. *)
Theorem filters_order_irrelevant (df : DataFrame) (time_col : string)
    (window : list date) (cs : controls) (selected : list string)
    (ranges : list (string * (float * float)))
    (selections : list (string * selection)) (texts : list (string * string)) :
  controls_ok df time_col cs selected = true ->
  Permutation (numeric_ranges cs) ranges ->
  Permutation (categorical_selections cs) selections ->
  Permutation (substrings cs) texts ->
  apply_filters df time_col window cs selected =
  apply_filters df time_col window (mkControls ranges texts selections) selected.
Proof.
  intros Hok Pn Pc Ps.
  assert (Hok' : controls_ok df time_col (mkControls ranges texts selections) selected
                 = true).
  { unfold controls_ok in *. simpl.
    rewrite <- (forallb_permutation (numeric_ok df) Pn).
    rewrite <- (forallb_permutation (categorical_ok df) Pc).
    rewrite <- (forallb_permutation (substring_ok df) Ps). exact Hok. }
  unfold apply_filters.
  destruct window as [|s [|e [|x w]]]; try reflexivity.
  destruct (30 <? e - s)%Z; [reflexivity|].
  rewrite (filter_rows_keep _ _ s e _ _ Hok), (filter_rows_keep _ _ s e _ _ Hok').
  simpl. do 4 f_equal. unfold projected. f_equal. f_equal.
  apply filter_ext. intros r. unfold keep. simpl.
  rewrite (forallb_permutation (fun item => numeric_keep df item r) Pn).
  rewrite (forallb_permutation (fun item => categorical_keep df item r) Pc).
  rewrite (forallb_permutation (fun item => substring_keep df item r) Ps).
  reflexivity.
Qed.

Lemma filters_order_irrelevant_witness :
  apply_filters sales "time" [10; 11]%Z
    (mkControls [("amount", (F 1, F 5)); ("amount", (F 0, F 3))] []
                [("region", Values [CStr "a"])]) sales_columns =
  apply_filters sales "time" [10; 11]%Z
    (mkControls [("amount", (F 0, F 3)); ("amount", (F 1, F 5))] []
                [("region", Values [CStr "a"])]) sales_columns.
Proof.
  apply (@filters_order_irrelevant sales "time" [10; 11]%Z
           (mkControls [("amount", (F 1, F 5)); ("amount", (F 0, F 3))] []
                       [("region", Values [CStr "a"])]) sales_columns).
  - vm_compute. reflexivity.
  - apply perm_swap.
  - apply Permutation_refl.
  - apply Permutation_refl.
Defined.

(** ** Ranges *)

(** A numeric range that is not the full range of its column keeps the
    rows whose value in the column is a number between the two bounds,
    both bounds included; a row without a number in the column is
    dropped. *)
Theorem numeric_range_keeps_between (df : DataFrame) (col : string) (l h : Q)
    (i : nat) (rs : list (list cell)) :
  index_of col (column_names df) = Some i ->
  has_column df col Numeric = true ->
  numeric_narrows df i (F l) (F h) = true ->
  numeric_step df (narrowed df rs) (col, (F l, F h)) =
    Ok (narrowed df (filter (fun r => between_cell (F l) (F h) (cell_at i r)) rs)) /\
  (forall r, between_cell (F l) (F h) (cell_at i r) = true <->
             exists q, cell_at i r = CNum q /\ (l <= q)%Q /\ (q <= h)%Q).
Proof.
  intros Hi Hnum Hnar. split.
  - rewrite numeric_step_filter by exact Hnum.
    unfold numeric_keep. rewrite Hi, Hnar. reflexivity.
  - intros r. unfold between_cell. split.
    + intros H. destruct (cell_at i r) as [q| | | | |]; try discriminate.
      simpl in H. apply andb_prop in H. destruct H as [H1 H2].
      apply Qle_bool_iff in H1, H2. exists q. repeat split; assumption.
    + intros (q & -> & H1 & H2). simpl.
      apply andb_true_intro. split; apply Qle_bool_iff; assumption.
Qed.

Lemma numeric_range_keeps_between_witness :
  numeric_step sales (narrowed sales (rows sales)) ("amount", (F 0, F 3)) =
  Ok (narrowed sales [[CTs 10 0; CNum 1; CStr "a"]]).
Proof.
  pose proof (@numeric_range_keeps_between sales "amount" 0%Q 3%Q 1 (rows sales)
                eq_refl eq_refl eq_refl) as [H _].
  rewrite H. reflexivity.
Defined.



(** ** What the loop of the coercion decides *)

Section CoercionDecides.

Variable parse_datetime : list cell -> cell -> option (date * Z).
Variable df : DataFrame.
Variable col : string.
Variable i : nat.
Hypothesis col_index : index_of col (column_names df) = Some i.

(** A step on another label leaves the column at [i] alone. *)
Lemma coerce_column_elsewhere (cur : DataFrame) (col' : string) :
  column_names cur = column_names df ->
  index_of col' (column_names df) <> Some i ->
  column_kept cur (coerce_column parse_datetime cur col') i.
Proof.
  intros Hnames Hne. unfold coerce_column, getitem. rewrite Hnames.
  destruct (index_of col' (column_names df)) as [i'|] eqn:Hi'; [|split; reflexivity].
  simpl. destruct (dtype_eqb _ Object); [|split; reflexivity].
  destruct (success_ratio_gt_0_8 _); [|split; reflexivity].
  unfold setitem. rewrite Hnames, Hi'.
  assert (Hii : i <> i') by (intros ->; apply Hne; reflexivity).
  split.
  - simpl. rewrite map_set_nth. apply nth_set_nth_other, Hii.
  - unfold column_values. simpl. apply set_cells_other, Hii.
Qed.

(** The step on the label of the column, while the column is as loaded,
    decides it. *)
Lemma coerce_column_decides (cur : DataFrame) :
  coercion_invariant parse_datetime df cur -> column_kept df cur i ->
  column_decided parse_datetime df (coerce_column parse_datetime cur col) i.
Proof.
  intros (Hnames & _ & Hwf & _) [Ht Hv]. unfold column_decided, coerces.
  unfold coerce_column, getitem. rewrite Hnames, col_index. simpl.
  fold (column_values cur i). rewrite Ht, Hv.
  destruct (dtype_eqb (nth i (map snd (columns df)) Other) Object) eqn:Eo;
    [|split; assumption].
  simpl. destruct (success_ratio_gt_0_8 _) eqn:Er; [|split; assumption].
  apply dtype_eqb_eq in Eo.
  pose proof (index_of_nth_error _ _ col_index) as Hn. rewrite <- Hnames in Hn.
  assert (Hlt : i < length (columns cur)).
  { unfold column_names in Hn. rewrite <- (length_map fst).
    apply nth_error_Some. congruence. }
  unfold setitem. rewrite Hnames, col_index.
  split; [exact Eo|split].
  - simpl. rewrite map_set_nth. simpl. apply nth_set_nth.
    rewrite length_map. exact Hlt.
  - unfold column_values at 1. simpl. rewrite <- Hv.
    unfold to_datetime, column_values. rewrite map_map.
    apply (@set_cells_column i
             (fun r => match parse_datetime (map (cell_at i) (rows cur)) (cell_at i r) with
                       | Some (d, t) => CTs d t
                       | None => CNaT
                       end)).
    intros r Hr. unfold well_formed in Hwf. rewrite Forall_forall in Hwf.
    rewrite (Hwf r Hr). exact Hlt.
Qed.

(** Once decided, the column stays as decided. *)
Lemma coerce_column_stable (cur : DataFrame) (col' : string) :
  coercion_invariant parse_datetime df cur ->
  column_decided parse_datetime df cur i ->
  column_decided parse_datetime df (coerce_column parse_datetime cur col') i.
Proof.
  intros Hinv Hdec.
  assert (Hcases : index_of col' (column_names df) = Some i \/
                   index_of col' (column_names df) <> Some i).
  { destruct (index_of col' (column_names df)) as [i'|]; [|right; discriminate].
    destruct (Nat.eq_dec i' i) as [->|Hne]; [left; reflexivity|right].
    intros E. apply Hne. injection E as ->. reflexivity. }
  destruct Hcases as [Hsame|Hother].
  - unfold column_decided in *. destruct (coerces parse_datetime df i) eqn:Ec.
    + destruct Hdec as (Ho & Ht & Hv). destruct Hinv as (Hnames & _).
      unfold coerce_column, getitem. rewrite Hnames, Hsame. simpl. rewrite Ht. simpl.
      split; [exact Ho|split; assumption].
    + destruct Hdec as [Ht Hv]. destruct Hinv as (Hnames & _).
      unfold coerce_column, getitem. rewrite Hnames, Hsame. simpl.
      fold (column_values cur i). rewrite Ht, Hv.
      unfold coerces in Ec.
      destruct (dtype_eqb (nth i (map snd (columns df)) Other) Object);
        [|split; assumption].
      simpl in Ec. rewrite Ec. split; assumption.
  - destruct Hinv as (Hnames & _).
    destruct (coerce_column_elsewhere cur col' Hnames Hother) as [Ht Hv].
    unfold column_decided in *. destruct (coerces parse_datetime df i).
    + destruct Hdec as (Ho & Ht' & Hv'). split; [exact Ho|split; congruence].
    + destruct Hdec as [Ht' Hv']. split; congruence.
Qed.

End CoercionDecides.

Section CoercionLoop.

Variable parse_datetime : list cell -> cell -> option (date * Z).
Variable df : DataFrame.
Variable col : string.
Variable i : nat.
Hypothesis col_index : index_of col (column_names df) = Some i.

Lemma coerce_fold_stable (cols : list string) (cur : DataFrame) :
  coercion_invariant parse_datetime df cur ->
  column_decided parse_datetime df cur i ->
  column_decided parse_datetime df (fold_left (coerce_column parse_datetime) cols cur) i.
Proof.
  revert cur; induction cols as [|col' cols IH]; intros cur Hinv Hdec; simpl;
    [exact Hdec|].
  apply IH.
  - apply (@coerce_column_invariant parse_datetime df cur _ Hinv).
  - eapply coerce_column_stable; eassumption.
Qed.

Lemma coerce_fold_decides (cols : list string) (cur : DataFrame) :
  coercion_invariant parse_datetime df cur -> column_kept df cur i ->
  In col cols ->
  column_decided parse_datetime df (fold_left (coerce_column parse_datetime) cols cur) i.
Proof.
  revert cur; induction cols as [|col' cols IH]; intros cur Hinv Hkept Hin; simpl;
    [contradiction|].
  destruct (String.eqb col' col) eqn:E.
  - apply String.eqb_eq in E. subst col'. apply coerce_fold_stable.
    + apply (@coerce_column_invariant parse_datetime df cur _ Hinv).
    + apply coerce_column_decides; assumption.
  - apply IH.
    + apply (@coerce_column_invariant parse_datetime df cur _ Hinv).
    + assert (Hother : index_of col' (column_names df) <> Some i).
      { intros Hi'. apply index_of_nth_error in Hi'.
        pose proof (index_of_nth_error _ _ col_index) as Hi.
        rewrite Hi in Hi'. injection Hi' as <-.
        rewrite String.eqb_refl in E. discriminate. }
      destruct Hinv as (Hnames & _).
      assert (Hk : column_kept cur (coerce_column parse_datetime cur col') i)
        by (eapply coerce_column_elsewhere; eassumption).
      destruct Hk as [Ht Hv].
      destruct Hkept as [Ht' Hv']. split; congruence.
    + destruct Hin as [->|Hin]; [rewrite String.eqb_refl in E; discriminate|exact Hin].
Qed.

End CoercionLoop.

(** Over the whole table the loop of lines 147-152 decides every column
    by the table as loaded: the column a label names becomes a datetime
    column of the parsed values exactly when it was an object column more
    than 0.8 of whose rows parse, and then counts among the datetime
    columns the form offers as time column; otherwise it is left as
    loaded.  The columns coerced before it do not change the decision. *)
Theorem coerce_columns_decides (parse_datetime : list cell -> cell -> option (date * Z))
    (df : DataFrame) (col : string) (i : nat) :
  well_formed df ->
  index_of col (column_names df) = Some i ->
  let df' := coerce_columns parse_datetime df in
  (coerces parse_datetime df i = true ->
     column_coerced parse_datetime df df' i /\ In col (datetime_cols df')) /\
  (coerces parse_datetime df i = false -> column_kept df df' i).
Proof.
  intros Hwf Hi df'.
  assert (Hinv0 : coercion_invariant parse_datetime df df).
  { split; [reflexivity|split; [reflexivity|split; [exact Hwf|]]].
    intros j. left. split; reflexivity. }
  assert (Hdec : column_decided parse_datetime df df' i).
  { unfold df', coerce_columns.
    eapply coerce_fold_decides.
    - exact Hi.
    - exact Hinv0.
    - split; reflexivity.
    - apply (index_of_names_in df col Hi). }
  assert (Hnames : column_names df' = column_names df).
  { assert (Hinv : coercion_invariant parse_datetime df df')
      by (unfold df', coerce_columns; apply coerce_fold_invariant; exact Hinv0).
    apply Hinv. }
  unfold column_decided in Hdec. split; intros Hc; rewrite Hc in Hdec; [|exact Hdec].
  split; [exact Hdec|].
  unfold datetime_cols. apply filter_In. rewrite Hnames.
  split; [apply (index_of_names_in df col Hi)|].
  unfold getitem. rewrite Hnames, Hi. simpl.
  destruct Hdec as (_ & -> & _). reflexivity.
Qed.

Lemma coerce_columns_decides_witness :
  In "placed" (datetime_cols (coerce_columns parse_iso orders)).
Proof.
  destruct (@coerce_columns_decides parse_iso orders "placed" 0) as [H _].
  - repeat constructor.
  - reflexivity.
  - apply H. vm_compute. reflexivity.
Defined.

(** ** A failed load *)

Section FailedLoad.

Variable read_parquet read_csv read_json_lines read_json_records : string -> result DataFrame.
Variable parse_datetime : list cell -> cell -> option (date * Z).
Variable to_csv : DataFrame -> string.
Variable to_parquet : DataFrame -> result string.

Let load := load_file read_parquet read_csv read_json_lines read_json_records.
Let run := main read_parquet read_csv read_json_lines read_json_records
                parse_datetime to_csv to_parquet.

(** An exception of the loader never leaves [main]: the page shows one
    error, [Failed to load file:] with the text of the exception, and the
    run ends normally before any column is coerced or any control built,
    whatever the form holds.  For a name with none of the known
    extensions the text is that of the unsupported file type, whatever the
    readers would do with the bytes. *)
Theorem load_failure_reported (up : uploaded_file) (ui : form_input) :
  (forall ex, load up = Raise ex ->
     run (Some up) ui =
       ([StError ("Failed to load file: " ++ exn_str ex)%string], Ok tt)) /\
  (recognized (Str.lower (name up)) = false ->
     run (Some up) ui =
       ([StError ("Failed to load file: " ++ msg_unsupported)%string], Ok tt)).
Proof.
  subst load run. split.
  - intros ex Hex. unfold main. rewrite Hex. reflexivity.
  - intros Hr. unfold main, load_file. unfold recognized in Hr.
    destruct (Str.endswith ".parquet" _); [discriminate|].
    destruct (Str.endswith ".csv" _); [discriminate|].
    destruct (Str.endswith ".jsonl" _); [discriminate|].
    destruct (Str.endswith ".jsonl.gz" _); [discriminate|].
    simpl in Hr. rewrite Hr. reflexivity.
Qed.

End FailedLoad.

Lemma load_failure_reported_witness :
  main read_sales read_sales read_sales read_sales parse_iso csv_stub no_pyarrow
       (Some (mkUpload "sales.xlsx" "bytes")) sales_form =
  ([StError "Failed to load file: Unsupported file type. Please upload Parquet, CSV, JSON, or JSONL"],
   Ok tt).
Proof.
  destruct (@load_failure_reported read_sales read_sales read_sales read_sales parse_iso
              csv_stub no_pyarrow (mkUpload "sales.xlsx" "bytes") sales_form) as [_ H].
  apply H. reflexivity.
Defined.

(** ** What the form collects *)

Lemma dict_get_set_same {V : Type} (k : string) (v : V) (d : list (string * V)) :
  dict_get k (dict_set k v d) = Some v.
Proof.
  induction d as [|[k' v'] d IH]; simpl.
  - rewrite String.eqb_refl. reflexivity.
  - destruct (String.eqb k k') eqn:E; simpl.
    + rewrite String.eqb_refl. reflexivity.
    + rewrite E. exact IH.
Qed.

Lemma dict_get_set_other {V : Type} (k k' : string) (v : V) (d : list (string * V)) :
  k <> k' -> dict_get k (dict_set k' v d) = dict_get k d.
Proof.
  intros Hne. assert (E : String.eqb k k' = false) by (apply String.eqb_neq, Hne).
  induction d as [|[k0 v0] d IH]; simpl.
  - rewrite E. reflexivity.
  - destruct (String.eqb k' k0) eqn:E0; simpl.
    + apply String.eqb_eq in E0. subst k0. rewrite E. reflexivity.
    + destruct (String.eqb k k0); [reflexivity|exact IH].
Qed.

(** A step of the loop of lines 50-64 on a column of the table. *)
Lemma add_control_step (ui : form_input) (df : DataFrame) (time_col col : string)
    (acc : controls) :
  columns_sortable df -> In col (column_names df) ->
  add_control ui df time_col acc col = Ok (form_step ui df time_col acc col).
Proof.
  intros Hsort Hin. unfold add_control, form_step.
  destruct (String.eqb col time_col); [reflexivity|].
  destruct (index_of_in _ _ Hin) as [i Hi].
  pose proof (has_column_dtype df col Numeric Hi) as Hnum.
  pose proof (has_column_dtype df col Datetime Hi) as Hdt.
  unfold write_control, widget_of, slider_value, date_input_value, multiselect_value, pos.
  rewrite (getitem_index _ _ Hi), Hi. simpl.
  unfold float_min, float_max, dt_date, is_numeric_dtype, is_datetime64_any_dtype. simpl.
  destruct (dtype_eqb (nth i (map snd (columns df)) Other) Numeric); [reflexivity|].
  destruct (dtype_eqb (nth i (map snd (columns df)) Other) Datetime); [reflexivity|].
  fold (column_values df i).
  rewrite (sorted_one_kind (Hsort col i Hi Hnum Hdt)). simpl.
  rewrite sort_cells_length.
  destruct (length _ <=? 100); reflexivity.
Qed.

Lemma collect_controls_fold (ui : form_input) (df : DataFrame) (time_col : string)
    (cols : list string) (acc : controls) :
  columns_sortable df -> incl cols (column_names df) ->
  collect_controls ui df time_col cols acc =
  Ok (fold_left (form_step ui df time_col) cols acc).
Proof.
  intros Hsort. revert acc; induction cols as [|col cols IH]; intros acc Hin; simpl;
    [reflexivity|].
  rewrite (@add_control_step ui df time_col col acc Hsort (Hin col (or_introl eq_refl))).
  simpl. apply IH. intros c Hc. apply Hin. right. exact Hc.
Qed.

(** *** Values of two kinds *)

Lemma comparable_sym (a b : cell) : comparable a b = comparable b a.
Proof. destruct a, b; reflexivity. Qed.

Lemma cell_eqb_comparable (x x' y : cell) :
  cell_eqb x' x = true -> comparable x' y = comparable x y.
Proof. destruct x, x', y; simpl; congruence. Qed.

(** [unique] keeps a value of the kind of each value of the list. *)
Lemma unique_covers (l : list cell) (x : cell) :
  In x l -> isna x = false ->
  exists x', In x' (unique l) /\ comparable x' x = true.
Proof.
  intros Hin Hx. induction l as [|c l IH]; [contradiction|]. simpl.
  destruct Hin as [->|Hin].
  - exists x. split; [left; reflexivity|apply comparable_refl, Hx].
  - destruct (IH Hin) as (x' & Hin' & Hc).
    destruct (cell_eqb c x') eqn:E.
    + exists c. split; [left; reflexivity|].
      rewrite (@cell_eqb_comparable x' c x E). exact Hc.
    + exists x'. split; [|exact Hc]. right. apply filter_In. split; [exact Hin'|].
      rewrite E. reflexivity.
Qed.

(** Sorting values of two kinds raises. *)
Lemma sorted_two_kinds (l : list cell) (a b : cell) :
  In a l -> In b l -> isna a = false -> isna b = false -> comparable a b = false ->
  exists msg, sorted (unique (dropna l)) = Raise (TypeError msg).
Proof.
  intros Ha Hb Hna Hnb Hab.
  destruct (@unique_covers (dropna l) a) as (a' & Ha' & Ca);
    [apply dropna_in; split; assumption|exact Hna|].
  destruct (@unique_covers (dropna l) b) as (b' & Hb' & Cb);
    [apply dropna_in; split; assumption|exact Hnb|].
  assert (Hnm : forall x, In x (unique (dropna l)) -> isna x = false).
  { intros x Hx. apply unique_in, dropna_in in Hx. apply Hx. }
  unfold sorted. destruct (unique (dropna l)) as [|c l']; [contradiction|].
  destruct (forallb (comparable c) l') eqn:E; [|eexists; reflexivity].
  exfalso. rewrite forallb_forall in E.
  assert (Hc : forall x, In x (c :: l') -> comparable c x = true).
  { intros x [<-|Hx]; [apply comparable_refl, Hnm; left; reflexivity|apply E, Hx]. }
  pose proof (comparable_trans _ _ _ (Hc a' Ha') (Hc b' Hb')) as Hab'.
  pose proof (comparable_trans _ _ _ Ca Hab') as Hab''.
  rewrite comparable_sym in Hab''.
  pose proof (comparable_trans _ _ _ Cb Hab'') as Hba.
  rewrite comparable_sym in Hba. congruence.
Qed.

Lemma sorted_outcome (l : list cell) :
  (exists l', sorted l = Ok l') \/ exists msg, sorted l = Raise (TypeError msg).
Proof.
  unfold sorted. destruct l as [|c l']; [left; eexists; reflexivity|].
  destruct (forallb (comparable c) l'); [left|right]; eexists; reflexivity.
Qed.

(** A step of the loop on a column of the table returns, or raises the
    [TypeError] of line 60. *)
Lemma add_control_outcome (ui : form_input) (df : DataFrame) (time_col col : string)
    (acc : controls) :
  In col (column_names df) ->
  (exists acc', add_control ui df time_col acc col = Ok acc') \/
  exists msg, add_control ui df time_col acc col = Raise (TypeError msg).
Proof.
  intros Hin. unfold add_control.
  destruct (String.eqb col time_col); [left; eexists; reflexivity|].
  destruct (index_of_in _ _ Hin) as [i Hi].
  rewrite (getitem_index _ _ Hi). simpl.
  unfold float_min, float_max, dt_date. simpl.
  destruct (is_numeric_dtype _); [left; eexists; reflexivity|].
  destruct (is_datetime64_any_dtype _); [left; eexists; reflexivity|].
  match goal with |- context [sorted ?l] =>
    destruct (sorted_outcome l) as [[l' ->]|[msg ->]] end; simpl.
  - left. destruct (length l' <=? 100); eexists; reflexivity.
  - right. exists msg. reflexivity.
Qed.

Lemma collect_controls_raises (ui : form_input) (df : DataFrame)
    (time_col bad : string) :
  (forall acc, exists msg, add_control ui df time_col acc bad = Raise (TypeError msg)) ->
  forall cols acc, incl cols (column_names df) -> In bad cols ->
  exists msg, collect_controls ui df time_col cols acc = Raise (TypeError msg).
Proof.
  intros Hbad. induction cols as [|col cols IH]; intros acc Hin Hb; [contradiction|].
  simpl.
  destruct (@add_control_outcome ui df time_col col acc (Hin col (or_introl eq_refl)))
    as [[acc' E]|[msg E]]; rewrite E; simpl.
  - destruct Hb as [->|Hb].
    + destruct (Hbad acc) as [msg E']. rewrite E' in E. discriminate.
    + apply IH; [|exact Hb]. intros c Hc. apply Hin. right. exact Hc.
  - exists msg. reflexivity.
Qed.

Lemma add_control_two_kinds (ui : form_input) (df : DataFrame) (time_col col : string)
    (i : nat) (a b : cell) (acc : controls) :
  index_of col (column_names df) = Some i -> col <> time_col ->
  has_column df col Numeric = false -> has_column df col Datetime = false ->
  In a (column_values df i) -> In b (column_values df i) ->
  isna a = false -> isna b = false -> comparable a b = false ->
  exists msg, add_control ui df time_col acc col = Raise (TypeError msg).
Proof.
  intros Hi Hne Hnum Hdt Ha Hb Hna Hnb Hab. unfold add_control.
  apply String.eqb_neq in Hne. rewrite Hne.
  rewrite (has_column_dtype df col Numeric Hi) in Hnum.
  rewrite (has_column_dtype df col Datetime Hi) in Hdt.
  rewrite (getitem_index _ _ Hi). simpl.
  unfold is_numeric_dtype, is_datetime64_any_dtype. simpl. rewrite Hnum, Hdt.
  fold (column_values df i).
  destruct (sorted_two_kinds _ _ _ Ha Hb Hna Hnb Hab) as [msg ->].
  exists msg. reflexivity.
Qed.

(** A property that every step keeps holds at the end; one that the step
    of a column sets, and every step keeps, holds once the loop has come
    to that column. *)
Lemma form_fold_keeps (ui : form_input) (df : DataFrame) (time_col : string)
    (P : controls -> Prop) :
  (forall acc col', P acc -> P (form_step ui df time_col acc col')) ->
  forall cols acc, P acc -> P (fold_left (form_step ui df time_col) cols acc).
Proof.
  intros Hkeep. induction cols as [|col' cols IH]; intros acc H; simpl; [exact H|].
  apply IH, Hkeep, H.
Qed.

Lemma form_fold_sets (ui : form_input) (df : DataFrame) (time_col col : string)
    (P : controls -> Prop) :
  (forall acc col', P acc -> P (form_step ui df time_col acc col')) ->
  (forall acc, P (form_step ui df time_col acc col)) ->
  forall cols acc, In col cols -> P (fold_left (form_step ui df time_col) cols acc).
Proof.
  intros Hkeep Hset. induction cols as [|col' cols IH]; intros acc Hin; simpl;
    [contradiction|].
  destruct (String.eqb col' col) eqn:E.
  - apply String.eqb_eq in E. subst col'. apply form_fold_keeps; [exact Hkeep|apply Hset].
  - apply IH. destruct Hin as [->|Hin]; [rewrite String.eqb_refl in E; discriminate|exact Hin].
Qed.

Lemma append_inj (p a b : string) : (p ++ a)%string = (p ++ b)%string -> a = b.
Proof.
  induction p as [|c p IH]; simpl; intros H; [exact H|].
  injection H as H. apply IH, H.
Qed.

Lemma widget_of_column (df : DataFrame) (col : string) :
  In col (column_names df) -> widget_of df col <> None.
Proof.
  intros Hin. destruct (index_of_in _ _ Hin) as [i Hi].
  unfold widget_of. rewrite (getitem_index _ _ Hi). discriminate.
Qed.

Section Collected.

Variable ui : form_input.
Variable df : DataFrame.
Variable time_col : string.

Let step := form_step ui df time_col.

Ltac open_step col' :=
  unfold step, form_step, write_control;
  destruct (String.eqb col' time_col) eqn:?; [assumption|];
  destruct (widget_of df col') as [[]|] eqn:?; simpl; try assumption.

Lemma step_keeps_slider (col : string) (acc : controls) (col' : string) :
  dict_get col (numeric_ranges acc) = Some (slider_value ui df col) ->
  dict_get col (numeric_ranges (step acc col')) = Some (slider_value ui df col).
Proof.
  intros H. open_step col'.
  destruct (string_dec col col') as [<-|Hne];
    [apply dict_get_set_same|rewrite dict_get_set_other by exact Hne; exact H].
Qed.

Lemma step_keeps_text (col : string) (acc : controls) (col' : string) :
  dict_get col (substrings acc) = Some (text_input ui col) ->
  dict_get col (substrings (step acc col')) = Some (text_input ui col).
Proof.
  intros H. open_step col'.
  destruct (string_dec col col') as [<-|Hne];
    [apply dict_get_set_same|rewrite dict_get_set_other by exact Hne; exact H].
Qed.

Lemma step_keeps_choice (col : string) (acc : controls) (col' : string) :
  Str.startswith "__dt__" col = false ->
  dict_get col (categorical_selections acc) = Some (Values (multiselect_value ui df col)) ->
  dict_get col (categorical_selections (step acc col')) =
    Some (Values (multiselect_value ui df col)).
Proof.
  intros Hsw H. open_step col'.
  - rewrite dict_get_set_other; [exact H|].
    intros ->.
    apply (eq_true_false_abs (Str.startswith "__dt__" ("__dt__" ++ col')));
      [apply prefix_app|exact Hsw].
  - destruct (string_dec col col') as [<-|Hne];
      [apply dict_get_set_same|rewrite dict_get_set_other by exact Hne; exact H].
Qed.

Lemma step_keeps_dates (col : string) (acc : controls) (col' : string) :
  widget_of df ("__dt__" ++ col) <> Some MultiSelect ->
  dict_get ("__dt__" ++ col) (categorical_selections acc) =
    Some (DateTuple (date_input_value ui df col)) ->
  dict_get ("__dt__" ++ col) (categorical_selections (step acc col')) =
    Some (DateTuple (date_input_value ui df col)).
Proof.
  intros Hw H. open_step col'.
  - destruct (string_dec col col') as [<-|Hne]; [apply dict_get_set_same|].
    rewrite dict_get_set_other; [exact H|].
    intros E. apply Hne. apply (append_inj "__dt__"). exact E.
  - rewrite dict_get_set_other; [exact H|].
    intros E. apply Hw. subst col'. assumption.
Qed.

Lemma step_keeps_no_slider (acc : controls) (col' : string) :
  dict_get time_col (numeric_ranges acc) = None ->
  dict_get time_col (numeric_ranges (step acc col')) = None.
Proof.
  intros H. open_step col'.
  rewrite dict_get_set_other; [exact H|].
  intros <-. rewrite String.eqb_refl in *. discriminate.
Qed.

Lemma step_keeps_no_text (acc : controls) (col' : string) :
  dict_get time_col (substrings acc) = None ->
  dict_get time_col (substrings (step acc col')) = None.
Proof.
  intros H. open_step col'.
  rewrite dict_get_set_other; [exact H|].
  intros <-. rewrite String.eqb_refl in *. discriminate.
Qed.

End Collected.




(** ** Ranges that span their column *)


